(** * isYafit backend: telemetry decoding, packet merging, resistance
      correlation and compatibility classification

    A shallow embedding of [backend/data_handler.py],
    [backend/device_test.py] (command sending) and
    [backend/analyze_result.py], followed by the properties of the
    specification that are provable (or refutable) on that embedding.

    Conventions:
    - the two session dictionaries [test_results] and
      [resistance_tracking] are Python dicts with string keys; they are
      finite maps from strings to Python values;
    - a Python exception is an explicit outcome, and the state reached
      when it is raised is kept, as in Python;
    - a Python [float] obtained by true division of two integers is
      represented by the exact rational it rounds, in lowest terms;
    - a Python [str] is its UTF-8 byte string: substring tests agree
      with Python's, and iterating a string gives its bytes, which are
      its characters for ASCII text;
    - logging calls have no effect on the modelled state and are left out. *)

From Stdlib Require Import ZArith QArith String List Bool Lia.
From Stdlib Require Import Init.Byte.
From stdpp Require Import gmap strings list fin_maps.

#[local] Set Warnings "-register-all".
#[local] Open Scope Z_scope.

(** ** Python values, exceptions and the primitives the backend uses *)

Module Py.

Inductive pyval : Type :=
  | PNone
  | PBool (b : bool)
  | PInt (z : Z)
  | PFloat (q : Q)
  | PStr (s : string)
  | PList (l : list pyval)
  | PDict (m : gmap string pyval).

Inductive pyexn : Type :=
  | KeyError
  | TypeError
  | AttributeError
  | IndexError
  | OverflowError.

Inductive outcome (A : Type) : Type :=
  | Ok (a : A)
  | Raise (e : pyexn).
Arguments Ok {A} a.
Arguments Raise {A} e.

Definition obind {A B} (c : outcome A) (k : A → outcome B) : outcome B :=
  match c with
  | Ok a => k a
  | Raise e => Raise e
  end.

(** [try: c / except Exception: h] *)
Definition try_except {A} (c : outcome A) (h : pyexn → A) : A :=
  match c with
  | Ok a => a
  | Raise e => h e
  end.

(** Truth value testing ([if x], [not x], [x or y]). *)
Definition truthy (v : pyval) : bool :=
  match v with
  | PNone => false
  | PBool b => b
  | PInt z => negb (z =? 0)
  | PFloat q => negb (Qeq_bool q 0)
  | PStr s => negb (String.eqb s "")
  | PList l => negb (Nat.eqb (length l) 0)
  | PDict m => negb (Nat.eqb (size m) 0)
  end.

(** [x or y] *)
Definition por (x y : pyval) : pyval := if truthy x then x else y.

Definition is_none (v : pyval) : bool :=
  match v with
  | PNone => true
  | _ => false
  end.

(** [needle in hay] between strings: substring test. *)
Fixpoint contains (needle hay : string) : bool :=
  String.prefix needle hay ||
  match hay with
  | EmptyString => false
  | String _ rest => contains needle rest
  end.

(** [v == s] for a string literal [s]. *)
Definition eq_str (s : string) (v : pyval) : bool :=
  match v with
  | PStr t => String.eqb t s
  | _ => false
  end.

(** [n != v] for an integer [n]; Python compares numbers by value and
    an integer is never equal to a string or a container. *)
Definition int_ne (n : Z) (v : pyval) : bool :=
  match v with
  | PInt z => negb (n =? z)
  | PBool b => negb (n =? (if b then 1 else 0))
  | PFloat q => negb (Qeq_bool (inject_Z n) q)
  | _ => true
  end.

(** ['lit' in v] for a string literal: substring of a string, element
    of a list, key of a dict; the other values are not containers. *)
Definition str_in (lit : string) (v : pyval) : outcome bool :=
  match v with
  | PStr s => Ok (contains lit s)
  | PList l => Ok (existsb (eq_str lit) l)
  | PDict m => Ok (bool_decide (is_Some (m !! lit)))
  | _ => Raise TypeError
  end.

(** [d.get(key, dflt)]; only dicts have the method. *)
Definition get (d : pyval) (key : string) (dflt : pyval) : outcome pyval :=
  match d with
  | PDict m => Ok (default dflt (m !! key))
  | _ => Raise AttributeError
  end.

Fixpoint chars (s : string) : list pyval :=
  match s with
  | EmptyString => []
  | String c rest => PStr (String c EmptyString) :: chars rest
  end.

(** [for x in v]: the items iterated over. *)
Definition iter (v : pyval) : outcome (list pyval) :=
  match v with
  | PList l => Ok l
  | PStr s => Ok (chars s)
  | PDict m => Ok ((λ kv, PStr kv.1) <$> map_to_list m)
  | _ => Raise TypeError
  end.

(** [any(f(x) for x in l)], left to right, stopping at the first hit
    or the first exception. *)
Fixpoint any (f : pyval → outcome bool) (l : list pyval) : outcome bool :=
  match l with
  | [] => Ok false
  | x :: rest =>
      match f x with
      | Ok true => Ok true
      | Ok false => any f rest
      | Raise e => Raise e
      end
  end.

(** Bytes. *)
Definition byte_val (b : byte) : Z := Z.of_N (Byte.to_N b).

(** [int.from_bytes(bs, byteorder='little')] *)
Fixpoint from_bytes_little (bs : list byte) : Z :=
  match bs with
  | [] => 0
  | b :: rest => byte_val b + 256 * from_bytes_little rest
  end.

(** [int.from_bytes(bs, byteorder='little', signed=True)] *)
Definition from_bytes_little_signed (bs : list byte) : Z :=
  let v := from_bytes_little bs in
  let bits := 8 * Z.of_nat (length bs) in
  if bits =? 0 then 0
  else if v <? 2 ^ (bits - 1) then v else v - 2 ^ bits.

(** [n.to_bytes(2, byteorder='little')]: unsigned, two bytes. *)
Definition to_bytes2_little (n : Z) : outcome (list byte) :=
  if (0 <=? n) && (n <? 65536) then
    match Byte.of_N (Z.to_N (n mod 256)), Byte.of_N (Z.to_N (n / 256)) with
    | Some lo, Some hi => Ok [lo; hi]
    | _, _ => Raise OverflowError
    end
  else Raise OverflowError.

(** [l[i:j]] for [0 <= i]; a slice never raises, it is cut at the end. *)
Definition slice {A} (l : list A) (i j : nat) : list A := take (j - i) (drop i l).

(** [a / d] on integers: the float, as the exact quotient. *)
Definition true_div (a : Z) (d : positive) : Q := Qred (a # d).

End Py.

Export Py.
Abbreviation pydict := (gmap string pyval).

(** ** backend/data_handler.py *)

Module DataHandler.

(** The module's global [packet_buffer]; its three keys are always
    written together. *)
Record packet_buffer_t : Type := {
  pb_data : option (list byte);
  pb_flags : option Z;
  pb_detected_fields : pydict
}.

(** The module-level state: the globals [test_results],
    [resistance_tracking] and [packet_buffer]. *)
Record world : Type := {
  test_results : pydict;
  resistance_tracking : pydict;
  packet_buffer : packet_buffer_t;
  cp_handle : option Z;
  data_handle : option Z
}.

Definition set_test_results (key : string) (v : pyval) (w : world) : world :=
  {| test_results := <[key := v]> (test_results w);
     resistance_tracking := resistance_tracking w;
     packet_buffer := packet_buffer w;
     cp_handle := cp_handle w;
     data_handle := data_handle w |}.

Definition set_resistance_tracking (key : string) (v : pyval) (w : world) : world :=
  {| test_results := test_results w;
     resistance_tracking := <[key := v]> (resistance_tracking w);
     packet_buffer := packet_buffer w;
     cp_handle := cp_handle w;
     data_handle := data_handle w |}.

Definition set_packet_buffer (pb : packet_buffer_t) (w : world) : world :=
  {| test_results := test_results w;
     resistance_tracking := resistance_tracking w;
     packet_buffer := pb;
     cp_handle := cp_handle w;
     data_handle := data_handle w |}.

(** Computations that read and write the globals and may raise. *)
Definition M (A : Type) : Type := world → outcome A * world.

Definition ret {A} (a : A) : M A := λ w, (Ok a, w).
Definition raise {A} (e : pyexn) : M A := λ w, (Raise e, w).
Definition bind {A B} (c : M A) (k : A → M B) : M B :=
  λ w, match c w with
       | (Ok a, w') => k a w'
       | (Raise e, w') => (Raise e, w')
       end.
Definition lift {A} (c : outcome A) : M A := λ w, (c, w).
Definition modify (f : world → world) : M unit := λ w, (Ok tt, f w).
Definition gets {A} (f : world → A) : M A := λ w, (Ok (f w), w).

Notation "'let*' x ':=' c 'in' k" := (bind c (λ x, k))
  (at level 10, x name, c at level 100, k at level 200).
Notation "c ';;' k" := (bind c (λ _, k))
  (at level 100, k at level 200, right associativity).

(** [can_merge_packets(flags1, flags2)] *)
Definition can_merge_packets (flags1 flags2 : option Z) : bool :=
  match flags1, flags2 with
  | Some f1, Some f2 =>
      let flags_overlap := negb (Z.land f1 f2 =? 0) in
      negb flags_overlap
  | _, _ => false
  end.

(** [merge_packet_data(data1, flags1, fields1, data2, flags2, fields2)];
    the two field dicts are not used by the body. The slice assignment
    [merged_data[0:2] = ...] replaces the (at most two) leading bytes. *)
Definition merge_packet_data (data1 : list byte) (flags1 : Z) (fields1 : pydict)
    (data2 : list byte) (flags2 : Z) (fields2 : pydict) : outcome (list byte * Z) :=
  let merged_flags := Z.lor flags1 flags2 in
  obind (to_bytes2_little merged_flags) (λ prefix,
    let merged_data := prefix ++ drop 2 data1 in
    let merged_data :=
      if (2 <? length data2)%nat then merged_data ++ drop 2 data2 else merged_data in
    Ok (merged_data, merged_flags)).

(** *** The Indoor Bike Data parser

    [process_indoor_bike_data] is thirteen guarded blocks of one shape,
    run in bit order on a cursor [index] and the dict [detected_fields].
    A block is described by the constants that differ between them. *)
Record block : Type := {
  mask : Z;               (* the bit tested in [flags] *)
  when_clear : bool;      (* bit 0 only: the field is there when the bit is 0 *)
  width : nat;            (* bytes read, and the cursor advance *)
  key : string;           (* key written in [detected_fields] *)
  signed : bool;          (* [signed=True] in [int.from_bytes] *)
  indexed : bool;         (* heart rate: [data[index]] instead of a slice *)
  scale : option positive;(* [/ d] (a float) or the integer itself *)
  tracked : bool          (* resistance: followed by the change tracking *)
}.

Definition mk_block mask key width signed scale : block :=
  {| mask := mask; when_clear := false; width := width; key := key;
     signed := signed; indexed := false; scale := scale; tracked := false |}.

(* lines 71-76 *)
Definition speed_block : block :=
  {| mask := 0x01; when_clear := true; width := 2; key := "speed";
     signed := false; indexed := false; scale := Some 100%positive; tracked := false |}.
(* lines 79-84, 87-92, 95-100, 103-108 *)
Definition avg_speed_block := mk_block 0x02 "avg_speed" 2 false (Some 100%positive).
Definition cadence_block := mk_block 0x04 "cadence" 2 false (Some 2%positive).
Definition avg_cadence_block := mk_block 0x08 "avg_cadence" 2 false (Some 2%positive).
Definition distance_block := mk_block 0x10 "distance" 3 false (Some 10%positive).
(* lines 111-147 *)
Definition resistance_block : block :=
  {| mask := 0x20; when_clear := false; width := 2; key := "resistance";
     signed := true; indexed := false; scale := None; tracked := true |}.
(* lines 150-155, 158-163, 166-171 *)
Definition power_block := mk_block 0x40 "power" 2 true None.
Definition avg_power_block := mk_block 0x80 "avg_power" 2 true None.
Definition energy_block := mk_block 0x100 "energy" 2 false None.
(* lines 173-178 *)
Definition heart_rate_block : block :=
  {| mask := 0x200; when_clear := false; width := 1; key := "heart_rate";
     signed := false; indexed := true; scale := None; tracked := false |}.
(* lines 180-185, 187-192, 194-199 *)
Definition met_block := mk_block 0x400 "met" 2 false (Some 100%positive).
Definition elapsed_time_block := mk_block 0x800 "elapsed_time" 2 false None.
Definition remaining_time_block := mk_block 0x1000 "remaining_time" 2 false None.

Definition field_blocks : list block :=
  [ speed_block; avg_speed_block; cadence_block; avg_cadence_block;
    distance_block; resistance_block; power_block; avg_power_block;
    energy_block; heart_rate_block; met_block; elapsed_time_block;
    remaining_time_block ].

(** The test of the flag bit: [(flags & m) == 0] for bit 0,
    [flags & m] (non-zero) for the others. *)
Definition flagged (b : block) (flags : Z) : bool :=
  if when_clear b then Z.land flags (mask b) =? 0
  else negb (Z.land flags (mask b) =? 0).

(** The integer read at the cursor. *)
Definition read_raw (b : block) (data : list byte) (index : nat) : outcome Z :=
  if indexed b then
    match data !! index with
    | Some x => Ok (byte_val x)
    | None => Raise IndexError
    end
  else
    let bs := slice data index (index + width b) in
    Ok (if signed b then from_bytes_little_signed bs else from_bytes_little bs).

Definition field_value (b : block) (raw : Z) : pyval :=
  match scale b with
  | Some d => PFloat (true_div raw d)
  | None => PInt raw
  end.

(** Lines 116-146: the resistance change tracking, run with the
    resistance just read. *)
Definition track_resistance (resistance : Z) : M unit :=
  let* last := (λ w, match resistance_tracking w !! "last_resistance" with
                     | Some v => (Ok v, w)
                     | None => (Raise KeyError, w)
                     end) in
  (if negb (is_none last) then
     if int_ne resistance last then
       modify (set_resistance_tracking "resistance_change_detected" (PBool true));;
       let* pending := gets (λ w, default (PBool false)
                         (resistance_tracking w !! "resistance_command_pending")) in
       if truthy pending then
         let* command_type := gets (λ w, default (PStr "Unknown")
                                (resistance_tracking w !! "last_command_type")) in
         let* is_level := lift (str_in "SET_RESISTANCE_LEVEL" command_type) in
         (if is_level : bool then
            modify (set_test_results "resistance_control" (PBool true))
          else
            let* is_sim := lift (str_in "SET_SIM_PARAMS" command_type) in
            if is_sim : bool then
              modify (set_test_results "sim_mode_support" (PBool true))
            else ret tt);;
         modify (set_resistance_tracking "resistance_command_pending" (PBool false));;
         modify (set_resistance_tracking "last_command_type" PNone)
       else
         (* only a warning is logged *)
         ret tt
     else ret tt
   else ret tt);;
  modify (set_resistance_tracking "last_resistance" (PInt resistance)).

Record cursor : Type := {
  index : nat;
  detected_fields : pydict
}.

(** One block: test the bit, test the remaining length, read, store,
    advance. A field that does not fit is skipped and the cursor stays. *)
Definition run_block (data : list byte) (flags : Z) (b : block) (c : cursor) : M cursor :=
  if flagged b flags then
    if (index c + width b <=? length data)%nat then
      let* raw := lift (read_raw b data (index c)) in
      let fields := <[key b := field_value b raw]> (detected_fields c) in
      (if tracked b then track_resistance raw else ret tt);;
      ret {| index := (index c + width b)%nat; detected_fields := fields |}
    else ret c
  else ret c.

Fixpoint run_blocks (data : list byte) (flags : Z) (bs : list block) (c : cursor) : M cursor :=
  match bs with
  | [] => ret c
  | b :: rest =>
      let* c' := run_block data flags b c in
      run_blocks data flags rest c'
  end.

(** [index = 2; detected_fields = {}] *)
Definition start : cursor := {| index := 2; detected_fields := ∅ |}.

(** [process_indoor_bike_data(data, flags)] *)
Definition process_indoor_bike_data (data : list byte) (flags : Z) : M pydict :=
  let* c := run_blocks data flags field_blocks start in
  ret (detected_fields c).

(** *** The parser seen from outside

    What the parser returns depends on the bytes and the flags only;
    the globals matter for the tracking alone. [decode_fields] is the
    dict returned and [observed_resistance] the resistance read, if
    one is (both are related to [process_indoor_bike_data] by
    [process_indoor_bike_data_decompose] below). *)
Definition decode_block (data : list byte) (flags : Z) (b : block) (c : cursor) : cursor :=
  if flagged b flags then
    if (index c + width b <=? length data)%nat then
      match read_raw b data (index c) with
      | Ok raw =>
          {| index := (index c + width b)%nat;
             detected_fields := <[key b := field_value b raw]> (detected_fields c) |}
      | Raise _ => c
      end
    else c
  else c.

Definition decode_blocks (data : list byte) (flags : Z) (bs : list block) (c : cursor) : cursor :=
  fold_left (λ c b, decode_block data flags b c) bs c.

Definition decode_fields (data : list byte) (flags : Z) : pydict :=
  detected_fields (decode_blocks data flags field_blocks start).

Definition blocks_before_resistance : list block :=
  [speed_block; avg_speed_block; cadence_block; avg_cadence_block; distance_block].

Definition blocks_after_resistance : list block :=
  [power_block; avg_power_block; energy_block; heart_rate_block; met_block;
   elapsed_time_block; remaining_time_block].

Definition read_resistance (data : list byte) (c : cursor) : Z :=
  from_bytes_little_signed (slice data (index c) (index c + 2)).

Definition observed_resistance (data : list byte) (flags : Z) : option Z :=
  let c := decode_blocks data flags blocks_before_resistance start in
  if flagged resistance_block flags && (index c + 2 <=? length data)%nat then
    Some (read_resistance data c)
  else None.

(** A block without tracking, whose indexed read (if any) is one byte. *)
Definition plain (b : block) : Prop :=
  tracked b = false ∧ (indexed b = true → width b = 1%nat).

(** The shape of [resistance_tracking] the tracking code relies on: the
    key it subscripts is there, and a pending command has its name. *)
Definition tracking_ok (rt : pydict) : Prop :=
  is_Some (rt !! "last_resistance") ∧
  (truthy (default (PBool false) (rt !! "resistance_command_pending")) = true →
   ∃ name, default (PStr "Unknown") (rt !! "last_command_type") = PStr name).

(** [finalize_packet_processing(detected_fields)]:
    [test_results['data_fields_detected'].update(detected_fields)];
    the entries of [detected_fields] replace those already there. *)
Definition finalize_packet_processing (fields : pydict) : M unit :=
  λ w, match test_results w !! "data_fields_detected" with
       | None => (Raise KeyError, w)
       | Some (PDict old) =>
           (Ok tt, set_test_results "data_fields_detected" (PDict (fields ∪ old)) w)
       | Some _ => (Raise AttributeError, w)
       end.

Definition empty_buffer : packet_buffer_t :=
  {| pb_data := None; pb_flags := None; pb_detected_fields := ∅ |}.

(** [cleanup_packet_buffer()] *)
Definition cleanup_packet_buffer : M unit :=
  let* pb := gets packet_buffer in
  match pb_data pb with
  | Some _ =>
      finalize_packet_processing (pb_detected_fields pb);;
      modify (set_packet_buffer empty_buffer)
  | None => ret tt
  end.

(** [try: c / except Exception as e: h(e)] on the globals. *)
Definition try_catch {A} (c : M A) (h : pyexn → M A) : M A :=
  λ w, match c w with
       | (Ok a, w') => (Ok a, w')
       | (Raise e, w') => h e w'
       end.

Definition hex_digit (n : Z) : string :=
  match n with
  | 0 => "0" | 1 => "1" | 2 => "2" | 3 => "3" | 4 => "4" | 5 => "5" | 6 => "6"
  | 7 => "7" | 8 => "8" | 9 => "9" | 10 => "a" | 11 => "b" | 12 => "c"
  | 13 => "d" | 14 => "e" | _ => "f"
  end.

(** [f"{b:02x}"] for a byte. *)
Definition hex02 (b : byte) : string :=
  hex_digit (byte_val b / 16) +:+ hex_digit (byte_val b mod 16).

(** The opcode table of the acknowledgement branch and its default. *)
Definition command_name_of (request_opcode : byte) : string :=
  match byte_val request_opcode with
  | 0x00 => "REQUEST_CONTROL"
  | 0x01 => "RESET"
  | 0x04 => "SET_RESISTANCE_LEVEL"
  | 0x05 => "SET_TARGET_POWER"
  | 0x07 => "START"
  | 0x08 => "STOP"
  | 0x11 => "SET_SIM_PARAMS"
  | _ => "UNKNOWN_0x" +:+ hex02 request_opcode
  end.

(** [test_results['control_commands_tested'][name] = ok] *)
Definition record_command (name : string) (ok : bool) : M unit :=
  λ w, match test_results w !! "control_commands_tested" with
       | None => (Raise KeyError, w)
       | Some (PDict m) =>
           (Ok tt, set_test_results "control_commands_tested"
                     (PDict (<[name := PBool ok]> m)) w)
       | Some _ => (Raise TypeError, w)
       end.

(** The control point branch of [notification_handler]. *)
Definition handle_control_point (data : list byte) : M unit :=
  match data with
  | _response_code :: request_opcode :: result_code :: _ =>
      let command_name := command_name_of request_opcode in
      let success := byte_val result_code =? 0x01 in
      record_command command_name success;;
      if success then
        if existsb (Z.eqb (byte_val request_opcode)) [0x04; 0x05; 0x11] then
          modify (set_resistance_tracking "resistance_command_pending" (PBool true));;
          modify (set_resistance_tracking "last_command_type" (PStr command_name))
        else ret tt
      else ret tt
  | _ => ret tt
  end.

(** The Indoor Bike Data branch of [notification_handler]. *)
Definition handle_bike_data (data : list byte) : M unit :=
  let flags := from_bytes_little (slice data 0 2) in
  let* current_fields := process_indoor_bike_data data flags in
  let* pb := gets packet_buffer in
  let* merged :=
    match pb_data pb with
    | Some prev_data =>
        match (if can_merge_packets (pb_flags pb) (Some flags)
               then pb_flags pb else None) with
        | Some prev_flags =>
            let* md := lift (merge_packet_data prev_data prev_flags
                               (pb_detected_fields pb) data flags current_fields) in
            let* merged_fields := process_indoor_bike_data md.1 md.2 in
            ret (Some merged_fields)
        | None =>
            finalize_packet_processing (pb_detected_fields pb);;
            ret None
        end
    | None => ret None
    end in
  match merged with
  | Some merged_fields =>
      finalize_packet_processing merged_fields;;
      modify (set_packet_buffer empty_buffer)
  | None =>
      modify (set_packet_buffer
                {| pb_data := Some data; pb_flags := Some flags;
                   pb_detected_fields := current_fields |})
  end.

(** [test_results['issues_found'].append(msg)] *)
Definition append_issue (msg : string) : M unit :=
  λ w, match test_results w !! "issues_found" with
       | None => (Raise KeyError, w)
       | Some (PList l) =>
           (Ok tt, set_test_results "issues_found" (PList (l ++ [PStr msg])) w)
       | Some _ => (Raise AttributeError, w)
       end.

Section Handler.

(** [str(e)] of a caught exception; the text is the interpreter's. *)
Variable exn_text : pyexn → string.

(** [notification_handler(sender, data)], [sender_handle] being
    [sender.handle]. *)
Definition notification_handler (sender_handle : option Z) (data : list byte) : M unit :=
  try_catch
    (let* cp := gets cp_handle in
     let* dh := gets data_handle in
     if bool_decide (sender_handle = cp) then handle_control_point data
     else if bool_decide (sender_handle = dh) then handle_bike_data data
     else ret tt)
    (λ e, append_issue ("Notification processing error: " +:+ exn_text e)).

End Handler.

End DataHandler.

(** ** backend/device_test.py: sending a command *)

Module DeviceTest.
Import DataHandler.

Definition resistance_related_commands : list string :=
  ["SET_RESISTANCE_LEVEL"; "SET_TARGET_POWER"; "SET_SIM_PARAMS"].

(** [send_control_command(client, command_data, command_name,
    expected_resistance)], up to the write to the device, which is the
    transport's. [now] is the value of [time.time()]. The session
    driver makes this module's [resistance_tracking] the dict the data
    handler uses. *)
Definition send_control_command (command_name : string)
    (expected_resistance : option Z) (now : Q) : M unit :=
  let is_resistance_command :=
    existsb (λ cmd, contains cmd command_name) resistance_related_commands in
  if is_resistance_command then
    modify (set_resistance_tracking "resistance_command_pending" (PBool true));;
    modify (set_resistance_tracking "last_command_type" (PStr command_name));;
    modify (set_resistance_tracking "command_sent_time" (PFloat now));;
    match expected_resistance with
    | Some r => modify (set_resistance_tracking "expected_resistance" (PInt r))
    | None => ret tt
    end
  else ret tt.

(** The [finally] clause of [connect_and_test_device]: the buffer is
    flushed and a failure of the flush is logged only. *)
Definition teardown : M unit :=
  try_catch cleanup_packet_buffer (λ _, ret tt).

(** [set_global_handles(cp_h, data_h)], as far as the data handler's
    globals go. *)
Definition set_global_handles (cp_h data_h : option Z) : M unit :=
  modify (λ w, {| test_results := test_results w;
                  resistance_tracking := resistance_tracking w;
                  packet_buffer := packet_buffer w;
                  cp_handle := cp_h;
                  data_handle := data_h |}).

End DeviceTest.

(** ** backend/analyze_result.py *)

Module AnalyzeResult.

(** The values written under ['compatibility_level']. *)
Definition IMPOSSIBLE : string := "불가능".
Definition UNVERIFIABLE_CUSTOM_PROTOCOL : string := "호환 확인 현재 불가".
Definition PARTIAL : string := "부분 호환".
Definition PARTIAL_FIXABLE : string := "부분 호환 (수정 후 완벽 호환)".
Definition FULL : string := "완벽 호환".
(** Written by the device test for a vendor protocol, never by the
    classifier. *)
Definition VENDOR_APP_REQUIRED : string := "수정 필요".

Definition verdicts : list string :=
  [IMPOSSIBLE; UNVERIFIABLE_CUSTOM_PROTOCOL; VENDOR_APP_REQUIRED;
   PARTIAL; PARTIAL_FIXABLE; FULL].

Definition anomaly_text : string :=
  "Resistance changed without any resistance-related command".

(** [test_results['compatibility_level'] = level;
     test_results['reasons'] = [reason]] *)
Definition conclude (level reason : string) (test_results : pydict) : pydict :=
  <["reasons" := PList [PStr reason]]>
    (<["compatibility_level" := PStr level]> test_results).

(** [f"{v}"] where [v] is known to be a string. *)
Definition fstring (v : pyval) : string :=
  match v with
  | PStr s => s
  | _ => ""
  end.

(** What the classifier expects of two entries of the record: the
    device identity is a dict (or absent, or [None]), and the anomaly
    list is a list of strings (or absent, or [None]). *)
Definition dict_or_missing (entry : option pyval) : Prop :=
  entry = None ∨ entry = Some PNone ∨ ∃ m, entry = Some (PDict m).

Definition anomaly_list (entry : option pyval) (issues : list string) : Prop :=
  (entry = None ∧ issues = []) ∨ (entry = Some PNone ∧ issues = []) ∨
  entry = Some (PList (PStr <$> issues)).

Section Classifier.

(** [str(x).lower()] and [str(e)]: the interpreter's. *)
Variable str_lower : pyval → string.
Variable exn_text : pyexn → string.

Definition has_csc_service_of (services : pyval) : bool :=
  try_except
    (obind (iter services)
       (any (λ service,
          Ok (contains "1816" (str_lower service)
              || contains "cycling_speed_and_cadence" (str_lower service)))))
    (λ _, false).

Definition has_csc_features_of (features_supported : pyval) : pyval :=
  try_except
    (obind (get features_supported "CSC Measurement" (PBool false)) (λ a,
       if truthy a then Ok a
       else get features_supported "CSC Feature" (PBool false)))
    (λ _, PBool false).

(** ['speed' in d and 'cadence' in d] *)
Definition has_speed_and_cadence_of (d : pyval) : outcome bool :=
  obind (str_in "speed" d) (λ s,
    if s : bool then str_in "cadence" d else Ok false).

(** The detailed analysis of an FTMS device, lines 111-150. *)
Definition analyze_ftms (test_results : pydict) : outcome pydict :=
  let detected_fields :=
    por (default PNone (test_results !! "data_fields_detected")) (PDict ∅) in
  obind (has_speed_and_cadence_of detected_fields) (λ has_speed_and_cadence,
    let sim_working := default (PBool false) (test_results !! "sim_mode_support") in
    if has_speed_and_cadence && truthy sim_working then
      Ok (conclude FULL
            "속도와 캐던스 데이터가 모두 있고, 시뮬레이션 모드가 정상 작동합니다."
            test_results)
    else if has_speed_and_cadence && negb (truthy sim_working) then
      let issues_found :=
        por (default PNone (test_results !! "issues_found")) (PList []) in
      Ok (try_except
            (obind (obind (iter issues_found) (any (str_in anomaly_text))) (λ hit,
               if hit : bool then
                 Ok (conclude PARTIAL_FIXABLE
                       "저항이 관련 명령어 없이 자동으로 변합니다. 설정 수정 후 완벽 호환 가능합니다."
                       test_results)
               else
                 Ok (conclude PARTIAL
                       "속도와 캐던스 데이터는 모두 있지만, 시뮬레이션 모드는 지원하지 않거나 다른 문제가 있을 수 있습니다."
                       test_results)))
            (λ _, conclude PARTIAL
                    "속도와 캐던스 데이터는 모두 있지만, 시뮬레이션 모드 확인 중 오류가 발생했습니다."
                    test_results))
    else if negb has_speed_and_cadence then
      Ok (conclude IMPOSSIBLE
            "필수 데이터인 속도와 캐던스 중 하나 또는 둘 다 감지되지 않았습니다."
            test_results)
    else
      Ok (conclude IMPOSSIBLE "기본 요구사항을 만족하지 않습니다." test_results)).

(** The body of the outer [try]. No statement that can raise follows a
    write to [test_results], so the result is the dict after the body
    or the exception raised on the untouched dict. *)
Definition analyze_body (test_results : pydict) : outcome pydict :=
  if negb (truthy (PDict test_results)) then
    (* the defaults are bound to the local name only; the caller's
       dict is returned as it came *)
    Ok test_results
  else
  let connection_status := default (PBool false) (test_results !! "connection_status") in
  if negb (truthy connection_status) then
    Ok (conclude IMPOSSIBLE
          "기기 연결이 실패했습니다. 블루투스 설정을 확인하세요." test_results)
  else
  let device_info := por (default PNone (test_results !! "device_info")) (PDict ∅) in
  obind (get device_info "services" (PList [])) (λ services,
  let services := if is_none services then PList [] else services in
  let has_csc_service := has_csc_service_of services in
  let features_supported :=
    por (default PNone (test_results !! "features_supported")) (PDict ∅) in
  let has_csc_features := has_csc_features_of features_supported in
  let has_csc_sensor := has_csc_service || truthy has_csc_features in
  let detected_fields_early_check :=
    default (PDict ∅) (test_results !! "data_fields_detected") in
  obind (has_speed_and_cadence_of detected_fields_early_check)
    (λ has_essential_data_fields,
  if negb (has_csc_sensor || has_essential_data_fields) then
    Ok (conclude IMPOSSIBLE
          "필수 정보인 속도/캐던스 센서 또는 데이터가 발견되지 않았습니다."
          test_results)
  else
  let protocol_type := default (PStr "") (test_results !! "protocol_type") in
  if existsb (λ name, eq_str name protocol_type)
       ["MOBI (커스텀)"; "REBORN (커스텀)"; "TACX (커스텀)"] then
    Ok (conclude UNVERIFIABLE_CUSTOM_PROTOCOL
          (fstring protocol_type +:+ " 프로토콜은 현재 호환성 확인이 불가능합니다.")
          test_results)
  else if negb (existsb (λ name, eq_str name protocol_type)
                  ["FTMS (표준)"; "CSC (표준)"]) then
    Ok (conclude IMPOSSIBLE "지원되지 않는 프로토콜입니다." test_results)
  else if eq_str "CSC (표준)" protocol_type then
    Ok (conclude PARTIAL "CSC 프로토콜은 속도/캐던스 데이터만 제공합니다." test_results)
  else analyze_ftms test_results)).

(** [analyze_test_results(test_results)]: the dict after the call. *)
Definition analyze_test_results (test_results : pydict) : pydict :=
  try_except (analyze_body test_results)
    (λ e, conclude IMPOSSIBLE
            ("분석 중 오류가 발생했습니다: " +:+ exn_text e) test_results).

End Classifier.

End AnalyzeResult.

(** ** backend/is_yafit_interactive.py: the session's initial state *)

Module Session.
Import DataHandler.

(** The [test_results] dict the driver creates and shares with the
    other modules. *)
Definition test_results0 : pydict :=
  list_to_map
    [ ("device_info", PDict ∅); ("connection_status", PBool false);
      ("protocol_type", PStr ""); ("features_supported", PDict ∅);
      ("data_fields_detected", PDict ∅); ("control_commands_tested", PDict ∅);
      ("support_ranges", PDict ∅); ("control_tests", PDict ∅);
      ("sim_mode_support", PBool false); ("resistance_control", PBool false);
      ("power_control", PBool false); ("compatibility_level", PStr "");
      ("issues_found", PList []); ("reasons", PList []) ].

Definition resistance_tracking0 : pydict :=
  list_to_map
    [ ("last_resistance", PNone); ("expected_resistance", PNone);
      ("resistance_change_detected", PBool false); ("command_sent_time", PNone);
      ("last_command_type", PNone); ("resistance_command_pending", PBool false) ].

(** The state once the driver has shared its dicts. *)
Definition initial_world : world :=
  {| test_results := test_results0;
     resistance_tracking := resistance_tracking0;
     packet_buffer := empty_buffer;
     cp_handle := None;
     data_handle := None |}.

(** The globals of [data_handler] as the module itself creates them
    (lines 7-19), before any driver assigns them. *)
Definition module_world : world :=
  {| test_results := ∅;
     resistance_tracking := ∅;
     packet_buffer := empty_buffer;
     cp_handle := None;
     data_handle := None |}.

End Session.

(** ** Concrete notifications and sessions used below *)

Module Scenarios.
Import DataHandler Session.

(** Speed 100.00 km/h and cadence 50.0 rpm, flags [0x0004]. *)
Definition packet1 : list byte := [x04; x00; x10; x27; x64; x00].
(** Resistance 5 alone, flags [0x0021] (bit 0 set: no speed). *)
Definition packet2 : list byte := [x21; x00; x05; x00].
Definition fields1 : pydict := <["speed" := PFloat 100]> {[ "cadence" := PFloat 50 ]}.
Definition fields2 : pydict := {[ "resistance" := PInt 5 ]}.
Definition merged_packet : list byte := [x25; x00; x10; x27; x64; x00; x05; x00].
Definition merged_fields : pydict :=
  <["cadence" := PFloat 5000]> {[ "resistance" := PInt 100 ]}.

(** The two notifications arriving one after the other. *)
Definition merge_session (exn_text : pyexn → string) : M unit :=
  DeviceTest.set_global_handles (Some 1) (Some 2);;
  notification_handler exn_text (Some 2) packet1;;
  notification_handler exn_text (Some 2) packet2.

(** The session state once a resistance of 5 has been seen. *)
Definition world_at_5 : world :=
  snd (process_indoor_bike_data [x21; x00; x05; x00] 0x0021 initial_world).

(** ... and a SET_RESISTANCE_LEVEL command has then been sent. *)
Definition world_pending : world :=
  snd (DeviceTest.send_control_command "SET_RESISTANCE_LEVEL" None 0 world_at_5).

(** A first sample with resistance 5, the command, its
    acknowledgement, then a sample with resistance 8. *)
Definition level_scenario (exn_text : pyexn → string) : M unit :=
  DeviceTest.set_global_handles (Some 1) (Some 2);;
  notification_handler exn_text (Some 2) [x21; x00; x05; x00];;
  DeviceTest.send_control_command "SET_RESISTANCE_LEVEL" None 0;;
  notification_handler exn_text (Some 1) [x80; x04; x01];;
  notification_handler exn_text (Some 2) [x21; x00; x08; x00].

(** A connected FTMS device whose resistance drifts from 5 to 8 while
    no command is pending; both samples carry speed and cadence. *)
Definition drift_session (exn_text : pyexn → string) : M unit :=
  modify (set_test_results "connection_status" (PBool true));;
  modify (set_test_results "protocol_type" (PStr "FTMS (표준)"));;
  DeviceTest.set_global_handles (Some 1) (Some 2);;
  notification_handler exn_text (Some 2) [x24; x00; x10; x27; x64; x00; x05; x00];;
  notification_handler exn_text (Some 2) [x24; x00; x10; x27; x64; x00; x08; x00];;
  DeviceTest.teardown.

(** One sample received and still in the buffer. *)
Definition world_buffered : world :=
  snd ((DeviceTest.set_global_handles (Some 1) (Some 2);;
        notification_handler (λ _, EmptyString) (Some 2) packet1) initial_world).

(** A connected FTMS record with both fields and the anomaly text. *)
Definition fixable_record : pydict :=
  list_to_map
    [ ("connection_status", PBool true); ("protocol_type", PStr "FTMS (표준)");
      ("device_info", PDict ∅);
      ("data_fields_detected",
        PDict (<["speed" := PFloat 100]> {[ "cadence" := PFloat 50 ]}));
      ("sim_mode_support", PBool false);
      ("issues_found",
        PList [PStr "Resistance changed without any resistance-related command!"]) ].

End Scenarios.


(** ** backend/constants.py *)

Module Constants.

Definition FTMS_SERVICE_UUID : string := "00001826-0000-1000-8000-00805f9b34fb".
Definition CSC_SERVICE_UUID : string := "00001816-0000-1000-8000-00805f9b34fb".
Definition MOBI_SERVICE_UUID : string := "0000ffe0-0000-1000-8000-00805f9b34fb".
Definition REBORN_SERVICE_UUID : string := "00010203-0405-0607-0809-0a0b0c0d1910".
Definition TACX_SERVICE_UUID : string := "6e40fec1-b5a3-f393-e0a9-e50e24dcca9e".

(** [s.lower()] on ASCII letters; the service identifiers above are
    ASCII. *)
Definition lower_ascii (c : Ascii.ascii) : Ascii.ascii :=
  let n := Ascii.nat_of_ascii c in
  if ((65 <=? n) && (n <=? 90))%nat then Ascii.ascii_of_nat (n + 32) else c.

Fixpoint lower (s : string) : string :=
  match s with
  | EmptyString => EmptyString
  | String c rest => String (lower_ascii c) (lower rest)
  end.

(** [bytearray([...])]: every item must be in [range(256)]; [None]
    stands for the [ValueError] raised otherwise. *)
Fixpoint bytearray (items : list Z) : option (list byte) :=
  match items with
  | [] => Some []
  | n :: rest =>
      if (0 <=? n) && (n <? 256) then
        match Byte.of_N (Z.to_N n), bytearray rest with
        | Some b, Some bs => Some (b :: bs)
        | _, _ => None
        end
      else None
  end.

Definition REQUEST_CONTROL : option (list byte) := bytearray [0x00].
Definition RESET : option (list byte) := bytearray [0x01].
Definition START : option (list byte) := bytearray [0x07].
Definition STOP : option (list byte) := bytearray [0x08].
Definition GET_INCLINE_RANGE : option (list byte) := bytearray [0x11].

(** [SET_RESISTANCE_LEVEL = lambda level: bytearray([0x04, level & 0xFF])] *)
Definition SET_RESISTANCE_LEVEL (level : Z) : option (list byte) :=
  bytearray [0x04; Z.land level 0xFF].

(** [SET_TARGET_POWER = lambda watts:
     bytearray([0x05, watts & 0xFF, (watts >> 8) & 0xFF])] *)
Definition SET_TARGET_POWER (watts : Z) : option (list byte) :=
  bytearray [0x05; Z.land watts 0xFF; Z.land (Z.shiftr watts 8) 0xFF].

Definition SET_SIM_PARAMS : option (list byte) :=
  bytearray [0x11; 0x00; 0x00; 0xD0; 0x07; 0x00; 0x00; 0x00; 0x00].

End Constants.

(** ** backend/scanner.py: the detection callback *)

Module Scanner.
Import Constants.

(** The value stored in [device_protocols] for an address. *)
Record protocol_info : Type := {
  protocols : list string;
  primary_protocol : string;
  protocols_str : string
}.

(** ["+".join(items)] *)
Fixpoint join_plus (items : list string) : string :=
  match items with
  | [] => ""
  | [x] => x
  | x :: rest => x +:+ "+" +:+ join_plus rest
  end.

(** [uuid.lower() in device_services] *)
Definition advertised (uuid : string) (device_services : list string) : bool :=
  existsb (String.eqb (lower uuid)) device_services.

Definition supported_services : list string :=
  [FTMS_SERVICE_UUID; CSC_SERVICE_UUID; MOBI_SERVICE_UUID; REBORN_SERVICE_UUID;
   TACX_SERVICE_UUID].

(** The protocol named first, FTMS before the vendor protocols, CSC
    last. *)
Definition protocol_type_of (device_services : list string) : string :=
  if advertised FTMS_SERVICE_UUID device_services then "FTMS (표준)"
  else if advertised MOBI_SERVICE_UUID device_services then "MOBI (커스텀)"
  else if advertised REBORN_SERVICE_UUID device_services then "REBORN (커스텀)"
  else if advertised TACX_SERVICE_UUID device_services then "TACX (커스텀)"
  else if advertised CSC_SERVICE_UUID device_services then "CSC (표준)"
  else "기타".

Definition supported_protocols_of (device_services : list string) : list string :=
  (if advertised FTMS_SERVICE_UUID device_services then ["FTMS"] else []) ++
  (if advertised CSC_SERVICE_UUID device_services then ["CSC"] else []) ++
  (if advertised MOBI_SERVICE_UUID device_services then ["MOBI"] else []) ++
  (if advertised REBORN_SERVICE_UUID device_services then ["REBORN"] else []) ++
  (if advertised TACX_SERVICE_UUID device_services then ["TACX"] else []).

Section Detection.

(** A discovered device, compared as [device not in ftms_devices]
    compares it, and its address. *)
Context {device : Type} `{EqDecision device}.
Variable address : device → string.

(** The list being filled by the scan and the global
    [device_protocols]. *)
Record scan_state : Type := {
  ftms_devices : list device;
  device_protocols : gmap string protocol_info
}.

(** [detection_callback(device, advertisement_data)];
    [device_services] is the list
    [[str(uuid).lower() for uuid in advertisement_data.service_uuids]]. *)
Definition detection_callback (d : device) (device_services : list string)
    (s : scan_state) : scan_state :=
  let has_supported_service :=
    existsb (λ service_uuid, advertised service_uuid device_services)
      supported_services in
  if has_supported_service && negb (bool_decide (d ∈ ftms_devices s)) then
    let protocol_type := protocol_type_of device_services in
    let supported_protocols := supported_protocols_of device_services in
    let protocols_str :=
      if (1 <? length supported_protocols)%nat then join_plus supported_protocols
      else protocol_type in
    {| ftms_devices := ftms_devices s ++ [d];
       device_protocols :=
         <[address d := {| protocols := supported_protocols;
                           primary_protocol := protocol_type;
                           protocols_str := protocols_str |}]>
           (device_protocols s) |}
  else s.

End Detection.

End Scanner.

(** ** backend/device_test.py: what is read from the device *)

Module DeviceProbe.
Import Constants Scanner.

(** One turn of the loop over the services of the connected device
    (lines 129-149): the name is appended, and the first recognised
    service names the protocol. *)
Definition note_service (acc : string * list string) (service_uuid : string)
    : string * list string :=
  let '(detected_protocol, supported_protocols_list) := acc in
  let first name := if String.eqb detected_protocol "UNKNOWN" then name
                    else detected_protocol in
  if String.eqb service_uuid (lower FTMS_SERVICE_UUID) then
    (first "FTMS (표준)", supported_protocols_list ++ ["FTMS"])
  else if String.eqb service_uuid (lower CSC_SERVICE_UUID) then
    (first "CSC (표준)", supported_protocols_list ++ ["CSC"])
  else if String.eqb service_uuid (lower MOBI_SERVICE_UUID) then
    (first "MOBI (커스텀)", supported_protocols_list ++ ["MOBI"])
  else if String.eqb service_uuid (lower REBORN_SERVICE_UUID) then
    (first "REBORN (커스텀)", supported_protocols_list ++ ["REBORN"])
  else if String.eqb service_uuid (lower TACX_SERVICE_UUID) then
    (first "TACX (커스텀)", supported_protocols_list ++ ["TACX"])
  else acc.

(** Lines 120-153 of [connect_and_test_device]: the protocol of the
    connected device, from what the scan stored for its address or,
    without it, from the services found. *)
Definition detect_protocol (stored : option protocol_info)
    (detected_services : list string) : string * list string :=
  match stored with
  | Some protocol_info =>
      ((if String.eqb (primary_protocol protocol_info) "" then "UNKNOWN"
        else primary_protocol protocol_info),
       protocols protocol_info)
  | None =>
      let '(detected_protocol, supported_protocols_list) :=
        fold_left note_service detected_services ("UNKNOWN", []) in
      ((if existsb (String.eqb "FTMS") supported_protocols_list then "FTMS (표준)"
        else detected_protocol),
       supported_protocols_list)
  end.

(** Lines 235-267: the feature names, by bit. *)
Definition feature_table : list (Z * string) :=
  [ (0x01, "average_speed"); (0x02, "cadence"); (0x04, "total_distance");
    (0x08, "inclination"); (0x10, "elevation_gain"); (0x20, "pace");
    (0x40, "step_count"); (0x80, "resistance_level"); (0x100, "stride_count");
    (0x200, "expended_energy"); (0x400, "heart_rate");
    (0x800, "metabolic_equivalent"); (0x1000, "elapsed_time");
    (0x2000, "remaining_time"); (0x4000, "power_measurement");
    (0x8000, "force_on_belt") ].

Definition note_feature (feature_bits : Z) (features : pydict) (entry : Z * string)
    : pydict :=
  if negb (Z.land feature_bits entry.1 =? 0) then <[entry.2 := PBool true]> features
  else features.

(** Lines 231-269: [feature_bits = int.from_bytes(feature_data, ...)]
    and the dict stored under ['features_supported']. *)
Definition features_of (feature_data : list byte) : pydict :=
  let feature_bits := from_bytes_little feature_data in
  fold_left (note_feature feature_bits) feature_table ∅.

(** Lines 319-328: the resistance range, three unsigned 16-bit values. *)
Definition resistance_range_of (resistance_range_data : list byte) : pydict :=
  list_to_map
    [ ("min", PInt (from_bytes_little (slice resistance_range_data 0 2)));
      ("max", PInt (from_bytes_little (slice resistance_range_data 2 4)));
      ("increment", PInt (from_bytes_little (slice resistance_range_data 4 6))) ].

(** Lines 377-387: the command of the resistance test, the middle of
    the range when it is known, 8 otherwise. *)
Definition resistance_test_command (range : option (Z * Z)) : option (list byte) :=
  match range with
  | Some (min_resistance, max_resistance) =>
      let mid_resistance := (min_resistance + max_resistance) / 2 in
      SET_RESISTANCE_LEVEL mid_resistance
  | None => SET_RESISTANCE_LEVEL 8
  end.

End DeviceProbe.


(** ** Quantities used to state the properties of the parser *)

Module DecoderLayout.
Import DataHandler.

(** The bytes the fields announced by [flags] take, among [bs]. *)
Definition payload_width (flags : Z) (bs : list block) : nat :=
  sum_list (width <$> filter (λ b, flagged b flags = true) bs).

(** The length of a notification that carries every field its flags
    announce: the two flag bytes and the fields. *)
Definition required_length (flags : Z) : nat := 2 + payload_width flags field_blocks.

(** An indexed read ([data[index]]) takes one byte. *)
Definition byte_indexed (b : block) : Prop := indexed b = true → width b = 1%nat.

End DecoderLayout.


(** ** The shape of the packet buffer *)

Module BufferShape.
Import DataHandler.

(** Either nothing is buffered, or a notification is, with the flags
    read from its first two bytes. *)
Definition buffer_ok (pb : packet_buffer_t) : Prop :=
  match pb_data pb, pb_flags pb with
  | Some data, Some flags => flags = from_bytes_little (slice data 0 2)
  | None, None => pb_detected_fields pb = ∅
  | _, _ => False
  end.

(** The body of the handler's [try]. *)
Definition handler_body (sender_handle : option Z) (data : list byte) : M unit :=
  let* cp := gets cp_handle in
  let* dh := gets data_handle in
  if bool_decide (sender_handle = cp) then handle_control_point data
  else if bool_decide (sender_handle = dh) then handle_bike_data data
  else ret tt.

(** The entries of the record the bike data branch may write. *)
Definition data_keys : list string :=
  ["resistance_control"; "sim_mode_support"; "data_fields_detected"].

End BufferShape.

(** ** What a scan keeps *)

Module ScanShape.
Import Scanner.

Section Shape.
Context {device : Type} `{EqDecision device}.
Variable address : device → string.

(** No device is listed twice and every listed device has its protocol
    information stored under its address. *)
Definition scan_ok (s : scan_state) : Prop :=
  NoDup (ftms_devices s) ∧
  ∀ d, d ∈ ftms_devices s → is_Some (device_protocols s !! address d).

End Shape.

End ScanShape.

(** ** What the classifier writes *)

Module ClassifierShape.
Import AnalyzeResult.

(** The verdicts the classifier can write. *)
Definition written : list string :=
  [IMPOSSIBLE; UNVERIFIABLE_CUSTOM_PROTOCOL; PARTIAL; PARTIAL_FIXABLE; FULL].

End ClassifierShape.

(** ** The services the probe recognises *)

Module ProbeShape.
Import Constants Scanner.

Definition recognised (service_uuid : string) : bool :=
  existsb (λ uuid, String.eqb service_uuid (lower uuid)) supported_services.

End ProbeShape.

(** ** More concrete states and records *)

Module Samples.
Import DataHandler Session Scenarios Scanner.

(** The handles are known and nothing has been received yet. *)
Definition world_ready : world :=
  snd (DeviceTest.set_global_handles (Some 1) (Some 2) initial_world).

(** A resistance of 5 has been seen and the driver has sent its
    simulation command, under the name it uses for it. *)
Definition world_sim_pending : world :=
  snd (DeviceTest.send_control_command "SET_SIM_PARAMS(10%)" None 0 world_at_5).

(** ... or the target power command. *)
Definition world_power_pending : world :=
  snd (DeviceTest.send_control_command "SET_TARGET_POWER" None 0 world_at_5).

(** One sample received and still in the buffer, on the globals as
    [data_handler] creates them. *)
Definition module_buffered : world :=
  snd ((DeviceTest.set_global_handles (Some 1) (Some 2);;
        notification_handler (λ _, EmptyString) (Some 2) packet1) module_world).

(** Speed and cadence again, with other values: same flags as
    [packet1]. *)
Definition packet3 : list byte := [x04; x00; x20; x4e; x78; x00].

(** A connected sensor-only device with both fields detected. *)
Definition csc_record : pydict :=
  list_to_map
    [ ("connection_status", PBool true); ("protocol_type", PStr "CSC (표준)");
      ("device_info", PDict ∅);
      ("data_fields_detected",
        PDict (<["speed" := PFloat 100]> {[ "cadence" := PFloat 50 ]})) ].

(** A connected FTMS device that showed its speed only. *)
Definition speed_only_record : pydict :=
  list_to_map
    [ ("connection_status", PBool true); ("protocol_type", PStr "FTMS (표준)");
      ("device_info",
        PDict {[ "services" := PList [PStr "00001826-0000-1000-8000-00805f9b34fb"] ]});
      ("features_supported", PDict {[ "cadence" := PBool true ]});
      ("data_fields_detected", PDict {[ "speed" := PFloat 100 ]});
      ("sim_mode_support", PBool true) ].

(** A record whose detected-field entry was reset to [None]. *)
Definition reset_record : pydict :=
  list_to_map
    [ ("connection_status", PBool true); ("protocol_type", PStr "CSC (표준)");
      ("features_supported", PDict {[ "CSC Measurement" := PBool true ]});
      ("data_fields_detected", PNone) ].

(** A scan that has seen nothing yet; the devices are numbered. *)
Definition scan_empty : scan_state (device := nat) :=
  {| ftms_devices := []; device_protocols := ∅ |}.

Definition address_of (d : nat) : string :=
  if Nat.eqb d 7 then "C0:FF:EE:00:00:07" else "C0:FF:EE:00:00:00".

End Samples.

(** * Properties *)

(** ** The primitives on small inputs *)

Section Primitives.

Example from_bytes_little_2710 : from_bytes_little [x10; x27] = 10000.
Proof. reflexivity. Qed.

Example from_bytes_signed_minus_one : from_bytes_little_signed [xff; xff] = -1.
Proof. reflexivity. Qed.

Example from_bytes_signed_min : from_bytes_little_signed [x00; x80] = -32768.
Proof. reflexivity. Qed.

Example to_bytes2_little_0025 : to_bytes2_little 0x0025 = Ok [x25; x00].
Proof. reflexivity. Qed.

Example to_bytes2_little_overflow : to_bytes2_little 0x10000 = Raise OverflowError.
Proof. reflexivity. Qed.

Example slice_is_cut : slice [x01; x02; x03] 2 4 = [x03].
Proof. reflexivity. Qed.

Example contains_command :
  contains "SET_SIM_PARAMS" "SET_SIM_PARAMS(10%)" = true ∧
  contains "SET_SIM_PARAMS" "SET_TARGET_POWER" = false.
Proof. split; reflexivity. Qed.

Example true_div_half : true_div 100 2 = 50%Q.
Proof. reflexivity. Qed.

Example command_name_unknown :
  DataHandler.command_name_of x13 = "UNKNOWN_0x13".
Proof. reflexivity. Qed.

Example flags_overlap :
  DataHandler.can_merge_packets (Some 0x0024) (Some 0x0024) = false ∧
  DataHandler.can_merge_packets None (Some 0x0024) = false.
Proof. split; reflexivity. Qed.

End Primitives.

(** ** The parser is a pure decoding plus at most one tracking step *)

(** Unfolds the tracking code down to matches on the dict lookups. *)
Ltac unfold_track :=
  unfold DataHandler.track_resistance, DataHandler.bind, DataHandler.modify,
    DataHandler.gets, DataHandler.lift, DataHandler.ret,
    DataHandler.set_resistance_tracking, DataHandler.set_test_results; simpl.

Section DecoderStructure.
Import DataHandler.

Lemma run_block_plain data flags b c w :
  plain b → run_block data flags b c w = (Ok (decode_block data flags b c), w).
Proof.
  intros [Ht Hi]. unfold run_block, decode_block.
  destruct (flagged b flags); [|done].
  destruct (index c + width b <=? length data)%nat eqn:Hfit; [|done].
  unfold read_raw, bind, lift, ret. destruct (indexed b) eqn:Hidx.
  - rewrite (Hi eq_refl) in Hfit. apply Nat.leb_le in Hfit.
    destruct (data !! index c) eqn:Hl.
    + by rewrite Ht.
    + apply lookup_ge_None in Hl. lia.
  - by rewrite Ht.
Qed.

Lemma run_blocks_plain data flags bs c w :
  Forall plain bs →
  run_blocks data flags bs c w = (Ok (decode_blocks data flags bs c), w).
Proof.
  intros Hbs. revert c. induction Hbs as [|b bs Hb _ IH]; intros c; [done|].
  simpl. unfold bind at 1. rewrite run_block_plain by done. apply IH.
Qed.

Lemma run_blocks_app data flags bs1 bs2 c w :
  run_blocks data flags (bs1 ++ bs2) c w
  = bind (run_blocks data flags bs1 c) (run_blocks data flags bs2) w.
Proof.
  revert c w. induction bs1 as [|b bs1 IH]; intros c w; [done|].
  simpl. unfold bind in *. destruct (run_block data flags b c w) as [[c'|e] w']; [|done].
  by rewrite IH.
Qed.

Lemma plain_before : Forall plain blocks_before_resistance.
Proof. repeat constructor; discriminate. Qed.

Lemma plain_after : Forall plain blocks_after_resistance.
Proof. repeat constructor; discriminate. Qed.

Lemma field_blocks_split :
  field_blocks = blocks_before_resistance ++ resistance_block :: blocks_after_resistance.
Proof. reflexivity. Qed.

Lemma decode_blocks_app data flags bs1 bs2 c :
  decode_blocks data flags (bs1 ++ bs2) c
  = decode_blocks data flags bs2 (decode_blocks data flags bs1 c).
Proof. apply fold_left_app. Qed.

Lemma decode_blocks_cons data flags b bs c :
  decode_blocks data flags (b :: bs) c
  = decode_blocks data flags bs (decode_block data flags b c).
Proof. reflexivity. Qed.

Lemma decode_fields_split data flags :
  decode_fields data flags
  = detected_fields
      (decode_blocks data flags blocks_after_resistance
         (decode_block data flags resistance_block
            (decode_blocks data flags blocks_before_resistance start))).
Proof.
  unfold decode_fields.
  by rewrite field_blocks_split, decode_blocks_app, decode_blocks_cons.
Qed.

Lemma run_block_resistance data flags c w :
  run_block data flags resistance_block c w =
  if flagged resistance_block flags && (index c + 2 <=? length data)%nat then
    match track_resistance (read_resistance data c) w with
    | (Ok _, w') =>
        (Ok {| index := index c + 2;
               detected_fields := <["resistance" := PInt (read_resistance data c)]> (detected_fields c) |},
         w')
    | (Raise e, w') => (Raise e, w')
    end
  else (Ok c, w).
Proof.
  unfold run_block. destruct (flagged resistance_block flags); [|done].
  simpl. destruct (index c + 2 <=? length data)%nat; [|done].
  unfold bind, lift, ret, read_raw. simpl.
  fold (read_resistance data c).
  destruct (track_resistance (read_resistance data c) w) as [[[]|e] w']; done.
Qed.

Lemma process_indoor_bike_data_decompose data flags w :
  process_indoor_bike_data data flags w =
  match observed_resistance data flags with
  | None => (Ok (decode_fields data flags), w)
  | Some v =>
      match track_resistance v w with
      | (Ok _, w') => (Ok (decode_fields data flags), w')
      | (Raise e, w') => (Raise e, w')
      end
  end.
Proof.
  rewrite decode_fields_split.
  set (c := decode_blocks data flags blocks_before_resistance start).
  assert (∀ c' w', (let* c := run_blocks data flags blocks_after_resistance c' in
                    ret (detected_fields c)) w'
                   = (Ok (detected_fields
                            (decode_blocks data flags blocks_after_resistance c')), w'))
    as Hafter.
  { intros c' w'. unfold bind. by rewrite run_blocks_plain by apply plain_after. }
  assert (process_indoor_bike_data data flags w
          = match run_block data flags resistance_block c w with
            | (Ok c', w') => (let* c := run_blocks data flags blocks_after_resistance c' in
                              ret (detected_fields c)) w'
            | (Raise e, w') => (Raise e, w')
            end) as ->.
  { unfold process_indoor_bike_data. rewrite field_blocks_split.
    unfold bind at 1. rewrite run_blocks_app. unfold bind at 1.
    rewrite run_blocks_plain by apply plain_before. fold c.
    cbn [run_blocks]. unfold bind at 1.
    destruct (run_block data flags resistance_block c w) as [[c'|e] w']; [|done].
    unfold bind. by destruct (run_blocks data flags blocks_after_resistance c' w') as [[?|?] ?]. }
  rewrite run_block_resistance. unfold observed_resistance, decode_block. fold c.
  destruct (flagged resistance_block flags); simpl; [|apply Hafter].
  destruct (index c + 2 <=? length data)%nat; simpl; [|apply Hafter].
  fold (read_resistance data c).
  destruct (track_resistance (read_resistance data c) w) as [[[]|e] w']; [|done].
  apply Hafter.
Qed.


Lemma track_resistance_frame v w o w' :
  track_resistance v w = (o, w') →
  packet_buffer w' = packet_buffer w ∧ cp_handle w' = cp_handle w ∧
  data_handle w' = data_handle w ∧
  (∀ k, k ≠ "resistance_control" → k ≠ "sim_mode_support" →
        test_results w' !! k = test_results w !! k).
Proof.
  unfold_track. intros H.
  repeat (case_match; simplify_eq/=); repeat split; intros; by simplify_map_eq.
Qed.

Lemma track_resistance_ok v w :
  tracking_ok (resistance_tracking w) →
  ∃ w', track_resistance v w = (Ok tt, w') ∧ tracking_ok (resistance_tracking w').
Proof.
  intros [[last Hlast] Hcmd]. unfold_track. rewrite Hlast.
  assert (∀ rt : pydict, tracking_ok (<["last_resistance" := PInt v]>
            (<["last_command_type" := PNone]>
               (<["resistance_command_pending" := PBool false]> rt)))) as Hclear.
  { intros rt. split; [by simplify_map_eq|]. by simplify_map_eq. }
  destruct (negb (is_none last)); simpl.
  2:{ eexists; split; [done|]. split; simplify_map_eq; [done|]. exact Hcmd. }
  destruct (int_ne v last); simpl.
  2:{ eexists; split; [done|]. split; simplify_map_eq; [done|]. exact Hcmd. }
  rewrite !lookup_insert_ne by done.
  destruct (truthy (default (PBool false) (resistance_tracking w !! "resistance_command_pending"))) eqn:Hp.
  2:{ eexists; split; [done|]. split; simplify_map_eq; [done|]. simpl. by rewrite Hp. }
  simpl. rewrite !lookup_insert_ne by done.
  destruct (Hcmd eq_refl) as [name ->]. simpl.
  destruct (contains "SET_RESISTANCE_LEVEL" name); simpl.
  { eexists; split; [done|]. apply Hclear. }
  destruct (contains "SET_SIM_PARAMS" name); simpl.
  { eexists; split; [done|]. apply Hclear. }
  eexists; split; [done|]. apply Hclear.
Qed.

End DecoderStructure.

(** ** The tracking step, case by case; fields and keys *)

Section DecoderFacts.
Import DataHandler Session.

Lemma track_resistance_idle v w r0 :
  resistance_tracking w !! "last_resistance" = Some (PInt r0) →
  v ≠ r0 →
  truthy (default (PBool false)
            (resistance_tracking w !! "resistance_command_pending")) = false →
  track_resistance v w =
  (Ok tt,
   {| test_results := test_results w;
      resistance_tracking :=
        <["last_resistance" := PInt v]>
          (<["resistance_change_detected" := PBool true]> (resistance_tracking w));
      packet_buffer := packet_buffer w;
      cp_handle := cp_handle w;
      data_handle := data_handle w |}).
Proof.
  intros Hlast Hne Hidle. unfold_track. rewrite Hlast. simpl.
  destruct (Z.eqb_spec v r0) as [->|_]; [done|]. simpl.
  rewrite !lookup_insert_ne by done. by rewrite Hidle.
Qed.

Lemma track_resistance_pending v w r0 name :
  resistance_tracking w !! "last_resistance" = Some (PInt r0) →
  v ≠ r0 →
  resistance_tracking w !! "resistance_command_pending" = Some (PBool true) →
  resistance_tracking w !! "last_command_type" = Some (PStr name) →
  track_resistance v w =
  (Ok tt,
   {| test_results :=
        if contains "SET_RESISTANCE_LEVEL" name
        then <["resistance_control" := PBool true]> (test_results w)
        else if contains "SET_SIM_PARAMS" name
             then <["sim_mode_support" := PBool true]> (test_results w)
             else test_results w;
      resistance_tracking :=
        <["last_resistance" := PInt v]>
          (<["last_command_type" := PNone]>
             (<["resistance_command_pending" := PBool false]>
                (<["resistance_change_detected" := PBool true]> (resistance_tracking w))));
      packet_buffer := packet_buffer w;
      cp_handle := cp_handle w;
      data_handle := data_handle w |}).
Proof.
  intros Hlast Hne Hpend Hname. unfold_track. rewrite Hlast. simpl.
  destruct (Z.eqb_spec v r0) as [->|_]; [done|]. simpl.
  rewrite !lookup_insert_ne by done. rewrite Hpend. simpl.
  rewrite !lookup_insert_ne by done. rewrite Hname. simpl.
  destruct (contains "SET_RESISTANCE_LEVEL" name); simpl; [done|].
  by destruct (contains "SET_SIM_PARAMS" name).
Qed.

Lemma observed_resistance_unflagged data flags :
  Z.land flags 0x20 = 0 → observed_resistance data flags = None.
Proof.
  intros H. unfold observed_resistance, flagged. simpl. by rewrite H.
Qed.

Lemma decode_block_other data flags b c k :
  key b ≠ k →
  detected_fields (decode_block data flags b c) !! k = detected_fields c !! k.
Proof.
  intros Hk. unfold decode_block. repeat case_match; try done.
  simpl. by rewrite lookup_insert_ne.
Qed.

Lemma decode_blocks_other data flags bs c k :
  Forall (λ b, key b ≠ k) bs →
  detected_fields (decode_blocks data flags bs c) !! k = detected_fields c !! k.
Proof.
  intros Hbs. revert c. induction Hbs as [|b bs Hb _ IH]; intros c; [done|].
  unfold decode_blocks in *. simpl. rewrite IH. by apply decode_block_other.
Qed.

(** The resistance read is the one returned under ['resistance']. *)
Lemma observed_resistance_field data flags :
  decode_fields data flags !! "resistance" = PInt <$> observed_resistance data flags.
Proof.
  rewrite decode_fields_split.
  set (c := decode_blocks data flags blocks_before_resistance start).
  rewrite decode_blocks_other by (repeat constructor; discriminate).
  assert (detected_fields c !! "resistance" = None) as Hc.
  { unfold c. by rewrite decode_blocks_other by (repeat constructor; discriminate). }
  unfold observed_resistance, decode_block. fold c.
  destruct (flagged resistance_block flags); simpl; [|done].
  destruct (index c + 2 <=? length data)%nat; simpl; [|done].
  by rewrite lookup_insert_eq.
Qed.

Lemma run_block_fields_other data flags b c w c' w' k :
  run_block data flags b c w = (Ok c', w') →
  key b ≠ k →
  detected_fields c' !! k = detected_fields c !! k.
Proof.
  unfold run_block, bind, lift, ret. intros H Hk.
  repeat (case_match; simplify_eq/=); try done; by rewrite lookup_insert_ne.
Qed.

Lemma run_blocks_fields_other data flags bs c w c' w' k :
  run_blocks data flags bs c w = (Ok c', w') →
  Forall (λ b, key b ≠ k) bs →
  detected_fields c' !! k = detected_fields c !! k.
Proof.
  intros Hrun Hbs. revert c w Hrun.
  induction Hbs as [|b bs Hb _ IH]; intros c w Hrun.
  - by inversion Hrun.
  - simpl in Hrun. unfold bind in Hrun.
    destruct (run_block data flags b c w) as [[c1|e] w1] eqn:Hb1; [|done].
    rewrite (IH _ _ Hrun). by eapply run_block_fields_other.
Qed.

Lemma run_block_truncated data flags b c w :
  (length data < index c + width b)%nat →
  run_block data flags b c w = (Ok c, w).
Proof.
  intros Hshort. unfold run_block.
  destruct (flagged b flags); [|done].
  destruct (Nat.leb_spec (index c + width b) (length data)); [lia|done].
Qed.

Lemma field_keys_distinct : NoDup (key <$> field_blocks).
Proof. compute_done. Qed.

End DecoderFacts.

(** ** The parser on truncated and arbitrary input *)

Section DecoderClaims.
Import DataHandler Session Scenarios.

Lemma track_resistance_exn v w e w' :
  track_resistance v w = (Raise e, w') → e = KeyError ∨ e = TypeError.
Proof.
  unfold_track. unfold str_in. intros H.
  repeat (case_match; simplify_eq/=); auto.
Qed.

Lemma guarded_read_in_bounds (data : list byte) b i :
  b ∈ field_blocks →
  (i + width b ≤ length data)%nat →
  length (slice data i (i + width b)) = width b ∧ ∃ raw, read_raw b data i = Ok raw.
Proof.
  intros Hb Hfit. split.
  - unfold slice. rewrite length_take, length_drop. lia.
  - unfold read_raw. destruct (indexed b) eqn:Hidx; [|eauto].
    assert (width b = 1%nat) as Hw.
    { apply list_elem_of_In in Hb. simpl in Hb.
      intuition (subst; done). }
    destruct (data !! i) eqn:Hl; [eauto|].
    apply lookup_ge_None in Hl. lia.
Qed.

(** C2 (amended). Flag word 0x0004 has bit 0 clear, so the decoder
    reads the two payload bytes of [04 00 64 00] as the instantaneous
    speed, 0x0064 / 100 = 1.0 km/h, and skips the cadence field, which
    no longer fits: the mapping returned is exactly [{speed: 1.0}], in
    any state and without touching it. The mapping [{cadence: 50.0}]
    is the one returned for flag word 0x0005 and bytes [05 00 64 00]. *)
Theorem decode_flags_0004 (w : world) :
  process_indoor_bike_data [x04; x00; x64; x00] 0x0004 w
  = (Ok {[ "speed" := PFloat 1 ]}, w) ∧
  process_indoor_bike_data [x05; x00; x64; x00] 0x0005 w
  = (Ok {[ "cadence" := PFloat 50 ]}, w).
Proof. split; reflexivity. Qed.

(** C2 as stated fails: the mapping decoded from flags 0x0004 and
    bytes [04 00 64 00] is not [{cadence: 50.0}]. *)
Lemma decode_flags_0004_not_cadence :
  fst (process_indoor_bike_data [x04; x00; x64; x00] 0x0004 initial_world)
  ≠ Ok {[ "cadence" := PFloat 50 ]}.
Proof.
  intros H.
  apply (f_equal (λ o : outcome pydict,
                    match o with Ok m => m !! "cadence" | Raise _ => None end)) in H.
  vm_compute in H. discriminate.
Qed.

(** C9. When the parser has reached a flagged field (the blocks before
    it ran without error and left the cursor [c_i]) and the field's
    width exceeds the bytes remaining at the cursor, the block returns
    normally with the cursor and the mapping unchanged; the rest of the
    parse therefore continues from the same offset, and the field's key
    is absent from any mapping the parser returns. *)
Theorem truncated_field_skipped data flags pre b post w c_i w_i :
  field_blocks = pre ++ b :: post →
  run_blocks data flags pre start w = (Ok c_i, w_i) →
  flagged b flags = true →
  (length data < index c_i + width b)%nat →
  run_block data flags b c_i w_i = (Ok c_i, w_i) ∧
  process_indoor_bike_data data flags w
  = (let* c := run_blocks data flags post c_i in ret (detected_fields c)) w_i ∧
  (∀ fields w', process_indoor_bike_data data flags w = (Ok fields, w') →
                fields !! key b = None).
Proof.
  intros Hsplit Hpre _ Hshort.
  pose proof field_keys_distinct as Hnodup. rewrite Hsplit in Hnodup.
  rewrite fmap_app, fmap_cons in Hnodup.
  apply NoDup_app in Hnodup as (_ & Hpre_post & Hpost).
  apply NoDup_cons in Hpost as [Hpost _].
  assert (Forall (λ b', key b' ≠ key b) pre) as Hk_pre.
  { apply Forall_forall. intros b' Hin Heq.
    apply (Hpre_post (key b')); [by apply list_elem_of_fmap_2|].
    rewrite Heq. apply list_elem_of_here. }
  assert (Forall (λ b', key b' ≠ key b) post) as Hk_post.
  { apply Forall_forall. intros b' Hin Heq. apply Hpost.
    rewrite <- Heq. by apply list_elem_of_fmap_2. }
  assert (process_indoor_bike_data data flags w
          = (let* c := run_blocks data flags post c_i in ret (detected_fields c)) w_i)
    as Hrest.
  { unfold process_indoor_bike_data. rewrite Hsplit.
    unfold bind at 1. rewrite run_blocks_app. unfold bind at 1. rewrite Hpre.
    cbn [run_blocks]. unfold bind at 1.
    by rewrite run_block_truncated. }
  split; [by apply run_block_truncated|]. split; [exact Hrest|].
  intros fields w' Hrun. rewrite Hrest in Hrun. unfold bind, ret in Hrun.
  destruct (run_blocks data flags post c_i w_i) as [[c'|e] w''] eqn:Hpost_run; [|done].
  simplify_eq. rewrite (run_blocks_fields_other _ _ _ _ _ _ _ _ Hpost_run Hk_post).
  rewrite (run_blocks_fields_other _ _ _ _ _ _ _ _ Hpre Hk_pre). done.
Qed.

(** C9 at flags 0x0004 and bytes [04 00 64 00]: the cadence field is
    flagged, the cursor is at 4 after the speed, and nothing is left. *)
Lemma truncated_field_skipped_witness :
  run_block [x04; x00; x64; x00] 0x0004 cadence_block
    {| index := 4; detected_fields := {[ "speed" := PFloat 1 ]} |} initial_world
  = (Ok {| index := 4; detected_fields := {[ "speed" := PFloat 1 ]} |}, initial_world) ∧
  ∀ fields w',
    process_indoor_bike_data [x04; x00; x64; x00] 0x0004 initial_world = (Ok fields, w') →
    fields !! "cadence" = None.
Proof.
  destruct (truncated_field_skipped [x04; x00; x64; x00] 0x0004
              [speed_block; avg_speed_block] cadence_block
              [avg_cadence_block; distance_block; resistance_block; power_block;
               avg_power_block; energy_block; heart_rate_block; met_block;
               elapsed_time_block; remaining_time_block]
              initial_world
              {| index := 4; detected_fields := {[ "speed" := PFloat 1 ]} |}
              initial_world) as (Hskip & _ & Homit);
    try reflexivity; [simpl; lia|].
  split; [exact Hskip|exact Homit].
Defined.

(** C10 (amended). For every byte sequence (also shorter than two
    bytes), every flag word and every state, no read of the parser goes
    past the end of the input: it never raises [IndexError], and under
    a block's length check the slice has the block's full width and the
    read succeeds. The parser returns the field mapping whenever
    [resistance_tracking] has the shape the tracking relies on
    ([tracking_ok]), and keeps that shape. *)
Theorem decoder_guarded_and_total data flags w :
  fst (process_indoor_bike_data data flags w) ≠ Raise IndexError ∧
  (∀ b i, b ∈ field_blocks → (i + width b ≤ length data)%nat →
     length (slice data i (i + width b)) = width b ∧
     ∃ raw, read_raw b data i = Ok raw) ∧
  (tracking_ok (resistance_tracking w) →
   ∃ w', process_indoor_bike_data data flags w = (Ok (decode_fields data flags), w') ∧
         tracking_ok (resistance_tracking w')).
Proof.
  rewrite process_indoor_bike_data_decompose. split_and!.
  - destruct (observed_resistance data flags) as [v|]; [|done].
    destruct (track_resistance v w) as [[[]|e] w'] eqn:Ht; [done|].
    simpl. apply track_resistance_exn in Ht as [Ht|Ht]; by rewrite Ht.
  - intros b i. apply guarded_read_in_bounds.
  - intros Hok. destruct (observed_resistance data flags) as [v|]; [|eauto].
    destruct (track_resistance_ok v w Hok) as (w' & -> & Hok'). eauto.
Qed.

(** [tracking_ok] is the shape the session gives the dict and every
    writer keeps: the driver's initial dict has it, and sending a
    command or handling an acknowledgement preserves it. *)
Lemma tracking0_ok : tracking_ok resistance_tracking0.
Proof. split; [by eexists|]. intros H. vm_compute in H. discriminate. Defined.

Lemma send_control_command_keeps_tracking_ok name expected now w :
  tracking_ok (resistance_tracking w) →
  tracking_ok (resistance_tracking
                 (snd (DeviceTest.send_control_command name expected now w))).
Proof.
  intros [Hlast Hcmd]. unfold DeviceTest.send_control_command.
  destruct (existsb _ _); [|done].
  unfold bind, modify, ret, set_resistance_tracking.
  destruct expected; simpl; split; simplify_map_eq; eauto.
Qed.

Lemma handle_control_point_keeps_tracking_ok data w :
  tracking_ok (resistance_tracking w) →
  tracking_ok (resistance_tracking (snd (handle_control_point data w))).
Proof.
  intros [Hlast Hcmd]. unfold handle_control_point.
  destruct data as [|? [|request_opcode [|result_code ?]]]; try done.
  unfold bind, record_command, modify, ret, set_resistance_tracking, set_test_results.
  repeat (case_match; simplify_eq/=); try done; split; simplify_map_eq; eauto.
Qed.

(** C10 (amended) on the session's initial state. *)
Lemma decoder_guarded_and_total_witness :
  tracking_ok (resistance_tracking initial_world) ∧
  ∃ w', process_indoor_bike_data [x21; x00; x05; x00] 0x21 initial_world
        = (Ok (decode_fields [x21; x00; x05; x00] 0x21), w') ∧
        tracking_ok (resistance_tracking w').
Proof.
  split; [exact tracking0_ok|].
  apply (decoder_guarded_and_total [x21; x00; x05; x00] 0x21 initial_world).
  exact tracking0_ok.
Defined.

(** C10 as stated fails: on the globals as [data_handler] creates them
    ([resistance_tracking = {}]) a notification carrying a resistance
    field makes the parser raise ([KeyError]) instead of returning. *)
Lemma decoder_raises_on_module_state :
  process_indoor_bike_data [x21; x00; x05; x00] 0x21 module_world
  = (Raise KeyError, module_world) ∧
  ¬ ∃ fields w',
      process_indoor_bike_data [x21; x00; x05; x00] 0x21 module_world = (Ok fields, w').
Proof.
  split; [reflexivity|].
  intros (fields & w' & H). vm_compute in H. discriminate.
Qed.

(** C5 as stated fails: a call on flags 0x0021 and bytes [21 00 05 00]
    changes [resistance_tracking]. *)
Lemma decoder_changes_tracking_state :
  snd (process_indoor_bike_data [x21; x00; x05; x00] 0x0021 initial_world)
  ≠ initial_world.
Proof.
  intros H. apply (f_equal (λ w, resistance_tracking w !! "last_resistance")) in H.
  vm_compute in H. discriminate.
Qed.

(** C5 (amended). The parser is free of side effects on every
    notification from which no resistance field is read (bit 5 clear or
    the field truncated): it returns the mapping and the state is the
    one it was called in. On any notification the packet buffer, the
    handles and every entry of [test_results] other than
    ['resistance_control'] and ['sim_mode_support'] are unchanged. *)
Theorem decoder_effects data flags w :
  (observed_resistance data flags = None →
   process_indoor_bike_data data flags w = (Ok (decode_fields data flags), w)) ∧
  packet_buffer (snd (process_indoor_bike_data data flags w)) = packet_buffer w ∧
  cp_handle (snd (process_indoor_bike_data data flags w)) = cp_handle w ∧
  data_handle (snd (process_indoor_bike_data data flags w)) = data_handle w ∧
  (∀ k, k ≠ "resistance_control" → k ≠ "sim_mode_support" →
        test_results (snd (process_indoor_bike_data data flags w)) !! k
        = test_results w !! k).
Proof.
  rewrite process_indoor_bike_data_decompose.
  destruct (observed_resistance data flags) as [v|]; [|done].
  split; [done|].
  destruct (track_resistance v w) as [o w'] eqn:Ht.
  apply track_resistance_frame in Ht.
  by destruct o as [[]|e].
Qed.

(** C5 (amended) on a notification without resistance. *)
Lemma decoder_effects_witness :
  observed_resistance [x04; x00; x64; x00] 0x0004 = None ∧
  process_indoor_bike_data [x04; x00; x64; x00] 0x0004 initial_world
  = (Ok (decode_fields [x04; x00; x64; x00] 0x0004), initial_world).
Proof.
  split; [reflexivity|].
  apply (decoder_effects [x04; x00; x64; x00] 0x0004 initial_world). reflexivity.
Defined.

End DecoderClaims.

(** ** Merging two notifications *)

Section MergeClaims.
Import DataHandler Session Scenarios.

(** Why merging loses fields: when the first notification carries the
    speed (bit 0 clear) and the second does not (bit 0 set), the OR of
    the flags has bit 0 set, and the merged record is parsed without
    the speed the first notification had. *)
Lemma merge_drops_speed data1 flags1 fields1 data2 flags2 fields2 merged_data merged_flags :
  Z.land flags1 1 = 0 →
  Z.land flags2 1 = 1 →
  (4 ≤ length data1)%nat →
  merge_packet_data data1 flags1 fields1 data2 flags2 fields2
  = Ok (merged_data, merged_flags) →
  is_Some (decode_fields data1 flags1 !! "speed") ∧
  decode_fields merged_data merged_flags !! "speed" = None.
Proof.
  intros Hf1 Hf2 Hlen Hmerge.
  assert (merged_flags = Z.lor flags1 flags2) as ->.
  { unfold merge_packet_data, obind in Hmerge.
    destruct (to_bytes2_little _); by simplify_eq. }
  assert (field_blocks = speed_block :: tl field_blocks) as Hsplit by reflexivity.
  assert (Forall (λ b, key b ≠ "speed") (tl field_blocks)) as Hrest
    by (repeat constructor; discriminate).
  unfold decode_fields. rewrite Hsplit, !decode_blocks_cons.
  rewrite !decode_blocks_other by done.
  unfold decode_block, flagged. cbn [when_clear mask speed_block width index start].
  rewrite Hf1, Z.land_lor_distr_l, Hf1, Hf2. cbn [Z.lor Z.eqb Pos.lor].
  destruct (Nat.leb_spec (2 + 2) (length data1)) as [_|?]; [|lia].
  split; [|done]. unfold read_raw. simpl. rewrite lookup_insert_eq. by eexists.
Qed.

(** C1, evaluated where it fails. [packet1] (flags 0x0004: speed 100.0,
    cadence 50.0) and [packet2] (flags 0x0021: resistance 5) have
    disjoint flags and are each exactly as long as their flags
    require. The merged record carries flags 0x0025, whose bit 0 is
    set, so the parser reads no speed and takes the speed bytes for the
    cadence and the cadence bytes for the resistance: the mapping is
    [{cadence: 5000.0, resistance: 100}], not the union
    [{speed: 100.0, cadence: 50.0, resistance: 5}], and this is what
    the notification handler stores. *)
Theorem merged_packet_decodes_wrong_fields (exn_text : pyexn → string) :
  Z.land 0x0004 0x0021 = 0 ∧
  can_merge_packets (Some 0x0004) (Some 0x0021) = true ∧
  fst (process_indoor_bike_data packet1 0x0004 initial_world) = Ok fields1 ∧
  fst (process_indoor_bike_data packet2 0x0021 initial_world) = Ok fields2 ∧
  merge_packet_data packet1 0x0004 fields1 packet2 0x0021 fields2
  = Ok (merged_packet, 0x0025) ∧
  fst (process_indoor_bike_data merged_packet 0x0025 initial_world) = Ok merged_fields ∧
  merged_fields ≠ fields1 ∪ fields2 ∧
  fst (merge_session exn_text initial_world) = Ok tt ∧
  test_results (snd (merge_session exn_text initial_world)) !! "data_fields_detected"
  = Some (PDict merged_fields).
Proof.
  split_and!; try (vm_compute; reflexivity).
  intros H. apply (f_equal (λ m : pydict, m !! "speed")) in H.
  vm_compute in H. discriminate.
Qed.

(** C8 (amended). When the buffer holds a sample and the record has
    its detected-field mapping, [cleanup_packet_buffer] (and the
    teardown that calls it) returns normally, the buffered fields are
    in the record's mapping afterwards, each with its buffered value,
    and the buffer is empty; nothing else of the record changes. *)
Theorem cleanup_flushes_buffer w data old :
  pb_data (packet_buffer w) = Some data →
  test_results w !! "data_fields_detected" = Some (PDict old) →
  ∃ w', cleanup_packet_buffer w = (Ok tt, w') ∧
        DeviceTest.teardown w = (Ok tt, w') ∧
        packet_buffer w' = empty_buffer ∧
        test_results w' !! "data_fields_detected"
        = Some (PDict (pb_detected_fields (packet_buffer w) ∪ old)) ∧
        (∀ k v, pb_detected_fields (packet_buffer w) !! k = Some v →
                (pb_detected_fields (packet_buffer w) ∪ old) !! k = Some v) ∧
        (∀ k, k ≠ "data_fields_detected" → test_results w' !! k = test_results w !! k) ∧
        resistance_tracking w' = resistance_tracking w.
Proof.
  intros Hdata Hold.
  unfold DeviceTest.teardown, try_catch, cleanup_packet_buffer,
    finalize_packet_processing, bind, gets, modify, ret.
  rewrite Hdata, Hold. simpl. eexists. split; [done|]. simpl.
  split_and!; try done.
  - by rewrite lookup_insert_eq.
  - intros k v Hk. by apply lookup_union_Some_l.
  - intros k Hk. by rewrite lookup_insert_ne.
Qed.

(** C8 on a session where one sample was received and is still
    buffered at teardown. *)
Lemma cleanup_flushes_buffer_witness :
  test_results world_buffered !! "data_fields_detected" = Some (PDict ∅) ∧
  ∃ w', cleanup_packet_buffer world_buffered = (Ok tt, w') ∧
        packet_buffer w' = empty_buffer ∧
        test_results w' !! "data_fields_detected" = Some (PDict fields1).
Proof.
  split; [reflexivity|].
  destruct (cleanup_flushes_buffer world_buffered packet1 ∅)
    as (w' & Hrun & _ & Hbuf & Hfields & _); try reflexivity.
  exists w'. split; [exact Hrun|]. split; [exact Hbuf|]. rewrite Hfields. reflexivity.
Defined.

(** C8 as stated fails: on the globals as [data_handler] creates them
    ([test_results = {}]) with one sample buffered, the flush raises
    [KeyError] at [test_results['data_fields_detected']] before the
    buffer is cleared; the teardown swallows it, so the record has
    received nothing and the sample is still in the buffer. *)
Lemma cleanup_loses_sample_on_module_state :
  pb_data (packet_buffer Samples.module_buffered) = Some packet1 ∧
  pb_detected_fields (packet_buffer Samples.module_buffered) = fields1 ∧
  cleanup_packet_buffer Samples.module_buffered
  = (Raise KeyError, Samples.module_buffered) ∧
  DeviceTest.teardown Samples.module_buffered = (Ok tt, Samples.module_buffered) ∧
  test_results (snd (DeviceTest.teardown Samples.module_buffered))
    !! "data_fields_detected" = None ∧
  packet_buffer (snd (DeviceTest.teardown Samples.module_buffered)) ≠ empty_buffer.
Proof.
  split_and!; try (vm_compute; reflexivity).
  intros H. apply (f_equal pb_data) in H. vm_compute in H. discriminate.
Qed.

End MergeClaims.

(** ** Resistance changes and commands *)

Section CorrelatorClaims.
Import DataHandler Session Scenarios.

(** No call of the parser writes the anomaly list. *)
Lemma decoder_keeps_issues_found data flags w :
  test_results (snd (process_indoor_bike_data data flags w)) !! "issues_found"
  = test_results w !! "issues_found".
Proof.
  rewrite process_indoor_bike_data_decompose.
  destruct (observed_resistance data flags) as [v|]; [|done].
  destruct (track_resistance v w) as [o w'] eqn:Ht.
  apply track_resistance_frame in Ht as (_ & _ & _ & Hk).
  destruct o as [[]|e]; by apply Hk.
Qed.

(** A change of resistance while no command is pending: the tracking
    stores the new value and the change, and [test_results] stays as it
    was. *)
Lemma idle_change_keeps_test_results data flags w v r0 :
  observed_resistance data flags = Some v →
  resistance_tracking w !! "last_resistance" = Some (PInt r0) →
  v ≠ r0 →
  truthy (default (PBool false)
            (resistance_tracking w !! "resistance_command_pending")) = false →
  ∃ w', process_indoor_bike_data data flags w = (Ok (decode_fields data flags), w') ∧
        test_results w' = test_results w ∧
        resistance_tracking w' !! "last_resistance" = Some (PInt v) ∧
        resistance_tracking w' !! "resistance_change_detected" = Some (PBool true).
Proof.
  intros Hobs Hlast Hne Hidle.
  rewrite process_indoor_bike_data_decompose, Hobs.
  rewrite (track_resistance_idle v w r0) by done.
  eexists. split; [done|]. cbn [test_results resistance_tracking].
  split_and!; by simplify_map_eq.
Qed.

(** C3, evaluated where it fails. With a last recorded resistance of 5
    and no command pending, a notification with resistance 8 is parsed,
    the tracking records the new value and the change, and
    [test_results] is left exactly as it was: ['issues_found'] is still
    the empty list, no anomaly string was appended (the code only logs
    a warning). ['resistance_control'] is unchanged, as claimed. *)
Theorem idle_resistance_change_is_not_recorded :
  resistance_tracking world_at_5 !! "last_resistance" = Some (PInt 5) ∧
  resistance_tracking world_at_5 !! "resistance_command_pending" = Some (PBool false) ∧
  test_results world_at_5 !! "issues_found" = Some (PList []) ∧
  decode_fields [x21; x00; x08; x00] 0x0021 = {[ "resistance" := PInt 8 ]} ∧
  ∃ w', process_indoor_bike_data [x21; x00; x08; x00] 0x0021 world_at_5
        = (Ok (decode_fields [x21; x00; x08; x00] 0x0021), w') ∧
        resistance_tracking w' !! "last_resistance" = Some (PInt 8) ∧
        resistance_tracking w' !! "resistance_change_detected" = Some (PBool true) ∧
        test_results w' = test_results world_at_5 ∧
        test_results w' !! "issues_found" = Some (PList []) ∧
        test_results w' !! "resistance_control" = Some (PBool false).
Proof.
  do 4 (split; [vm_compute; reflexivity|]).
  destruct (idle_change_keeps_test_results [x21; x00; x08; x00] 0x0021 world_at_5 8 5)
    as (w' & Hrun & Htr & Hlast & Hchange);
    [vm_compute; reflexivity|vm_compute; reflexivity|lia|vm_compute; reflexivity|].
  exists w'. rewrite Htr. split_and!; try done; vm_compute; reflexivity.
Qed.

(** C6. When the parser reads a resistance [v] that differs from the
    last recorded one while a command is pending, it returns the
    mapping (with [v] under ['resistance']) and sets the flag that
    matches the pending command, whose name is tested as the code
    tests it, by substring: ['resistance_control'] when the name
    contains SET_RESISTANCE_LEVEL, otherwise ['sim_mode_support'] when
    it contains SET_SIM_PARAMS (the driver sends it as
    [SET_SIM_PARAMS(10%)]), and nothing otherwise, as for
    SET_TARGET_POWER. Every other entry of [test_results] (the anomaly
    list among them) is left as it was; the pending flag is reset and
    the command type cleared. *)
Theorem pending_change_confirms_capability data flags w v r0 name :
  observed_resistance data flags = Some v →
  resistance_tracking w !! "last_resistance" = Some (PInt r0) →
  v ≠ r0 →
  resistance_tracking w !! "resistance_command_pending" = Some (PBool true) →
  resistance_tracking w !! "last_command_type" = Some (PStr name) →
  ∃ w', process_indoor_bike_data data flags w = (Ok (decode_fields data flags), w') ∧
        decode_fields data flags !! "resistance" = Some (PInt v) ∧
        test_results w' =
          (if contains "SET_RESISTANCE_LEVEL" name
           then <["resistance_control" := PBool true]> (test_results w)
           else if contains "SET_SIM_PARAMS" name
                then <["sim_mode_support" := PBool true]> (test_results w)
                else test_results w) ∧
        (∀ k, k ≠ "resistance_control" → k ≠ "sim_mode_support" →
              test_results w' !! k = test_results w !! k) ∧
        resistance_tracking w' !! "resistance_command_pending" = Some (PBool false) ∧
        resistance_tracking w' !! "last_command_type" = Some PNone ∧
        resistance_tracking w' !! "last_resistance" = Some (PInt v) ∧
        test_results w' !! "issues_found" = test_results w !! "issues_found".
Proof.
  intros Hobs Hlast Hne Hpend Hname.
  rewrite process_indoor_bike_data_decompose, Hobs.
  rewrite (track_resistance_pending v w r0 name) by done.
  eexists. split; [done|]. cbn [test_results resistance_tracking].
  split; [by rewrite observed_resistance_field, Hobs|].
  split; [done|].
  split_and!; try by simplify_map_eq.
  - intros k Hrc Hsim.
    destruct (contains "SET_RESISTANCE_LEVEL" name); [by rewrite lookup_insert_ne|].
    destruct (contains "SET_SIM_PARAMS" name); [by rewrite lookup_insert_ne|done].
  - destruct (contains "SET_RESISTANCE_LEVEL" name); [by rewrite lookup_insert_ne|].
    destruct (contains "SET_SIM_PARAMS" name); [by rewrite lookup_insert_ne|done].
Qed.

(** C6 after a resistance of 5 and a command, on a resistance of 8:
    SET_RESISTANCE_LEVEL confirms the resistance control and not the
    simulation mode, the simulation command under the name the driver
    sends confirms the simulation mode and not the resistance control,
    and SET_TARGET_POWER confirms neither; each time the command is
    pending no more. *)
Lemma pending_change_confirms_capability_witness :
  (∃ w', process_indoor_bike_data [x21; x00; x08; x00] 0x0021 world_pending
         = (Ok (decode_fields [x21; x00; x08; x00] 0x0021), w') ∧
         test_results w' !! "resistance_control" = Some (PBool true) ∧
         test_results w' !! "sim_mode_support" = Some (PBool false) ∧
         resistance_tracking w' !! "resistance_command_pending" = Some (PBool false)) ∧
  (∃ w', process_indoor_bike_data [x21; x00; x08; x00] 0x0021 Samples.world_sim_pending
         = (Ok (decode_fields [x21; x00; x08; x00] 0x0021), w') ∧
         test_results w' !! "resistance_control" = Some (PBool false) ∧
         test_results w' !! "sim_mode_support" = Some (PBool true) ∧
         resistance_tracking w' !! "resistance_command_pending" = Some (PBool false)) ∧
  (∃ w', process_indoor_bike_data [x21; x00; x08; x00] 0x0021 Samples.world_power_pending
         = (Ok (decode_fields [x21; x00; x08; x00] 0x0021), w') ∧
         test_results w' !! "resistance_control" = Some (PBool false) ∧
         test_results w' !! "sim_mode_support" = Some (PBool false) ∧
         resistance_tracking w' !! "resistance_command_pending" = Some (PBool false)).
Proof.
  split_and!.
  - destruct (pending_change_confirms_capability
                [x21; x00; x08; x00] 0x0021 world_pending 8 5 "SET_RESISTANCE_LEVEL")
      as (w' & Hrun & _ & Htr & _ & Hpend & _); try reflexivity; [lia|].
    exists w'. split; [exact Hrun|]. rewrite Htr.
    split_and!; try reflexivity. exact Hpend.
  - destruct (pending_change_confirms_capability
                [x21; x00; x08; x00] 0x0021 Samples.world_sim_pending 8 5
                "SET_SIM_PARAMS(10%)")
      as (w' & Hrun & _ & Htr & _ & Hpend & _); try reflexivity; [lia|].
    exists w'. split; [exact Hrun|]. rewrite Htr.
    split_and!; try reflexivity. exact Hpend.
  - destruct (pending_change_confirms_capability
                [x21; x00; x08; x00] 0x0021 Samples.world_power_pending 8 5
                "SET_TARGET_POWER")
      as (w' & Hrun & _ & Htr & _ & Hpend & _); try reflexivity; [lia|].
    exists w'. split; [exact Hrun|]. rewrite Htr.
    split_and!; try reflexivity. exact Hpend.
Defined.

(** The scenario of the specification through the notification
    handler: command, success acknowledgement, then 5 → 8. *)
Lemma level_scenario_confirms_control exn_text :
  let w' := snd (level_scenario exn_text initial_world) in
  fst (level_scenario exn_text initial_world) = Ok tt ∧
  test_results w' !! "resistance_control" = Some (PBool true) ∧
  test_results w' !! "issues_found" = Some (PList []) ∧
  resistance_tracking w' !! "resistance_command_pending" = Some (PBool false).
Proof. intros w'. split_and!; vm_compute; reflexivity. Qed.

End CorrelatorClaims.

(** ** The classifier *)

(** Closes a goal "the result is [conclude level reason tr] for a
    verdict of the enumeration". *)
Ltac concluded :=
  eexists _, _; split; [reflexivity|];
  unfold AnalyzeResult.verdicts; set_solver.


Section ClassifierClaims.
Import AnalyzeResult.
Variable str_lower : pyval → string.
Variable exn_text : pyexn → string.

Lemma conclude_level level reason tr :
  conclude level reason tr !! "compatibility_level" = Some (PStr level).
Proof. unfold conclude. by simplify_map_eq. Qed.

Lemma conclude_reasons level reason tr :
  conclude level reason tr !! "reasons" = Some (PList [PStr reason]).
Proof. unfold conclude. by simplify_map_eq. Qed.

Lemma analyze_ftms_concludes tr :
  match analyze_ftms tr with
  | Ok tr' => ∃ level reason, tr' = conclude level reason tr ∧ level ∈ verdicts
  | Raise _ => True
  end.
Proof.
  unfold analyze_ftms, obind.
  destruct (has_speed_and_cadence_of _) as [both|e]; [|done].
  destruct (both && truthy _); [concluded|].
  destruct (both && negb (truthy _)).
  - unfold try_except. destruct (iter _) as [items|e]; [|concluded].
    destruct (any _ items) as [[|]|e]; concluded.
  - destruct (negb both); concluded.
Qed.

Lemma analyze_body_concludes tr :
  tr ≠ ∅ →
  match analyze_body str_lower tr with
  | Ok tr' => ∃ level reason, tr' = conclude level reason tr ∧ level ∈ verdicts
  | Raise _ => True
  end.
Proof.
  intros Hne. unfold analyze_body.
  assert (truthy (PDict tr) = true) as ->.
  { simpl. apply negb_true_iff, Nat.eqb_neq. by apply map_size_non_empty_iff. }
  cbn [negb]. unfold obind.
  destruct (negb (truthy _)); [concluded|].
  destruct (get _ "services" _) as [services|e]; [|done].
  destruct (has_speed_and_cadence_of _) as [essential|e]; [|done].
  destruct (negb _); [concluded|].
  destruct (existsb _ _); [concluded|].
  destruct (negb (existsb _ _)); [concluded|].
  destruct (eq_str _ _); [concluded|].
  apply analyze_ftms_concludes.
Qed.

(** Every non-empty record leaves the classifier with a verdict of the
    enumeration and one reason. *)
Lemma analyze_nonempty_record tr :
  tr ≠ ∅ →
  ∃ level reason,
    analyze_test_results str_lower exn_text tr = conclude level reason tr ∧
    level ∈ verdicts ∧
    analyze_test_results str_lower exn_text tr !! "compatibility_level"
    = Some (PStr level) ∧
    analyze_test_results str_lower exn_text tr !! "reasons"
    = Some (PList [PStr reason]).
Proof.
  intros Hne. pose proof (analyze_body_concludes tr Hne) as H.
  unfold analyze_test_results, try_except.
  destruct (analyze_body str_lower tr) as [tr'|e].
  - destruct H as (level & reason & -> & Hin). exists level, reason.
    split_and!; [done|done|apply conclude_level|apply conclude_reasons].
  - eexists _, _. split_and!; [done| |apply conclude_level|apply conclude_reasons].
    unfold verdicts. set_solver.
Qed.


Lemma any_anomaly issues :
  any (str_in anomaly_text) (PStr <$> issues)
  = Ok (existsb (contains anomaly_text) issues).
Proof.
  induction issues as [|issue issues IH]; [done|].
  cbn [fmap list_fmap any str_in existsb]. rewrite IH.
  by destruct (contains anomaly_text issue).
Qed.

Lemma device_info_dict entry :
  dict_or_missing entry → ∃ m, por (default PNone entry) (PDict ∅) = PDict m.
Proof.
  intros [->|[->|[m ->]]]; [by exists ∅|by exists ∅|].
  unfold por. simpl. destruct (negb _); eauto.
Qed.

Lemma issues_found_list entry issues :
  anomaly_list entry issues →
  por (default PNone entry) (PList []) = PList (PStr <$> issues).
Proof.
  intros [[-> ->]|[[-> ->]| ->]]; [done|done|].
  unfold por. simpl. by destruct issues.
Qed.

Lemma speed_and_cadence_detected (fields : pydict) :
  is_Some (fields !! "speed") → is_Some (fields !! "cadence") →
  has_speed_and_cadence_of (PDict fields) = Ok true ∧
  por (PDict fields) (PDict ∅) = PDict fields.
Proof.
  intros Hs Hc. split.
  - unfold has_speed_and_cadence_of. simpl.
    rewrite bool_decide_eq_true_2 by done. simpl.
    by rewrite bool_decide_eq_true_2.
  - assert (size fields ≠ 0%nat) as Hsize.
    { apply map_size_non_empty_iff. intros ->. by destruct Hs. }
    apply Nat.eqb_neq in Hsize. unfold por. simpl. by rewrite Hsize.
Qed.


(** C4, evaluated where it fails. On the empty record the classifier
    builds the default dict (verdict IMPOSSIBLE and a reason) but only
    binds it to its local name and returns: the caller's record is
    still empty afterwards, with no verdict and no reasons entry. *)
Theorem analyze_empty_record_gets_no_verdict :
  analyze_test_results str_lower exn_text ∅ = ∅ ∧
  analyze_test_results str_lower exn_text ∅ !! "compatibility_level" = None ∧
  analyze_test_results str_lower exn_text ∅ !! "reasons" = None.
Proof. split_and!; reflexivity. Qed.

(** The verdict of the FTMS branch as a function of the record. *)
Lemma ftms_verdict_general tr fields issues :
  truthy (default (PBool false) (tr !! "connection_status")) = true →
  tr !! "protocol_type" = Some (PStr "FTMS (표준)") →
  tr !! "data_fields_detected" = Some (PDict fields) →
  is_Some (fields !! "speed") →
  is_Some (fields !! "cadence") →
  dict_or_missing (tr !! "device_info") →
  anomaly_list (tr !! "issues_found") issues →
  analyze_test_results str_lower exn_text tr !! "compatibility_level"
  = Some (PStr (if truthy (default (PBool false) (tr !! "sim_mode_support"))
                then FULL
                else if existsb (contains anomaly_text) issues
                     then PARTIAL_FIXABLE
                     else PARTIAL)).
Proof.
  intros Hconn Hproto Hfields Hs Hc Hinfo Hissues.
  destruct (speed_and_cadence_detected fields Hs Hc) as [Hboth Hpor].
  destruct (device_info_dict _ Hinfo) as [info Hinfo'].
  unfold analyze_test_results, analyze_body.
  assert (truthy (PDict tr) = true) as ->.
  { simpl. apply negb_true_iff, Nat.eqb_neq, map_size_non_empty_iff.
    intros ->. by rewrite lookup_empty in Hproto. }
  rewrite Hconn, Hinfo', Hfields, Hproto. cbn [negb get obind default from_option id].
  rewrite Hboth. cbn [obind]. rewrite orb_true_r. cbn [negb].
  change (existsb _ ["MOBI (커스텀)"; "REBORN (커스텀)"; "TACX (커스텀)"]) with false.
  change (existsb _ ["FTMS (표준)"; "CSC (표준)"]) with true.
  change (eq_str "CSC (표준)" (PStr "FTMS (표준)")) with false.
  cbn [negb]. unfold analyze_ftms.
  rewrite Hfields. cbn [default from_option id]. rewrite Hpor, Hboth. cbn [obind andb].
  destruct (truthy (default (PBool false) (tr !! "sim_mode_support"))).
  { cbn [try_except]. apply conclude_level. }
  cbn [negb]. rewrite (issues_found_list _ _ Hissues).
  cbn [iter obind]. rewrite any_anomaly. cbn [obind try_except].
  destruct (existsb (contains anomaly_text) issues); apply conclude_level.
Qed.


(** C7. For a record with a true connection status, the protocol
    "FTMS (표준)", a detected-field mapping holding both speed and
    cadence, a device identity that is a dict (or absent) and an
    anomaly list of strings (or absent): the verdict is FULL if
    [sim_mode_support] is true; otherwise it is PARTIAL_FIXABLE exactly
    when some anomaly contains the resistance-changed-without-command
    text, and PARTIAL when none does. *)
Theorem ftms_verdict tr fields issues :
  truthy (default (PBool false) (tr !! "connection_status")) = true →
  tr !! "protocol_type" = Some (PStr "FTMS (표준)") →
  tr !! "data_fields_detected" = Some (PDict fields) →
  is_Some (fields !! "speed") →
  is_Some (fields !! "cadence") →
  dict_or_missing (tr !! "device_info") →
  anomaly_list (tr !! "issues_found") issues →
  analyze_test_results str_lower exn_text tr !! "compatibility_level"
  = Some (PStr (if truthy (default (PBool false) (tr !! "sim_mode_support"))
                then FULL
                else if existsb (contains anomaly_text) issues
                     then PARTIAL_FIXABLE
                     else PARTIAL)).
Proof. apply ftms_verdict_general. Qed.

End ClassifierClaims.

Section ClassifierExamples.
Import DataHandler AnalyzeResult Session Scenarios.

(** C7 on [fixable_record]: no simulation mode, the anomaly recorded,
    hence PARTIAL_FIXABLE. *)
Lemma ftms_verdict_witness :
  analyze_test_results (λ _, EmptyString) (λ _, EmptyString) fixable_record
    !! "compatibility_level"
  = Some (PStr PARTIAL_FIXABLE).
Proof.
  rewrite (ftms_verdict (λ _, EmptyString) (λ _, EmptyString) fixable_record
             (<["speed" := PFloat 100]> {[ "cadence" := PFloat 50 ]})
             ["Resistance changed without any resistance-related command!"]).
  - vm_compute. reflexivity.
  - vm_compute. reflexivity.
  - vm_compute. reflexivity.
  - vm_compute. reflexivity.
  - by eexists.
  - by eexists.
  - right. right. by exists ∅.
  - right. right. vm_compute. reflexivity.
Defined.

(** A device whose resistance drifts with no command pending, seen
    through the whole pipeline: the anomaly list stays empty, so the
    classifier answers PARTIAL; the PARTIAL_FIXABLE branch needs an
    anomaly that the data handler never records. *)
Lemma drift_session_is_partial str_lower exn_text :
  let w' := snd (drift_session exn_text initial_world) in
  fst (drift_session exn_text initial_world) = Ok tt ∧
  test_results w' !! "issues_found" = Some (PList []) ∧
  resistance_tracking w' !! "resistance_change_detected" = Some (PBool true) ∧
  analyze_test_results str_lower exn_text (test_results w') !! "compatibility_level"
  = Some (PStr PARTIAL).
Proof.
  intros w'. split_and!; vm_compute; reflexivity.
Qed.

End ClassifierExamples.

(** * Further properties

    ** What the parser returns *)

Section DecoderMore.
Import DataHandler Session Scenarios.

(** Whatever the state, a mapping returned by the parser is
    [decode_fields]. *)
Lemma process_returns_decode_fields data flags w fields w' :
  process_indoor_bike_data data flags w = (Ok fields, w') →
  fields = decode_fields data flags.
Proof.
  rewrite process_indoor_bike_data_decompose.
  destruct (observed_resistance data flags) as [v|]; [|by intros [= <- _]].
  destruct (track_resistance v w) as [[[]|e] w'']; [|done]. by intros [= <- _].
Qed.

Lemma decode_block_lookup data flags b c k v :
  detected_fields (decode_block data flags b c) !! k = Some v →
  detected_fields c !! k = Some v ∨
  (key b = k ∧ flagged b flags = true ∧
   (index c + width b ≤ length data)%nat ∧
   ∃ raw, read_raw b data (index c) = Ok raw ∧ v = field_value b raw).
Proof.
  unfold decode_block.
  destruct (flagged b flags) eqn:Hflag; [|auto].
  destruct (Nat.leb_spec (index c + width b) (length data)) as [Hfit|?]; [|auto].
  destruct (read_raw b data (index c)) as [raw|e] eqn:Hraw; [|auto].
  simpl. destruct (decide (key b = k)) as [Hk|Hk].
  - rewrite Hk, lookup_insert_eq. intros [= <-]. right. eauto 10.
  - rewrite lookup_insert_ne by done. auto.
Qed.

Lemma decode_block_index data flags b c :
  (index c ≤ index (decode_block data flags b c))%nat.
Proof. unfold decode_block. repeat case_match; simpl; lia. Qed.

Lemma decode_blocks_lookup data flags bs c k v :
  detected_fields (decode_blocks data flags bs c) !! k = Some v →
  detected_fields c !! k = Some v ∨
  ∃ b i, b ∈ bs ∧ key b = k ∧ flagged b flags = true ∧
         (index c ≤ i)%nat ∧ (i + width b ≤ length data)%nat ∧
         ∃ raw, read_raw b data i = Ok raw ∧ v = field_value b raw.
Proof.
  revert c. induction bs as [|b bs IH]; intros c; [auto|].
  rewrite decode_blocks_cons. intros H. apply IH in H as [H|H].
  - apply decode_block_lookup in H as [H|(Hk & Hf & Hfit & raw & Hraw & ->)]; [auto|].
    right. exists b, (index c). split; [apply list_elem_of_here|]. eauto 10.
  - destruct H as (b' & i & Hin & Hk & Hf & Hi & Hfit & Hraw).
    right. exists b', i. split; [by apply list_elem_of_further|].
    pose proof (decode_block_index data flags b c). split_and!; try done. lia.
Qed.

Lemma decode_fields_lookup data flags k v :
  decode_fields data flags !! k = Some v →
  ∃ b i, b ∈ field_blocks ∧ key b = k ∧ flagged b flags = true ∧
         (2 ≤ i)%nat ∧ (i + width b ≤ length data)%nat ∧
         ∃ raw, read_raw b data i = Ok raw ∧ v = field_value b raw.
Proof.
  unfold decode_fields. intros Hk.
  apply decode_blocks_lookup in Hk as [Hk|Hk]; [done|]. exact Hk.
Qed.

(** With the tracking dict in shape the parser returns, and what it
    returns is [decode_fields]. *)
Lemma process_ok data flags w :
  tracking_ok (resistance_tracking w) →
  ∃ w', process_indoor_bike_data data flags w = (Ok (decode_fields data flags), w') ∧
        tracking_ok (resistance_tracking w').
Proof.
  intros Hok. rewrite process_indoor_bike_data_decompose.
  destruct (observed_resistance data flags) as [v|]; [|eauto].
  destruct (track_resistance_ok v w Hok) as (w' & -> & Hok'). eauto.
Qed.

(** X1: every entry of the mapping returned by the parser comes from a
    field whose bit test passed, read from bytes that lie inside the
    notification, after the two flag bytes: no key appears without its
    flag and nothing is read past the end. *)
Theorem decoded_entry_origin data flags w fields w' k v :
  process_indoor_bike_data data flags w = (Ok fields, w') →
  fields !! k = Some v →
  ∃ b i, b ∈ field_blocks ∧ key b = k ∧ flagged b flags = true ∧
         (2 ≤ i)%nat ∧ (i + width b ≤ length data)%nat ∧
         ∃ raw, read_raw b data i = Ok raw ∧ v = field_value b raw.
Proof.
  intros Hrun Hk. apply process_returns_decode_fields in Hrun as ->.
  by apply decode_fields_lookup.
Qed.

(** X1 on the speed of [packet1]: read at offset 2, two bytes. *)
Lemma decoded_entry_origin_witness :
  ∃ b i, b ∈ field_blocks ∧ key b = "speed" ∧ flagged b 0x0004 = true ∧
         (2 ≤ i)%nat ∧ (i + width b ≤ length packet1)%nat ∧
         ∃ raw, read_raw b packet1 i = Ok raw ∧ PFloat 100 = field_value b raw.
Proof.
  apply (decoded_entry_origin packet1 0x0004 initial_world
           (decode_fields packet1 0x0004) initial_world "speed" (PFloat 100)).
  - vm_compute. reflexivity.
  - vm_compute. reflexivity.
Defined.

Lemma from_bytes_little_bound bs :
  0 ≤ from_bytes_little bs < 256 ^ Z.of_nat (length bs).
Proof.
  induction bs as [|b bs IH]; [simpl; lia|].
  cbn [from_bytes_little length]. rewrite Nat2Z.inj_succ, Z.pow_succ_r by lia.
  assert (0 ≤ byte_val b < 256).
  { unfold byte_val. pose proof (Byte.to_N_bounded b). lia. }
  lia.
Qed.

Lemma from_bytes_little_signed_bound bs :
  (0 < length bs)%nat →
  - 2 ^ (8 * Z.of_nat (length bs) - 1) ≤ from_bytes_little_signed bs
  < 2 ^ (8 * Z.of_nat (length bs) - 1).
Proof.
  intros Hlen. unfold from_bytes_little_signed.
  pose proof (from_bytes_little_bound bs) as Hb.
  set (n := Z.of_nat (length bs)) in *. assert (0 < n) by lia.
  replace (256 ^ n) with (2 ^ (8 * n)) in Hb
    by (rewrite Z.pow_mul_r by lia; reflexivity).
  assert (2 ^ (8 * n) = 2 * 2 ^ (8 * n - 1)) as Hpow.
  { rewrite <- Z.pow_succ_r by lia. f_equal. lia. }
  destruct (Z.eqb_spec (8 * n) 0); [lia|].
  destruct (Z.ltb_spec (from_bytes_little bs) (2 ^ (8 * n - 1))); lia.
Qed.

End DecoderMore.

Section DecoderRanges.
Import DataHandler Session Scenarios.

Lemma read_raw_range (data : list byte) b i raw :
  b ∈ field_blocks →
  (i + width b ≤ length data)%nat →
  read_raw b data i = Ok raw →
  if signed b
  then - 2 ^ (8 * Z.of_nat (width b) - 1) ≤ raw < 2 ^ (8 * Z.of_nat (width b) - 1)
  else 0 ≤ raw < 256 ^ Z.of_nat (width b).
Proof.
  intros Hb Hfit Hraw.
  destruct (guarded_read_in_bounds data b i Hb Hfit) as [Hlen _].
  assert (0 < width b)%nat as Hw.
  { apply list_elem_of_In in Hb. simpl in Hb. intuition (subst; simpl; lia). }
  unfold read_raw in Hraw. destruct (indexed b) eqn:Hidx.
  - assert (width b = 1%nat ∧ signed b = false) as [-> ->].
    { apply list_elem_of_In in Hb. simpl in Hb. intuition (subst; done). }
    destruct (data !! i) as [x|]; [|done]. injection Hraw as <-.
    unfold byte_val. pose proof (Byte.to_N_bounded x). simpl. lia.
  - injection Hraw as <-. destruct (signed b).
    + pose proof (from_bytes_little_signed_bound
                    (slice data i (i + width b))) as Hs.
      rewrite Hlen in Hs. apply Hs. lia.
    + pose proof (from_bytes_little_bound (slice data i (i + width b))) as Hu.
      by rewrite Hlen in Hu.
Qed.

Lemma true_div_range raw d hi :
  0 ≤ raw ≤ hi → (0 <= true_div raw d)%Q ∧ (true_div raw d <= hi # d)%Q.
Proof.
  intros H. unfold true_div. rewrite Qred_correct.
  unfold Qle. simpl. nia.
Qed.

(** X2: the values returned are integers or floats in the range of
    their field: the resistance and the two powers are signed 16-bit,
    the energy and the two times unsigned 16-bit, the heart rate one
    byte; the speeds and the metabolic equivalent are at most
    655.35, the cadences at most 32767.5, the distance at most
    1677721.5, and none of the scaled values is negative. *)
Theorem decoded_value_ranges data flags w fields w' k v :
  process_indoor_bike_data data flags w = (Ok fields, w') →
  fields !! k = Some v →
  match v with
  | PInt r =>
      (k ∈ ["resistance"; "power"; "avg_power"] ∧ -32768 ≤ r ≤ 32767) ∨
      (k ∈ ["energy"; "elapsed_time"; "remaining_time"] ∧ 0 ≤ r ≤ 65535) ∨
      (k = "heart_rate" ∧ 0 ≤ r ≤ 255)
  | PFloat q =>
      (k ∈ ["speed"; "avg_speed"; "met"] ∧ (0 <= q)%Q ∧ (q <= 65535 # 100)%Q) ∨
      (k ∈ ["cadence"; "avg_cadence"] ∧ (0 <= q)%Q ∧ (q <= 65535 # 2)%Q) ∨
      (k = "distance" ∧ (0 <= q)%Q ∧ (q <= 16777215 # 10)%Q)
  | _ => False
  end.
Proof.
  intros Hrun Hk.
  apply process_returns_decode_fields in Hrun as ->.
  destruct (decode_fields_lookup _ _ _ _ Hk)
    as (b & i & Hb & <- & _ & _ & Hfit & raw & Hraw & ->).
  assert (signed b = true ∧ width b = 2%nat ∧ scale b = None ∧
            key b ∈ ["resistance"; "power"; "avg_power"] ∨
          signed b = false ∧ width b = 2%nat ∧ scale b = None ∧
            key b ∈ ["energy"; "elapsed_time"; "remaining_time"] ∨
          signed b = false ∧ width b = 1%nat ∧ scale b = None ∧
            key b = "heart_rate" ∨
          signed b = false ∧ width b = 2%nat ∧ scale b = Some 100%positive ∧
            key b ∈ ["speed"; "avg_speed"; "met"] ∨
          signed b = false ∧ width b = 2%nat ∧ scale b = Some 2%positive ∧
            key b ∈ ["cadence"; "avg_cadence"] ∨
          signed b = false ∧ width b = 3%nat ∧ scale b = Some 10%positive ∧
            key b = "distance") as Hkind.
  { clear Hraw Hfit Hk. apply list_elem_of_In in Hb. simpl in Hb.
    repeat (destruct Hb as [Hb|Hb]; [subst b; simpl; set_solver|]). done. }
  pose proof (read_raw_range data b i raw Hb Hfit Hraw) as Hrange.
  unfold field_value.
  destruct Hkind as [(Hs & Hw & -> & Hkey)|[(Hs & Hw & -> & Hkey)|[(Hs & Hw & -> & Hkey)|
                    [(Hs & Hw & -> & Hkey)|[(Hs & Hw & -> & Hkey)|(Hs & Hw & -> & Hkey)]]]]];
    rewrite Hs, Hw in Hrange; simpl in Hrange.
  - left. split; [done|lia].
  - right. left. split; [done|lia].
  - right. right. split; [done|lia].
  - left. split; [done|]. apply true_div_range. lia.
  - right. left. split; [done|]. apply true_div_range. lia.
  - right. right. split; [done|]. apply true_div_range. lia.
Qed.

(** X2 on the resistance of [packet2]. *)
Lemma decoded_value_ranges_witness :
  ("resistance" ∈ ["resistance"; "power"; "avg_power"] ∧ -32768 ≤ 5 ≤ 32767) ∨
  ("resistance" ∈ ["energy"; "elapsed_time"; "remaining_time"] ∧ 0 ≤ 5 ≤ 65535) ∨
  ("resistance" = "heart_rate" ∧ 0 ≤ 5 ≤ 255).
Proof.
  apply (decoded_value_ranges packet2 0x0021 initial_world
           (decode_fields packet2 0x0021) world_at_5 "resistance" (PInt 5)).
  - vm_compute. reflexivity.
  - vm_compute. reflexivity.
Defined.

End DecoderRanges.

(** ** Notifications that are long enough *)

Section DecoderComplete.
Import DataHandler Session Scenarios DecoderLayout.

Lemma payload_width_cons flags b bs :
  payload_width flags (b :: bs)
  = ((if flagged b flags then width b else 0) + payload_width flags bs)%nat.
Proof.
  unfold payload_width. rewrite filter_cons.
  destruct (decide (flagged b flags = true)) as [->|Hf]; [done|].
  by destruct (flagged b flags).
Qed.

Lemma payload_width_app flags bs1 bs2 :
  payload_width flags (bs1 ++ bs2)
  = (payload_width flags bs1 + payload_width flags bs2)%nat.
Proof.
  induction bs1 as [|b bs1 IH]; [done|].
  cbn [app]. rewrite !payload_width_cons, IH. lia.
Qed.

Lemma field_blocks_byte_indexed : Forall byte_indexed field_blocks.
Proof. repeat constructor; discriminate. Qed.

Lemma read_raw_fits (data : list byte) b i :
  byte_indexed b → (i + width b ≤ length data)%nat → ∃ raw, read_raw b data i = Ok raw.
Proof.
  intros Hb Hfit. unfold read_raw. destruct (indexed b) eqn:Hidx; [|eauto].
  rewrite (Hb Hidx) in Hfit. destruct (data !! i) eqn:Hl; [eauto|].
  apply lookup_ge_None in Hl. lia.
Qed.

Lemma decode_blocks_complete data flags bs c :
  Forall byte_indexed bs →
  (index c + payload_width flags bs ≤ length data)%nat →
  index (decode_blocks data flags bs c) = (index c + payload_width flags bs)%nat.
Proof.
  intros Hbs. revert c. induction Hbs as [|b bs Hb _ IH]; intros c Hfit.
  { unfold payload_width. simpl. lia. }
  rewrite decode_blocks_cons, payload_width_cons in *.
  unfold decode_block. destruct (flagged b flags).
  - destruct (Nat.leb_spec (index c + width b) (length data)) as [Hw|?]; [|lia].
    destruct (read_raw_fits data b (index c) Hb Hw) as [raw ->].
    rewrite IH; simpl; lia.
  - rewrite IH; lia.
Qed.

Lemma read_raw_app (data extra : list byte) b i :
  byte_indexed b →
  (i + width b ≤ length data)%nat →
  read_raw b (data ++ extra) i = read_raw b data i.
Proof.
  intros Hb Hfit. unfold read_raw, slice.
  destruct (indexed b) eqn:Hidx.
  - rewrite (Hb Hidx) in Hfit. rewrite lookup_app_l by lia. done.
  - rewrite drop_app_le by lia. rewrite take_app_le; [done|].
    rewrite length_drop. lia.
Qed.

Lemma decode_blocks_app_data data extra flags bs c :
  Forall byte_indexed bs →
  (index c + payload_width flags bs ≤ length data)%nat →
  decode_blocks (data ++ extra) flags bs c = decode_blocks data flags bs c.
Proof.
  intros Hbs. revert c. induction Hbs as [|b bs Hb _ IH]; intros c Hfit; [done|].
  rewrite !decode_blocks_cons. rewrite payload_width_cons in Hfit.
  assert (decode_block (data ++ extra) flags b c = decode_block data flags b c) as ->.
  { unfold decode_block. destruct (flagged b flags); [|done].
    destruct (Nat.leb_spec (index c + width b) (length data)) as [Hw|?]; [|lia].
    rewrite read_raw_app by done.
    destruct (Nat.leb_spec (index c + width b) (length (data ++ extra))) as [|Hn];
      [done|]. rewrite length_app in Hn. lia. }
  apply IH. unfold decode_block. destruct (flagged b flags); [|lia].
  destruct (Nat.leb_spec (index c + width b) (length data)) as [Hw|?]; [|lia].
  destruct (read_raw_fits data b (index c) Hb Hw) as [raw ->]. simpl. lia.
Qed.

(** X3: in a notification at least as long as its flags require,
    every announced field is decoded, from the offset given by the
    widths of the announced fields before it: with the tracking dict
    in shape the parser returns a mapping that holds the field's
    value under its key. *)
Theorem complete_notification_decoded data flags pre b post w :
  (required_length flags ≤ length data)%nat →
  field_blocks = pre ++ b :: post →
  flagged b flags = true →
  tracking_ok (resistance_tracking w) →
  ∃ raw fields w',
    read_raw b data (2 + payload_width flags pre) = Ok raw ∧
    process_indoor_bike_data data flags w = (Ok fields, w') ∧
    fields !! key b = Some (field_value b raw).
Proof.
  intros Hlen Hsplit Hflag Hok. unfold required_length in Hlen.
  pose proof field_blocks_byte_indexed as Hbi. rewrite Hsplit in Hbi, Hlen.
  apply Forall_app in Hbi as [Hpre Hbpost]. apply Forall_cons in Hbpost as [Hb Hpost].
  rewrite payload_width_app, payload_width_cons, Hflag in Hlen.
  assert (index (decode_blocks data flags pre start)
          = (2 + payload_width flags pre)%nat) as Hidx.
  { apply (decode_blocks_complete data flags pre start Hpre). simpl. lia. }
  destruct (read_raw_fits data b (2 + payload_width flags pre) Hb) as [raw Hraw];
    [lia|].
  destruct (process_ok data flags w Hok) as (w' & Hrun & _).
  exists raw, (decode_fields data flags), w'. split; [done|]. split; [done|].
  unfold decode_fields. rewrite Hsplit, decode_blocks_app, decode_blocks_cons.
  pose proof field_keys_distinct as Hnodup. rewrite Hsplit in Hnodup.
  rewrite fmap_app, fmap_cons in Hnodup.
  apply NoDup_app in Hnodup as (_ & _ & Hnodup). apply NoDup_cons in Hnodup as [Hk _].
  rewrite decode_blocks_other.
  2:{ apply Forall_forall. intros b' Hin Heq. apply Hk. rewrite <- Heq.
      by apply list_elem_of_fmap_2. }
  unfold decode_block at 1. rewrite Hflag, Hidx.
  destruct (Nat.leb_spec (2 + payload_width flags pre + width b) (length data));
    [|lia].
  rewrite Hraw. simpl. by rewrite lookup_insert_eq.
Qed.

(** X3 on the cadence of [packet1], the second announced field. *)
Lemma complete_notification_decoded_witness :
  ∃ raw fields w',
    read_raw cadence_block packet1
      (2 + payload_width 0x0004 [speed_block; avg_speed_block]) = Ok raw ∧
    process_indoor_bike_data packet1 0x0004 initial_world = (Ok fields, w') ∧
    fields !! "cadence" = Some (field_value cadence_block raw).
Proof.
  apply (complete_notification_decoded packet1 0x0004
           [speed_block; avg_speed_block] cadence_block
           [avg_cadence_block; distance_block; resistance_block; power_block;
            avg_power_block; energy_block; heart_rate_block; met_block;
            elapsed_time_block; remaining_time_block] initial_world).
  - vm_compute. lia.
  - reflexivity.
  - reflexivity.
  - apply tracking0_ok.
Defined.

(** X4: bytes after the announced fields are not looked at: with
    anything appended to a notification that is long enough, the call
    returns the same mapping and leaves the same state. *)
Theorem trailing_bytes_ignored data extra flags w :
  (required_length flags ≤ length data)%nat →
  process_indoor_bike_data (data ++ extra) flags w
  = process_indoor_bike_data data flags w.
Proof.
  intros Hlen. unfold required_length in Hlen.
  assert (decode_fields (data ++ extra) flags = decode_fields data flags) as Hfields.
  { unfold decode_fields. f_equal.
    apply decode_blocks_app_data; [apply field_blocks_byte_indexed|done]. }
  assert (observed_resistance (data ++ extra) flags = observed_resistance data flags)
    as Hobs.
  { rewrite field_blocks_split, payload_width_app, payload_width_cons in Hlen.
    unfold observed_resistance.
    assert (Forall byte_indexed blocks_before_resistance) as Hbefore
      by (repeat constructor; discriminate).
    rewrite decode_blocks_app_data by (done || simpl; lia).
    pose proof (decode_blocks_complete data flags blocks_before_resistance start
                  Hbefore) as Hidx.
    cbn [index start] in Hidx.
    set (c := decode_blocks data flags blocks_before_resistance start) in *.
    destruct (flagged resistance_block flags); [|done]. cbn [andb].
    cbn [width resistance_block] in Hlen.
    rewrite Hidx by lia.
    destruct (Nat.leb_spec (2 + payload_width flags blocks_before_resistance + 2)
                (length (data ++ extra))) as [_|Hn];
      [|rewrite length_app in Hn; lia].
    destruct (Nat.leb_spec (2 + payload_width flags blocks_before_resistance + 2)
                (length data)) as [_|?]; [|lia].
    f_equal. unfold read_resistance, slice. rewrite Hidx by lia.
    rewrite drop_app_le by lia. rewrite take_app_le; [done|].
    rewrite length_drop. lia. }
  by rewrite !process_indoor_bike_data_decompose, Hfields, Hobs.
Qed.

(** X4 on [packet1] followed by two more bytes. *)
Lemma trailing_bytes_ignored_witness :
  process_indoor_bike_data (packet1 ++ [xff; xff]) 0x0004 initial_world
  = process_indoor_bike_data packet1 0x0004 initial_world.
Proof.
  apply (trailing_bytes_ignored packet1 [xff; xff] 0x0004 initial_world).
  vm_compute. lia.
Defined.

End DecoderComplete.

(** ** Short notifications and the resistance tracking *)

Section DecoderState.
Import DataHandler Session Scenarios DecoderLayout.

Lemma decode_blocks_short data flags bs c :
  Forall (λ b, 0 < width b)%nat bs →
  (length data ≤ index c)%nat →
  decode_blocks data flags bs c = c.
Proof.
  intros Hbs Hshort. induction Hbs as [|b bs Hb _ IH]; [done|].
  rewrite decode_blocks_cons.
  assert (decode_block data flags b c = c) as ->; [|done].
  unfold decode_block. destruct (flagged b flags); [|done].
  destruct (Nat.leb_spec (index c + width b) (length data)); [lia|done].
Qed.

(** X5: a notification of at most two bytes (the flags alone, or
    less) gives the empty mapping, whatever the flags announce and
    whatever the state, and changes nothing; it does not raise even
    on the empty tracking dict. *)
Theorem short_notification_decodes_nothing data flags w :
  (length data ≤ 2)%nat →
  process_indoor_bike_data data flags w = (Ok ∅, w).
Proof.
  intros Hshort. rewrite process_indoor_bike_data_decompose.
  unfold observed_resistance, decode_fields.
  rewrite !decode_blocks_short by (done || (repeat constructor; simpl; lia)).
  cbn [index start detected_fields].
  destruct (Nat.leb_spec (2 + 2) (length data)); [lia|].
  by rewrite andb_false_r.
Qed.

(** X5 on the two flag bytes alone, announcing a resistance. *)
Lemma short_notification_decodes_nothing_witness :
  process_indoor_bike_data [x21; x00] 0x0021 module_world = (Ok ∅, module_world).
Proof.
  apply (short_notification_decodes_nothing [x21; x00] 0x0021 module_world).
  simpl. lia.
Defined.

Lemma world_eta w :
  {| test_results := test_results w; resistance_tracking := resistance_tracking w;
     packet_buffer := packet_buffer w; cp_handle := cp_handle w;
     data_handle := data_handle w |} = w.
Proof. by destruct w. Qed.

(** X6: a resistance equal to the last one recorded changes nothing
    at all; in particular a pending command stays pending. *)
Theorem repeated_resistance_changes_nothing data flags w v :
  observed_resistance data flags = Some v →
  resistance_tracking w !! "last_resistance" = Some (PInt v) →
  process_indoor_bike_data data flags w = (Ok (decode_fields data flags), w).
Proof.
  intros Hobs Hlast. rewrite process_indoor_bike_data_decompose, Hobs.
  unfold_track. rewrite Hlast. simpl. rewrite Z.eqb_refl. simpl.
  rewrite insert_id by done. by rewrite world_eta.
Qed.

(** X6 on a second sample with resistance 5. *)
Lemma repeated_resistance_changes_nothing_witness :
  process_indoor_bike_data packet2 0x0021 world_at_5
  = (Ok (decode_fields packet2 0x0021), world_at_5).
Proof.
  apply (repeated_resistance_changes_nothing packet2 0x0021 world_at_5 5).
  - vm_compute. reflexivity.
  - vm_compute. reflexivity.
Defined.

(** X7: the first resistance seen (none recorded so far) is stored as
    the last resistance and nothing else happens, even with a command
    pending: no capability is confirmed by it. *)
Theorem first_resistance_is_only_stored data flags w v :
  observed_resistance data flags = Some v →
  resistance_tracking w !! "last_resistance" = Some PNone →
  process_indoor_bike_data data flags w
  = (Ok (decode_fields data flags),
     set_resistance_tracking "last_resistance" (PInt v) w).
Proof.
  intros Hobs Hlast. rewrite process_indoor_bike_data_decompose, Hobs.
  unfold_track. by rewrite Hlast.
Qed.

(** X7 on the first sample of a session. *)
Lemma first_resistance_is_only_stored_witness :
  process_indoor_bike_data packet2 0x0021 initial_world
  = (Ok (decode_fields packet2 0x0021),
     set_resistance_tracking "last_resistance" (PInt 5) initial_world).
Proof.
  apply (first_resistance_is_only_stored packet2 0x0021 initial_world 5).
  - vm_compute. reflexivity.
  - vm_compute. reflexivity.
Defined.

(** X8: the parser never withdraws a capability and never makes a
    command pending: a capability flag that is [True] before a call is
    [True] after it, and a command pending after a call was pending
    before it. *)
Theorem decoder_flags_monotone data flags w :
  (∀ k, k ∈ ["resistance_control"; "sim_mode_support"] →
        test_results w !! k = Some (PBool true) →
        test_results (snd (process_indoor_bike_data data flags w)) !! k
        = Some (PBool true)) ∧
  (truthy (default (PBool false)
             (resistance_tracking (snd (process_indoor_bike_data data flags w))
                !! "resistance_command_pending")) = true →
   truthy (default (PBool false)
             (resistance_tracking w !! "resistance_command_pending")) = true).
Proof.
  rewrite process_indoor_bike_data_decompose.
  destruct (observed_resistance data flags) as [v|]; [|done].
  assert (∀ o w', track_resistance v w = (o, w') →
    (∀ k, k ∈ ["resistance_control"; "sim_mode_support"] →
          test_results w !! k = Some (PBool true) →
          test_results w' !! k = Some (PBool true)) ∧
    (truthy (default (PBool false)
               (resistance_tracking w' !! "resistance_command_pending")) = true →
     truthy (default (PBool false)
               (resistance_tracking w !! "resistance_command_pending")) = true))
    as Htrack.
  { intros o w'. unfold_track. unfold str_in. intros H.
    repeat (case_match; simplify_eq/=); split; try done;
      try (intros k Hk Ht; destruct (decide (k = "resistance_control")) as [->|?];
           [by simplify_map_eq|];
           destruct (decide (k = "sim_mode_support")) as [->|?];
           by simplify_map_eq);
      by simplify_map_eq. }
  destruct (track_resistance v w) as [o w'] eqn:Ht.
  destruct (Htrack o w' eq_refl) as [H1 H2]. by destruct o as [[]|e].
Qed.

End DecoderState.

(** ** The merged record *)

Section MergeMore.
Import DataHandler Session.

Lemma to_bytes2_little_ok n :
  0 ≤ n < 65536 →
  ∃ lo hi, to_bytes2_little n = Ok [lo; hi] ∧ byte_val lo = n mod 256 ∧
           byte_val hi = n / 256.
Proof.
  intros Hn. unfold to_bytes2_little.
  destruct (Z.leb_spec 0 n); [|lia]. destruct (Z.ltb_spec n 65536); [|lia].
  cbn [andb].
  assert (0 ≤ n mod 256 < 256) by (apply Z.mod_pos_bound; lia).
  assert (0 ≤ n / 256 < 256).
  { split; [apply Z.div_pos; lia|apply Z.div_lt_upper_bound; lia]. }
  destruct (Byte.of_N (Z.to_N (n mod 256))) as [lo|] eqn:Hlo.
  2:{ apply Byte.of_N_None_iff in Hlo. lia. }
  destruct (Byte.of_N (Z.to_N (n / 256))) as [hi|] eqn:Hhi.
  2:{ apply Byte.of_N_None_iff in Hhi. lia. }
  exists lo, hi. apply Byte.to_of_N in Hlo, Hhi. unfold byte_val.
  rewrite Hlo, Hhi. split; [done|]. lia.
Qed.

Lemma to_bytes2_little_raises n :
  ¬ (0 ≤ n < 65536) → to_bytes2_little n = Raise OverflowError.
Proof.
  intros Hn. unfold to_bytes2_little.
  destruct (Z.leb_spec 0 n); destruct (Z.ltb_spec n 65536); simpl; try done. lia.
Qed.

Lemma merge_packet_data_ok data1 flags1 fields1 data2 flags2 fields2 :
  0 ≤ Z.lor flags1 flags2 < 65536 →
  ∃ merged_data,
    merge_packet_data data1 flags1 fields1 data2 flags2 fields2
    = Ok (merged_data, Z.lor flags1 flags2) ∧
    from_bytes_little (slice merged_data 0 2) = Z.lor flags1 flags2 ∧
    drop 2 merged_data = drop 2 data1 ++ drop 2 data2 ∧
    length merged_data = (2 + (length data1 - 2) + (length data2 - 2))%nat.
Proof.
  intros Hrange. unfold merge_packet_data.
  destruct (to_bytes2_little_ok _ Hrange) as (lo & hi & -> & Hlo & Hhi).
  cbn [obind].
  assert ((if (2 <? length data2)%nat
           then ([lo; hi] ++ drop 2 data1) ++ drop 2 data2
           else [lo; hi] ++ drop 2 data1)
          = [lo; hi] ++ drop 2 data1 ++ drop 2 data2) as ->.
  { destruct (Nat.ltb_spec 2 (length data2)); [by rewrite <- app_assoc|].
    rewrite (drop_ge data2) by lia. by rewrite app_nil_r. }
  eexists. split; [done|]. split_and!.
  - unfold slice. cbn [take drop app Nat.sub from_bytes_little]. rewrite Hlo, Hhi.
    rewrite take_0. cbn [from_bytes_little].
    pose proof (Z.div_mod (Z.lor flags1 flags2) 256). lia.
  - done.
  - cbn [app length]. rewrite length_app, !length_drop. lia.
Qed.

(** X9: the merged record is the OR of the two flag words, written
    back little-endian in its first two bytes (reading them gives the
    OR again), followed by the payload of the first notification and
    the payload of the second; the two field mappings are not used.
    The call raises [OverflowError] exactly when the OR does not fit
    in 16 bits. *)
Theorem merge_packet_data_layout data1 flags1 fields1 data2 flags2 fields2 :
  (0 ≤ Z.lor flags1 flags2 < 65536 →
   ∃ merged_data,
     (∀ fields1' fields2',
        merge_packet_data data1 flags1 fields1' data2 flags2 fields2'
        = Ok (merged_data, Z.lor flags1 flags2)) ∧
     from_bytes_little (slice merged_data 0 2) = Z.lor flags1 flags2 ∧
     drop 2 merged_data = drop 2 data1 ++ drop 2 data2 ∧
     length merged_data = (2 + (length data1 - 2) + (length data2 - 2))%nat) ∧
  (¬ (0 ≤ Z.lor flags1 flags2 < 65536) →
   merge_packet_data data1 flags1 fields1 data2 flags2 fields2 = Raise OverflowError).
Proof.
  split.
  - intros Hrange.
    destruct (merge_packet_data_ok data1 flags1 fields1 data2 flags2 fields2 Hrange)
      as (merged_data & Hrun & Hrest).
    exists merged_data. split; [|exact Hrest].
    intros fields1' fields2'. exact Hrun.
  - intros Hrange. unfold merge_packet_data. by rewrite to_bytes2_little_raises.
Qed.

End MergeMore.

(** ** What each branch of the handler leaves alone *)

Section HandlerFacts.
Import DataHandler Session BufferShape.

(** What a call of the parser leaves alone. *)
Lemma process_frame data flags w o w' :
  process_indoor_bike_data data flags w = (o, w') →
  packet_buffer w' = packet_buffer w ∧ cp_handle w' = cp_handle w ∧
  data_handle w' = data_handle w ∧
  (∀ k, k ≠ "resistance_control" → k ≠ "sim_mode_support" →
        test_results w' !! k = test_results w !! k).
Proof.
  rewrite process_indoor_bike_data_decompose.
  destruct (observed_resistance data flags) as [v|]; [|by intros [= <- <-]].
  destruct (track_resistance v w) as [o1 w1] eqn:Ht.
  apply track_resistance_frame in Ht.
  destruct o1 as [[]|e]; by intros [= <- <-].
Qed.

Lemma finalize_frame fields w o w' :
  finalize_packet_processing fields w = (o, w') →
  packet_buffer w' = packet_buffer w ∧ cp_handle w' = cp_handle w ∧
  data_handle w' = data_handle w ∧ resistance_tracking w' = resistance_tracking w ∧
  (∀ k, k ≠ "data_fields_detected" → test_results w' !! k = test_results w !! k).
Proof.
  unfold finalize_packet_processing, set_test_results. intros H.
  repeat (case_match; simplify_eq/=); split_and!; try done;
    intros; by rewrite lookup_insert_ne.
Qed.

Lemma handle_control_point_frame data w o w' :
  handle_control_point data w = (o, w') →
  packet_buffer w' = packet_buffer w ∧ cp_handle w' = cp_handle w ∧
  data_handle w' = data_handle w ∧
  (∀ k, k ≠ "control_commands_tested" → test_results w' !! k = test_results w !! k).
Proof.
  unfold handle_control_point, bind, record_command, modify, ret,
    set_resistance_tracking, set_test_results. intros H.
  repeat (case_match; simplify_eq/=); split_and!; try done;
    intros; by rewrite lookup_insert_ne.
Qed.

Lemma handle_bike_data_frame data w o w' :
  handle_bike_data data w = (o, w') →
  cp_handle w' = cp_handle w ∧ data_handle w' = data_handle w ∧
  (∀ k, k ∉ data_keys → test_results w' !! k = test_results w !! k) ∧
  (buffer_ok (packet_buffer w) → buffer_ok (packet_buffer w')).
Proof.
  unfold handle_bike_data. unfold bind at 1.
  set (flags := from_bytes_little (slice data 0 2)).
  destruct (process_indoor_bike_data data flags w) as [[current|e] w1] eqn:H1;
    apply process_frame in H1 as (Hpb1 & Hcp1 & Hdh1 & Hk1).
  2:{ intros [= <- <-].
      split_and!; [congruence|congruence| |by rewrite Hpb1].
      intros k Hnk. apply Hk1; set_solver. }
  unfold bind at 1, gets at 1. rewrite Hpb1.
  assert (∀ k, k ∉ data_keys → test_results w1 !! k = test_results w !! k) as Hk1'.
  { intros k Hnk. apply Hk1; set_solver. }
  clear Hk1. unfold bind at 1.
  destruct (pb_data (packet_buffer w)) as [prev_data|] eqn:Hprev.
  2:{ unfold ret, modify, set_packet_buffer. intros [= <- <-]. simpl.
      split_and!; [congruence|congruence|done|]. intros _. by unfold buffer_ok. }
  destruct (if can_merge_packets (pb_flags (packet_buffer w)) (Some flags)
            then pb_flags (packet_buffer w) else None) as [prev_flags|] eqn:Hmerge.
  - unfold bind at 1, lift at 1.
    destruct (merge_packet_data _ _ _ _ _ _) as [md|e]; simpl.
    2:{ intros [= <- <-]. split_and!; [congruence|congruence|done|by rewrite Hpb1]. }
    unfold bind at 1.
    destruct (process_indoor_bike_data md.1 md.2 w1) as [[merged|e] w2] eqn:H2;
      apply process_frame in H2 as (Hpb2 & Hcp2 & Hdh2 & Hk2).
    2:{ intros [= <- <-].
        split_and!; [congruence|congruence| |by rewrite Hpb2, Hpb1].
        intros k Hnk. rewrite Hk2 by set_solver. by apply Hk1'. }
    unfold ret at 1. simpl. unfold bind at 1.
    destruct (finalize_packet_processing merged w2) as [[[]|e] w3] eqn:H3;
      apply finalize_frame in H3 as (Hpb3 & Hcp3 & Hdh3 & _ & Hk3).
    2:{ intros [= <- <-].
        split_and!; [congruence|congruence| |by rewrite Hpb3, Hpb2, Hpb1].
        intros k Hnk. rewrite Hk3, Hk2 by set_solver. by apply Hk1'. }
    unfold modify, set_packet_buffer. intros [= <- <-]. simpl.
    split_and!; [congruence|congruence| |done].
    intros k Hnk. rewrite Hk3, Hk2 by set_solver. by apply Hk1'.
  - unfold bind at 1.
    destruct (finalize_packet_processing _ w1) as [[[]|e] w2] eqn:H2;
      apply finalize_frame in H2 as (Hpb2 & Hcp2 & Hdh2 & _ & Hk2).
    2:{ simpl. intros [= <- <-].
        split_and!; [congruence|congruence| |by rewrite Hpb2, Hpb1].
        intros k Hnk. rewrite Hk2 by set_solver. by apply Hk1'. }
    unfold ret at 1, modify, set_packet_buffer. simpl. intros [= <- <-]. simpl.
    split_and!; [congruence|congruence| |done].
    intros k Hnk. rewrite Hk2 by set_solver. by apply Hk1'.
Qed.

End HandlerFacts.

(** ** The handler as a whole *)

Section HandlerClaims.
Import DataHandler Session Scenarios Samples BufferShape.
Variable exn_text : pyexn → string.

Lemma append_issue_frame msg w o w' :
  append_issue msg w = (o, w') →
  packet_buffer w' = packet_buffer w ∧ resistance_tracking w' = resistance_tracking w ∧
  (∀ k, k ≠ "issues_found" → test_results w' !! k = test_results w !! k).
Proof.
  unfold append_issue, set_test_results.
  destruct (test_results w !! "issues_found") as [[| | | | |l|]|];
    intros [= <- <-]; try done.
  simpl. split_and!; [done|done|]. intros k Hk. by rewrite lookup_insert_ne.
Qed.

Lemma handler_body_frame sender data w o w' :
  handler_body sender data w = (o, w') →
  test_results w' !! "issues_found" = test_results w !! "issues_found" ∧
  (buffer_ok (packet_buffer w) → buffer_ok (packet_buffer w')).
Proof.
  unfold handler_body, bind, gets. simpl.
  destruct (bool_decide (sender = cp_handle w)).
  { intros H. apply handle_control_point_frame in H as (Hpb & _ & _ & Hk).
    split; [by apply Hk|by rewrite Hpb]. }
  destruct (bool_decide (sender = data_handle w)).
  { intros H. apply handle_bike_data_frame in H as (_ & _ & Hk & Hpb).
    split; [apply Hk; compute_done|done]. }
  by intros [= <- <-].
Qed.

(** X10: no exception leaves the handler when the record has its
    anomaly list, whoever the sender is and whatever the bytes and the
    rest of the state are: a failure inside is turned into one more
    anomaly at the end of the list, and the list is otherwise left as
    it was. *)
Theorem notification_handler_contains_errors sender data w issues :
  test_results w !! "issues_found" = Some (PList issues) →
  ∃ w', notification_handler exn_text sender data w = (Ok tt, w') ∧
        (test_results w' !! "issues_found" = Some (PList issues) ∨
         ∃ e, test_results w' !! "issues_found"
              = Some (PList (issues ++
                  [PStr ("Notification processing error: " +:+ exn_text e)]))).
Proof.
  intros Hissues. unfold notification_handler, try_catch.
  fold (handler_body sender data).
  destruct (handler_body sender data w) as [[[]|e] w1] eqn:Hbody;
    apply handler_body_frame in Hbody as [Hk _]; rewrite Hissues in Hk.
  - eauto.
  - unfold append_issue. rewrite Hk. eexists. split; [done|]. right. exists e.
    unfold set_test_results. simpl. by rewrite lookup_insert_eq.
Qed.

(** X11: the buffer keeps its shape (empty, or a notification with the
    flags of its first two bytes) through every notification,
    whatever arrives and whether or not the handling fails, and
    through the flush at the end. *)
Theorem buffer_shape_invariant sender data w :
  buffer_ok (packet_buffer w) →
  buffer_ok (packet_buffer (snd (notification_handler exn_text sender data w))) ∧
  buffer_ok (packet_buffer (snd (DeviceTest.teardown w))).
Proof.
  intros Hok. split.
  - unfold notification_handler, try_catch. fold (handler_body sender data).
    destruct (handler_body sender data w) as [[[]|e] w1] eqn:Hbody;
      apply handler_body_frame in Hbody as [_ Hpb]; [by apply Hpb|].
    destruct (append_issue _ w1) as [o w2] eqn:Happ.
    apply append_issue_frame in Happ as (Hpb2 & _). simpl. rewrite Hpb2. by apply Hpb.
  - unfold DeviceTest.teardown, try_catch, cleanup_packet_buffer, bind, gets.
    destruct (pb_data (packet_buffer w)); [|done].
    destruct (finalize_packet_processing _ w) as [[[]|e] w1] eqn:Hfin;
      apply finalize_frame in Hfin as (Hpb & _); [done|].
    simpl. by rewrite Hpb.
Qed.

End HandlerClaims.

Section HandlerExamples.
Import DataHandler Session Scenarios Samples BufferShape.

(** X10 on a notification handled with the module's own tracking dict,
    where the parser fails. *)
Lemma notification_handler_contains_errors_witness :
  ∃ w', notification_handler (λ _ : pyexn, EmptyString) (Some 2) packet2
          (snd (DeviceTest.set_global_handles (Some 1) (Some 2)
                  {| test_results := test_results0; resistance_tracking := ∅;
                     packet_buffer := empty_buffer; cp_handle := None;
                     data_handle := None |}))
        = (Ok tt, w') ∧
        (test_results w' !! "issues_found" = Some (PList []) ∨
         ∃ e : pyexn, test_results w' !! "issues_found"
              = Some (PList ([] ++
                  [PStr ("Notification processing error: " +:+ EmptyString)]))).
Proof.
  apply (notification_handler_contains_errors (λ _ : pyexn, EmptyString) (Some 2) packet2
           (snd (DeviceTest.set_global_handles (Some 1) (Some 2)
                   {| test_results := test_results0; resistance_tracking := ∅;
                      packet_buffer := empty_buffer; cp_handle := None;
                      data_handle := None |})) []).
  vm_compute. reflexivity.
Defined.

(** X11 on the state with one sample buffered. *)
Lemma buffer_shape_invariant_witness :
  buffer_ok (packet_buffer
               (snd (notification_handler (λ _ : pyexn, EmptyString) (Some 2) packet2 world_buffered))) ∧
  buffer_ok (packet_buffer (snd (DeviceTest.teardown world_buffered))).
Proof.
  apply (buffer_shape_invariant (λ _ : pyexn, EmptyString) (Some 2) packet2 world_buffered).
  vm_compute. reflexivity.
Defined.

End HandlerExamples.

(** ** Buffering and merging *)

Section IngestClaims.
Import DataHandler Session Scenarios Samples BufferShape.
Variable exn_text : pyexn → string.

Lemma lor_16bit a b : 0 ≤ a < 65536 → 0 ≤ b < 65536 → 0 ≤ Z.lor a b < 65536.
Proof.
  intros Ha Hb. split; [apply Z.lor_nonneg; lia|].
  destruct (Z.eq_dec (Z.lor a b) 0) as [->|Hnz]; [lia|].
  assert (0 < Z.lor a b) by (pose proof (proj2 (Z.lor_nonneg a b)); lia).
  change 65536 with (2 ^ 16). apply Z.log2_lt_pow2; [done|].
  rewrite Z.log2_lor by lia.
  assert (Z.log2 a < 16).
  { destruct (Z.eq_dec a 0) as [->|?]; [done|]. apply Z.log2_lt_pow2; lia. }
  assert (Z.log2 b < 16).
  { destruct (Z.eq_dec b 0) as [->|?]; [done|]. apply Z.log2_lt_pow2; lia. }
  lia.
Qed.

Lemma flags_16bit (data : list byte) :
  0 ≤ from_bytes_little (slice data 0 2) < 65536.
Proof.
  pose proof (from_bytes_little_bound (slice data 0 2)) as Hb.
  assert (length (slice data 0 2) ≤ 2)%nat as Hlen.
  { unfold slice. rewrite length_take. lia. }
  assert (256 ^ Z.of_nat (length (slice data 0 2)) ≤ 256 ^ 2).
  { apply Z.pow_le_mono_r; lia. }
  lia.
Qed.

Lemma handler_on_bike_data sender data w o w' :
  sender ≠ cp_handle w → sender = data_handle w →
  handle_bike_data data w = (Ok o, w') →
  notification_handler exn_text sender data w = (Ok o, w').
Proof.
  intros Hcp Hdh Hrun. unfold notification_handler, try_catch, bind, gets. simpl.
  rewrite bool_decide_eq_false_2, bool_decide_eq_true_2 by done. by rewrite Hrun.
Qed.

Lemma world_buffered_ok : tracking_ok (resistance_tracking world_buffered).
Proof. split; [by eexists|]. intros H. vm_compute in H. discriminate. Defined.

(** X12: when the sender is the data handle (and not the control
    point handle), the tracking dict is in shape ([tracking_ok]: it has
    ['last_resistance'] and a pending command has its name) and
    nothing is buffered, a bike data notification is parsed and held
    back: the handler returns, the notification becomes the buffer's
    content, with its flags and its parsed fields, and the record's
    detected fields are not touched yet. *)
Theorem first_notification_is_buffered sender data w :
  sender ≠ cp_handle w → sender = data_handle w →
  tracking_ok (resistance_tracking w) →
  pb_data (packet_buffer w) = None →
  ∃ w', notification_handler exn_text sender data w = (Ok tt, w') ∧
        packet_buffer w'
        = {| pb_data := Some data;
             pb_flags := Some (from_bytes_little (slice data 0 2));
             pb_detected_fields :=
               decode_fields data (from_bytes_little (slice data 0 2)) |} ∧
        test_results w' !! "data_fields_detected"
        = test_results w !! "data_fields_detected".
Proof.
  intros Hcp Hdh Hok Hempty.
  set (flags := from_bytes_little (slice data 0 2)).
  destruct (process_ok data flags w Hok) as (w1 & Hrun & Hok1).
  pose proof (process_frame _ _ _ _ _ Hrun) as (Hpb1 & _ & _ & Hk1).
  eexists. split.
  - apply handler_on_bike_data; [done|done|].
    unfold handle_bike_data. fold flags. unfold bind at 1. rewrite Hrun.
    unfold bind at 1, gets at 1. rewrite Hpb1, Hempty.
    unfold bind, ret, modify. reflexivity.
  - unfold set_packet_buffer. simpl. split; [done|]. by apply Hk1.
Qed.

(** X13: when the sender is the data handle (and not the control
    point handle), the tracking dict is in shape ([tracking_ok]) and
    the record has its detected-field dict, a notification whose flags
    overlap those of the buffered one is not merged: the handler
    returns, the buffered fields go to the record as they are, over
    the entries already there, and the new notification takes the
    buffer. *)
Theorem overlapping_flags_are_not_merged sender data w prev_data prev_flags old :
  sender ≠ cp_handle w → sender = data_handle w →
  tracking_ok (resistance_tracking w) →
  pb_data (packet_buffer w) = Some prev_data →
  pb_flags (packet_buffer w) = Some prev_flags →
  Z.land prev_flags (from_bytes_little (slice data 0 2)) ≠ 0 →
  test_results w !! "data_fields_detected" = Some (PDict old) →
  ∃ w', notification_handler exn_text sender data w = (Ok tt, w') ∧
        packet_buffer w'
        = {| pb_data := Some data;
             pb_flags := Some (from_bytes_little (slice data 0 2));
             pb_detected_fields :=
               decode_fields data (from_bytes_little (slice data 0 2)) |} ∧
        test_results w' !! "data_fields_detected"
        = Some (PDict (pb_detected_fields (packet_buffer w) ∪ old)).
Proof.
  intros Hcp Hdh Hok Hdata Hflags Hoverlap Hold.
  set (flags := from_bytes_little (slice data 0 2)) in *.
  destruct (process_ok data flags w Hok) as (w1 & Hrun & Hok1).
  pose proof (process_frame _ _ _ _ _ Hrun) as (Hpb1 & _ & _ & Hk1).
  assert (test_results w1 !! "data_fields_detected" = Some (PDict old)) as Hold1.
  { by rewrite Hk1. }
  eexists. split.
  - apply handler_on_bike_data; [done|done|].
    unfold handle_bike_data. fold flags. unfold bind at 1. rewrite Hrun.
    unfold bind at 1, gets at 1. rewrite Hpb1, Hdata, Hflags.
    unfold can_merge_packets. apply Z.eqb_neq in Hoverlap. rewrite Hoverlap.
    cbn [negb]. unfold bind at 1, bind at 1, finalize_packet_processing.
    rewrite Hold1. unfold ret, modify. reflexivity.
  - unfold set_packet_buffer, set_test_results. simpl. split; [done|].
    by rewrite lookup_insert_eq.
Qed.

(** X14: when the sender is the data handle (and not the control
    point handle), the tracking dict is in shape ([tracking_ok]), the
    record has its detected-field dict and the buffered flags are a
    16-bit word, a notification whose flags do not overlap the
    buffered ones is merged with it: the handler returns, the record
    receives the fields parsed from the merged bytes under the OR of
    the flags (not the fields parsed from either notification) and
    the buffer is emptied. *)
Theorem disjoint_flags_are_merged sender data w prev_data prev_flags old :
  sender ≠ cp_handle w → sender = data_handle w →
  tracking_ok (resistance_tracking w) →
  pb_data (packet_buffer w) = Some prev_data →
  pb_flags (packet_buffer w) = Some prev_flags →
  0 ≤ prev_flags < 65536 →
  Z.land prev_flags (from_bytes_little (slice data 0 2)) = 0 →
  test_results w !! "data_fields_detected" = Some (PDict old) →
  ∃ w' merged_data,
    merge_packet_data prev_data prev_flags (pb_detected_fields (packet_buffer w))
      data (from_bytes_little (slice data 0 2))
      (decode_fields data (from_bytes_little (slice data 0 2)))
    = Ok (merged_data, Z.lor prev_flags (from_bytes_little (slice data 0 2))) ∧
    notification_handler exn_text sender data w = (Ok tt, w') ∧
    packet_buffer w' = empty_buffer ∧
    test_results w' !! "data_fields_detected"
    = Some (PDict (decode_fields merged_data
                     (Z.lor prev_flags (from_bytes_little (slice data 0 2)))
                   ∪ old)).
Proof.
  intros Hcp Hdh Hok Hdata Hflags Hrange Hdisjoint Hold.
  set (flags := from_bytes_little (slice data 0 2)) in *.
  destruct (process_ok data flags w Hok) as (w1 & Hrun & Hok1).
  pose proof (process_frame _ _ _ _ _ Hrun) as (Hpb1 & _ & _ & Hk1).
  pose proof (lor_16bit prev_flags flags Hrange (flags_16bit data)) as Hlor.
  destruct (merge_packet_data_ok prev_data prev_flags
              (pb_detected_fields (packet_buffer w)) data flags
              (decode_fields data flags) Hlor)
    as (merged_data & Hmerge & _).
  destruct (process_ok merged_data (Z.lor prev_flags flags) w1 Hok1)
    as (w2 & Hrun2 & Hok2).
  pose proof (process_frame _ _ _ _ _ Hrun2) as (Hpb2 & _ & _ & Hk2).
  assert (test_results w2 !! "data_fields_detected" = Some (PDict old)) as Hold2.
  { by rewrite Hk2, Hk1. }
  eexists _, merged_data. split; [exact Hmerge|]. split.
  - apply handler_on_bike_data; [done|done|].
    unfold handle_bike_data. fold flags. unfold bind at 1. rewrite Hrun.
    unfold bind at 1, gets at 1. rewrite Hpb1, Hdata, Hflags.
    unfold can_merge_packets. rewrite Hdisjoint. cbn [Z.eqb negb].
    unfold bind at 1, bind at 1, lift at 1. rewrite Hmerge.
    unfold bind at 1. cbn [fst snd]. rewrite Hrun2.
    unfold ret at 1. unfold bind at 1, finalize_packet_processing.
    rewrite Hold2. unfold modify. reflexivity.
  - unfold set_packet_buffer, set_test_results. simpl. split; [done|].
    by rewrite lookup_insert_eq.
Qed.

End IngestClaims.

Section IngestExamples.
Import DataHandler Session Scenarios Samples BufferShape.

(** X12 on the first sample of a session. *)
Lemma first_notification_is_buffered_witness :
  ∃ w', notification_handler (λ _ : pyexn, EmptyString) (Some 2) packet1 world_ready = (Ok tt, w') ∧
        packet_buffer w'
        = {| pb_data := Some packet1;
             pb_flags := Some (from_bytes_little (slice packet1 0 2));
             pb_detected_fields :=
               decode_fields packet1 (from_bytes_little (slice packet1 0 2)) |} ∧
        test_results w' !! "data_fields_detected"
        = test_results world_ready !! "data_fields_detected".
Proof.
  apply (first_notification_is_buffered (λ _ : pyexn, EmptyString) (Some 2) packet1 world_ready).
  - discriminate.
  - reflexivity.
  - apply tracking0_ok.
  - reflexivity.
Defined.

(** X13 on a second sample with the flags of the buffered one. *)
Lemma overlapping_flags_are_not_merged_witness :
  ∃ w', notification_handler (λ _ : pyexn, EmptyString) (Some 2) packet3 world_buffered = (Ok tt, w') ∧
        packet_buffer w'
        = {| pb_data := Some packet3;
             pb_flags := Some (from_bytes_little (slice packet3 0 2));
             pb_detected_fields :=
               decode_fields packet3 (from_bytes_little (slice packet3 0 2)) |} ∧
        test_results w' !! "data_fields_detected"
        = Some (PDict (pb_detected_fields (packet_buffer world_buffered) ∪ ∅)).
Proof.
  apply (overlapping_flags_are_not_merged (λ _ : pyexn, EmptyString) (Some 2) packet3 world_buffered
           packet1 0x0004 ∅).
  - discriminate.
  - reflexivity.
  - apply world_buffered_ok.
  - reflexivity.
  - reflexivity.
  - vm_compute. discriminate.
  - reflexivity.
Defined.

(** X14 on the resistance sample arriving after the buffered speed and
    cadence sample. *)
Lemma disjoint_flags_are_merged_witness :
  ∃ w' merged_data,
    merge_packet_data packet1 0x0004 (pb_detected_fields (packet_buffer world_buffered))
      packet2 (from_bytes_little (slice packet2 0 2))
      (decode_fields packet2 (from_bytes_little (slice packet2 0 2)))
    = Ok (merged_data, Z.lor 0x0004 (from_bytes_little (slice packet2 0 2))) ∧
    notification_handler (λ _ : pyexn, EmptyString) (Some 2) packet2 world_buffered = (Ok tt, w') ∧
    packet_buffer w' = empty_buffer ∧
    test_results w' !! "data_fields_detected"
    = Some (PDict (decode_fields merged_data
                     (Z.lor 0x0004 (from_bytes_little (slice packet2 0 2)))
                   ∪ ∅)).
Proof.
  apply (disjoint_flags_are_merged (λ _ : pyexn, EmptyString) (Some 2) packet2 world_buffered packet1 0x0004 ∅).
  - discriminate.
  - reflexivity.
  - apply world_buffered_ok.
  - reflexivity.
  - reflexivity.
  - lia.
  - reflexivity.
  - reflexivity.
Defined.

End IngestExamples.

(** ** Acknowledgements *)

Section AckClaims.
Import DataHandler Session Scenarios Samples BufferShape.

(** X15: with the ledger of tested commands in the record, an
    acknowledgement never raises. One of at least three bytes is
    entered in the ledger under the name of its opcode, as a success
    exactly when its result code is 1, and nothing else of the record
    changes. Only a success for opcode 0x04, 0x05 or 0x11 touches the
    resistance tracking: it makes that command pending. A failure,
    another opcode or fewer than three bytes leave the tracking (and,
    for fewer than three bytes, everything) as it was. *)
Theorem acknowledgement_effect data w ledger :
  test_results w !! "control_commands_tested" = Some (PDict ledger) →
  ∃ w', handle_control_point data w = (Ok tt, w') ∧
    match data with
    | _ :: request_opcode :: result_code :: _ =>
        test_results w'
        = <["control_commands_tested" :=
              PDict (<[command_name_of request_opcode :=
                         PBool (byte_val result_code =? 1)]> ledger)]>
            (test_results w) ∧
        resistance_tracking w'
        = (if (byte_val result_code =? 1) &&
              bool_decide (byte_val request_opcode ∈ [0x04; 0x05; 0x11])
           then <["last_command_type" := PStr (command_name_of request_opcode)]>
                  (<["resistance_command_pending" := PBool true]>
                     (resistance_tracking w))
           else resistance_tracking w)
    | _ => w' = w
    end.
Proof.
  intros Hledger.
  destruct data as [|response_code [|request_opcode [|result_code rest]]];
    try (by exists w).
  unfold handle_control_point, bind, record_command, modify, ret,
    set_resistance_tracking, set_test_results.
  rewrite Hledger. cbn [test_results resistance_tracking].
  destruct (byte_val result_code =? 1); cbn [andb].
  - assert (existsb (Z.eqb (byte_val request_opcode)) [4; 5; 17]
            = bool_decide (byte_val request_opcode ∈ [4; 5; 17])) as ->.
    { apply eq_true_iff_eq. rewrite bool_decide_eq_true.
      unfold is_true. rewrite existsb_exists. split.
      - intros (x & Hin & Hx). apply Z.eqb_eq in Hx as ->. by apply list_elem_of_In.
      - intros Hin. exists (byte_val request_opcode).
        split; [by apply list_elem_of_In|apply Z.eqb_refl]. }
    destruct (bool_decide _); eexists; done.
  - eexists; done.
Qed.

(** X15 on the success of SET_TARGET_POWER, at the start of a session. *)
Lemma acknowledgement_effect_witness :
  ∃ w', handle_control_point [x80; x05; x01] initial_world = (Ok tt, w') ∧
        test_results w'
        = <["control_commands_tested" :=
              PDict (<[command_name_of x05 := PBool (byte_val x01 =? 1)]> ∅)]>
            (test_results initial_world) ∧
        resistance_tracking w'
        = (if (byte_val x01 =? 1) && bool_decide (byte_val x05 ∈ [0x04; 0x05; 0x11])
           then <["last_command_type" := PStr (command_name_of x05)]>
                  (<["resistance_command_pending" := PBool true]>
                     (resistance_tracking initial_world))
           else resistance_tracking initial_world).
Proof.
  apply (acknowledgement_effect [x80; x05; x01] initial_world ∅).
  vm_compute. reflexivity.
Defined.

End AckClaims.

(** ** Commands, acknowledgements and the flush *)

Section CommandClaims.
Import DataHandler Session Scenarios Samples BufferShape.

Lemma failed_ack_keeps_tracking response_code request_opcode result_code rest w :
  byte_val result_code ≠ 1 →
  resistance_tracking
    (snd (handle_control_point
            (response_code :: request_opcode :: result_code :: rest) w))
  = resistance_tracking w.
Proof.
  intros Hfail. apply Z.eqb_neq in Hfail.
  unfold handle_control_point, bind, record_command, ret. rewrite Hfail.
  destruct (test_results w !! "control_commands_tested") as [[| | | | | |m]|]; done.
Qed.

(** X16: a command is pending from the moment it is sent, and a failed
    acknowledgement does not withdraw it: after SET_RESISTANCE_LEVEL
    is sent and acknowledged as failed (for whatever opcode), a
    changed resistance makes the parser record the resistance control
    as working. *)
Theorem failed_acknowledgement_does_not_cancel
    data flags w v r0 expected now response_code request_opcode result_code rest :
  observed_resistance data flags = Some v →
  resistance_tracking w !! "last_resistance" = Some (PInt r0) →
  v ≠ r0 →
  byte_val result_code ≠ 1 →
  ∃ w',
    process_indoor_bike_data data flags
      (snd (handle_control_point
              (response_code :: request_opcode :: result_code :: rest)
              (snd (DeviceTest.send_control_command "SET_RESISTANCE_LEVEL"
                      expected now w))))
    = (Ok (decode_fields data flags), w') ∧
    test_results w' !! "resistance_control" = Some (PBool true).
Proof.
  intros Hobs Hlast Hne Hfail.
  set (w1 := snd (DeviceTest.send_control_command "SET_RESISTANCE_LEVEL"
                    expected now w)).
  set (w2 := snd (handle_control_point _ w1)).
  assert (resistance_tracking w2 = resistance_tracking w1) as Hrt
    by (by apply failed_ack_keeps_tracking).
  assert (resistance_tracking w1 !! "last_resistance" = Some (PInt r0) ∧
          resistance_tracking w1 !! "resistance_command_pending" = Some (PBool true) ∧
          resistance_tracking w1 !! "last_command_type"
          = Some (PStr "SET_RESISTANCE_LEVEL")) as (H1 & H2 & H3).
  { unfold w1, DeviceTest.send_control_command.
    change (existsb _ DeviceTest.resistance_related_commands) with true.
    unfold bind, modify, ret, set_resistance_tracking.
    destruct expected; simpl; by simplify_map_eq. }
  rewrite <- Hrt in H1, H2, H3.
  rewrite process_indoor_bike_data_decompose, Hobs.
  rewrite (track_resistance_pending v w2 r0 "SET_RESISTANCE_LEVEL") by done.
  eexists. split; [done|]. cbn [test_results].
  change (contains "SET_RESISTANCE_LEVEL" "SET_RESISTANCE_LEVEL") with true.
  cbn iota. by rewrite lookup_insert_eq.
Qed.

(** X16 on resistance 5, the command refused by the device (result
    code 2), then resistance 8. *)
Lemma failed_acknowledgement_does_not_cancel_witness :
  ∃ w',
    process_indoor_bike_data [x21; x00; x08; x00] 0x0021
      (snd (handle_control_point [x80; x04; x02]
              (snd (DeviceTest.send_control_command "SET_RESISTANCE_LEVEL"
                      None 0 world_at_5))))
    = (Ok (decode_fields [x21; x00; x08; x00] 0x0021), w') ∧
    test_results w' !! "resistance_control" = Some (PBool true).
Proof.
  apply (failed_acknowledgement_does_not_cancel [x21; x00; x08; x00] 0x0021
           world_at_5 8 5 None 0 x80 x04 x02 []).
  - vm_compute. reflexivity.
  - vm_compute. reflexivity.
  - lia.
  - vm_compute. discriminate.
Defined.

(** X17: the flush at the end never raises. With nothing buffered it
    does nothing; with a record that has no detected-field dict the
    failure is swallowed and the state, the buffered sample included,
    is left as it was. *)
Theorem teardown_never_raises w :
  ∃ w', DeviceTest.teardown w = (Ok tt, w') ∧
        (pb_data (packet_buffer w) = None → w' = w) ∧
        ((∀ old, test_results w !! "data_fields_detected" ≠ Some (PDict old)) →
         w' = w).
Proof.
  unfold DeviceTest.teardown, try_catch, cleanup_packet_buffer, bind, gets,
    finalize_packet_processing, modify, ret.
  destruct (pb_data (packet_buffer w)) as [data|]; [|eauto].
  destruct (test_results w !! "data_fields_detected") as [[| | | | | |old]|] eqn:Hold;
    try (eexists; split; [done|]; split; [done|]; done).
  eexists. split; [done|]. split; [done|]. intros Hno. by destruct (Hno old).
Qed.

End CommandClaims.

(** ** The classifier on any record *)

Ltac concluded5 :=
  eexists _, _; split; [reflexivity|];
  unfold AnalyzeResult.IMPOSSIBLE, AnalyzeResult.UNVERIFIABLE_CUSTOM_PROTOCOL,
    AnalyzeResult.PARTIAL, AnalyzeResult.PARTIAL_FIXABLE, AnalyzeResult.FULL;
  set_solver.

Section ClassifierMore.
Import AnalyzeResult ClassifierShape.
Variable str_lower : pyval → string.
Variable exn_text : pyexn → string.

Lemma analyze_ftms_written tr :
  match analyze_ftms tr with
  | Ok tr' => ∃ level reason, tr' = conclude level reason tr ∧ level ∈ written
  | Raise _ => True
  end.
Proof.
  unfold analyze_ftms, obind, written.
  destruct (has_speed_and_cadence_of _) as [both|e]; [|done].
  destruct (both && truthy _); [concluded5|].
  destruct (both && negb (truthy _)).
  - unfold try_except. destruct (iter _) as [items|e]; [|concluded5].
    destruct (any _ items) as [[|]|e]; concluded5.
  - destruct (negb both); concluded5.
Qed.

Lemma nonempty_truthy (tr : pydict) : tr ≠ ∅ → truthy (PDict tr) = true.
Proof.
  intros Hne. simpl. apply negb_true_iff, Nat.eqb_neq.
  by apply map_size_non_empty_iff.
Qed.

Lemma analyze_body_written tr :
  tr ≠ ∅ →
  match analyze_body str_lower tr with
  | Ok tr' => ∃ level reason, tr' = conclude level reason tr ∧ level ∈ written
  | Raise _ => True
  end.
Proof.
  intros Hne. unfold analyze_body. rewrite nonempty_truthy by done.
  cbn [negb]. unfold obind, written.
  destruct (negb (truthy _)); [concluded5|].
  destruct (get _ "services" _) as [services|e]; [|done].
  destruct (has_speed_and_cadence_of _) as [essential|e]; [|done].
  destruct (negb _); [concluded5|].
  destruct (existsb _ _); [concluded5|].
  destruct (negb (existsb _ _)); [concluded5|].
  destruct (eq_str _ _); [concluded5|].
  apply analyze_ftms_written.
Qed.

(** X18: on a non-empty record the classifier always ends with one of
    five verdicts under ['compatibility_level'] and a list of exactly
    one reason under ['reasons'], also when the analysis fails inside,
    and it leaves every other entry as it was. *)
Theorem classifier_writes_verdict_and_reason tr :
  tr ≠ ∅ →
  ∃ level reason,
    level ∈ [IMPOSSIBLE; UNVERIFIABLE_CUSTOM_PROTOCOL; PARTIAL; PARTIAL_FIXABLE; FULL] ∧
    analyze_test_results str_lower exn_text tr !! "compatibility_level"
    = Some (PStr level) ∧
    analyze_test_results str_lower exn_text tr !! "reasons"
    = Some (PList [PStr reason]) ∧
    ∀ k, k ≠ "compatibility_level" → k ≠ "reasons" →
         analyze_test_results str_lower exn_text tr !! k = tr !! k.
Proof.
  intros Hne. pose proof (analyze_body_written tr Hne) as H.
  unfold analyze_test_results, try_except.
  destruct (analyze_body str_lower tr) as [tr'|e].
  - destruct H as (level & reason & -> & Hin). exists level, reason.
    split_and!; [done|apply conclude_level|apply conclude_reasons|].
    intros k H1 H2. unfold conclude. by rewrite !lookup_insert_ne.
  - eexists _, _. split_and!; [|apply conclude_level|apply conclude_reasons|].
    + unfold IMPOSSIBLE. set_solver.
    + intros k H1 H2. unfold conclude. by rewrite !lookup_insert_ne.
Qed.

Lemma classifier_ok tr :
  tr ≠ ∅ →
  ∃ level reason, analyze_test_results str_lower exn_text tr = conclude level reason tr.
Proof.
  intros Hne. pose proof (analyze_body_written tr Hne) as H.
  unfold analyze_test_results, try_except.
  destruct (analyze_body str_lower tr) as [tr'|e]; [|eauto].
  destruct H as (level & reason & -> & _). eauto.
Qed.

Lemma conclude_overwrite level reason v1 v2 (tr : pydict) :
  conclude level reason (<["reasons" := v2]> (<["compatibility_level" := v1]> tr))
  = conclude level reason tr.
Proof.
  unfold conclude. apply map_eq. intros k.
  destruct (decide (k = "reasons")) as [->|?]; [by simplify_map_eq|].
  destruct (decide (k = "compatibility_level")) as [->|?]; by simplify_map_eq.
Qed.

(** X19: what was under ['compatibility_level'] and ['reasons'] before
    the call has no influence on the result; in particular
    classifying twice gives what classifying once gives. *)
Theorem classifier_ignores_previous_verdict tr v1 v2 :
  tr ≠ ∅ →
  analyze_test_results str_lower exn_text
    (<["reasons" := v2]> (<["compatibility_level" := v1]> tr))
  = analyze_test_results str_lower exn_text tr ∧
  analyze_test_results str_lower exn_text (analyze_test_results str_lower exn_text tr)
  = analyze_test_results str_lower exn_text tr.
Proof.
  intros Hne.
  assert (∀ v1 v2, analyze_test_results str_lower exn_text
            (<["reasons" := v2]> (<["compatibility_level" := v1]> tr))
          = analyze_test_results str_lower exn_text tr) as Hover.
  { clear v1 v2. intros v1 v2.
    set (tr2 := <["reasons" := v2]> (<["compatibility_level" := v1]> tr)).
    assert (∀ k, k ≠ "compatibility_level" → k ≠ "reasons" → tr2 !! k = tr !! k)
      as Hk by (intros k ? ?; unfold tr2; by rewrite !lookup_insert_ne).
    assert (tr2 ≠ ∅) as Hne2 by (unfold tr2; apply insert_non_empty).
    unfold analyze_test_results, analyze_body, analyze_ftms.
    rewrite !nonempty_truthy by done.
    rewrite !(Hk "connection_status"), !(Hk "device_info"),
      !(Hk "features_supported"), !(Hk "data_fields_detected"),
      !(Hk "protocol_type"), !(Hk "sim_mode_support"), !(Hk "issues_found") by done.
    cbn [negb]. unfold obind.
    repeat match goal with
    | |- try_except (Ok _) _ = try_except (Ok _) _ =>
        cbn [try_except]; apply conclude_overwrite
    | |- try_except (Raise _) _ = try_except (Raise _) _ =>
        cbn [try_except]; apply conclude_overwrite
    | |- try_except (Ok (try_except _ _)) _ = _ => cbn [try_except]
    | |- conclude _ _ tr2 = conclude _ _ tr => apply conclude_overwrite
    | |- context [match ?x with _ => _ end] => destruct x
    end. }
  split; [apply Hover|].
  destruct (classifier_ok tr Hne) as (level & reason & Heq).
  rewrite Heq at 1. unfold conclude at 1. apply Hover.
Qed.

End ClassifierMore.

Section ClassifierMoreExamples.
Import AnalyzeResult Scenarios Samples.

Lemma fixable_record_nonempty : fixable_record ≠ ∅.
Proof.
  intros H. apply (f_equal (λ m : pydict, m !! "connection_status")) in H.
  vm_compute in H. discriminate.
Defined.

(** X18 on [fixable_record]. *)
Lemma classifier_writes_verdict_and_reason_witness :
  ∃ level reason,
    level ∈ [IMPOSSIBLE; UNVERIFIABLE_CUSTOM_PROTOCOL; PARTIAL; PARTIAL_FIXABLE; FULL] ∧
    analyze_test_results (λ _ : pyval, EmptyString) (λ _ : pyexn, EmptyString)
      fixable_record !! "compatibility_level"
    = Some (PStr level) ∧
    analyze_test_results (λ _ : pyval, EmptyString) (λ _ : pyexn, EmptyString)
      fixable_record !! "reasons"
    = Some (PList [PStr reason]) ∧
    ∀ k, k ≠ "compatibility_level" → k ≠ "reasons" →
         analyze_test_results (λ _ : pyval, EmptyString) (λ _ : pyexn, EmptyString)
           fixable_record !! k
         = fixable_record !! k.
Proof.
  apply (classifier_writes_verdict_and_reason (λ _ : pyval, EmptyString)
           (λ _ : pyexn, EmptyString) fixable_record).
  apply fixable_record_nonempty.
Defined.

(** X19 on [fixable_record] with a verdict left by an earlier run. *)
Lemma classifier_ignores_previous_verdict_witness :
  analyze_test_results (λ _ : pyval, EmptyString) (λ _ : pyexn, EmptyString)
    (<["reasons" := PList []]> (<["compatibility_level" := PStr FULL]> fixable_record))
  = analyze_test_results (λ _ : pyval, EmptyString) (λ _ : pyexn, EmptyString)
      fixable_record ∧
  analyze_test_results (λ _ : pyval, EmptyString) (λ _ : pyexn, EmptyString)
    (analyze_test_results (λ _ : pyval, EmptyString) (λ _ : pyexn, EmptyString)
       fixable_record)
  = analyze_test_results (λ _ : pyval, EmptyString) (λ _ : pyexn, EmptyString)
      fixable_record.
Proof.
  apply (classifier_ignores_previous_verdict (λ _ : pyval, EmptyString)
           (λ _ : pyexn, EmptyString) fixable_record (PStr FULL) (PList [])).
  apply fixable_record_nonempty.
Defined.

End ClassifierMoreExamples.

(** ** The rules before the FTMS analysis *)

Section ClassifierRules.
Import AnalyzeResult.
Variable str_lower : pyval → string.
Variable exn_text : pyexn → string.

Lemma lookup_nonempty (tr : pydict) k v : tr !! k = Some v → tr ≠ ∅.
Proof. intros H ->. by rewrite lookup_empty in H. Qed.

(** X20: for a connected device whose record holds both the speed and
    the cadence field, the protocol name alone decides when it is not
    FTMS: a vendor protocol cannot be verified (the reason names it),
    the sensor-only protocol is a partial compatibility, and any
    other name is not supported, whatever the simulation mode flag
    and the anomalies say. *)
Theorem verdict_by_protocol tr fields p :
  truthy (default (PBool false) (tr !! "connection_status")) = true →
  dict_or_missing (tr !! "device_info") →
  tr !! "data_fields_detected" = Some (PDict fields) →
  is_Some (fields !! "speed") →
  is_Some (fields !! "cadence") →
  tr !! "protocol_type" = Some (PStr p) →
  (p ∈ ["MOBI (커스텀)"; "REBORN (커스텀)"; "TACX (커스텀)"] →
   analyze_test_results str_lower exn_text tr
   = conclude UNVERIFIABLE_CUSTOM_PROTOCOL
       (p +:+ " 프로토콜은 현재 호환성 확인이 불가능합니다.") tr) ∧
  (p = "CSC (표준)" →
   analyze_test_results str_lower exn_text tr
   = conclude PARTIAL "CSC 프로토콜은 속도/캐던스 데이터만 제공합니다." tr) ∧
  (p ∉ ["MOBI (커스텀)"; "REBORN (커스텀)"; "TACX (커스텀)"; "FTMS (표준)"; "CSC (표준)"] →
   analyze_test_results str_lower exn_text tr
   = conclude IMPOSSIBLE "지원되지 않는 프로토콜입니다." tr).
Proof.
  intros Hconn Hinfo Hfields Hs Hc Hproto.
  destruct (speed_and_cadence_detected fields Hs Hc) as [Hboth Hpor].
  destruct (device_info_dict _ Hinfo) as [info Hinfo'].
  unfold analyze_test_results, analyze_body.
  rewrite (nonempty_truthy tr) by (by eapply lookup_nonempty).
  rewrite Hconn, Hinfo', Hfields, Hproto. cbn [negb get obind default from_option id].
  rewrite Hboth. cbn [obind]. rewrite orb_true_r. cbn [negb].
  cbn [existsb eq_str fstring].
  split_and!.
  - intros Hin. apply list_elem_of_In in Hin. simpl in Hin.
    destruct Hin as [<-|[<-|[<-|[]]]]; reflexivity.
  - intros ->. reflexivity.
  - intros Hnin. rewrite !not_elem_of_cons in Hnin.
    destruct Hnin as (H1 & H2 & H3 & H4 & H5 & _).
    rewrite !orb_false_r.
    apply String.eqb_neq in H1, H2, H3, H4, H5.
    by rewrite H1, H2, H3, H4, H5.
Qed.

Lemma any_no_hit (f : pyval → outcome bool) l :
  Forall (λ x, f x = Ok false) l → any f l = Ok false.
Proof. induction 1 as [|x l Hx _ IH]; [done|]. simpl. by rewrite Hx. Qed.

Lemma por_dict (m : pydict) : por (PDict m) (PDict ∅) = PDict m.
Proof.
  unfold por. simpl. destruct (size m =? 0)%nat eqn:E; [|done].
  apply Nat.eqb_eq, map_size_empty_iff in E. by subst.
Qed.

(** X21: a connected device is incompatible when none of its services
    reads as a speed-and-cadence service, neither CSC characteristic
    is marked and not both fields were detected, whatever its
    protocol and its simulation mode flag: a working simulation mode
    does not help a device that shows only one of the two fields. *)
Theorem no_sensor_signal_is_impossible tr info svs feats fields :
  truthy (default (PBool false) (tr !! "connection_status")) = true →
  tr !! "device_info" = Some (PDict info) →
  info !! "services" = Some (PList svs) →
  Forall (λ service,
            contains "1816" (str_lower service) = false ∧
            contains "cycling_speed_and_cadence" (str_lower service) = false)
         svs →
  tr !! "features_supported" = Some (PDict feats) →
  truthy (default (PBool false) (feats !! "CSC Measurement")) = false →
  truthy (default (PBool false) (feats !! "CSC Feature")) = false →
  tr !! "data_fields_detected" = Some (PDict fields) →
  fields !! "speed" = None ∨ fields !! "cadence" = None →
  analyze_test_results str_lower exn_text tr
  = conclude IMPOSSIBLE
      "필수 정보인 속도/캐던스 센서 또는 데이터가 발견되지 않았습니다." tr.
Proof.
  intros Hconn Hinfo Hsrv Hsvs Hfeat Hm Hf Hfields Hmissing.
  unfold analyze_test_results, analyze_body.
  rewrite (nonempty_truthy tr) by (by eapply lookup_nonempty).
  rewrite Hconn, Hinfo, Hfeat, Hfields. cbn [negb default from_option id].
  rewrite !por_dict. cbn [get]. rewrite Hsrv.
  cbn [obind default from_option id is_none].
  assert (has_csc_service_of str_lower (PList svs) = false) as ->.
  { unfold has_csc_service_of. cbn [iter obind].
    rewrite any_no_hit; [done|].
    eapply Forall_impl; [exact Hsvs|]. by intros service [-> ->]. }
  assert (truthy (has_csc_features_of (PDict feats)) = false) as ->.
  { unfold has_csc_features_of. cbn [get obind]. rewrite Hm. exact Hf. }
  assert (has_speed_and_cadence_of (PDict fields) = Ok false) as ->.
  { unfold has_speed_and_cadence_of. cbn [str_in obind].
    destruct Hmissing as [Hs|Hc].
    - rewrite Hs. rewrite bool_decide_eq_false_2; [done|]. by intros [? ?].
    - rewrite Hc. rewrite (bool_decide_eq_false_2 (is_Some None)) by (by intros [? ?]).
      by destruct (bool_decide _). }
  reflexivity.
Qed.

(** X22: a detected-field entry that is stored but is not a container
    ([None] or a number) makes the analysis of a connected device fail
    inside, whatever else the record says; the failure is reported as
    IMPOSSIBLE with the error text as reason. *)
Theorem malformed_fields_give_error_verdict tr v :
  truthy (default (PBool false) (tr !! "connection_status")) = true →
  dict_or_missing (tr !! "device_info") →
  tr !! "data_fields_detected" = Some v →
  match v with PNone | PBool _ | PInt _ | PFloat _ => True | _ => False end →
  analyze_test_results str_lower exn_text tr
  = conclude IMPOSSIBLE ("분석 중 오류가 발생했습니다: " +:+ exn_text TypeError) tr.
Proof.
  intros Hconn Hinfo Hfields Hv.
  destruct (device_info_dict _ Hinfo) as [info Hinfo'].
  unfold analyze_test_results, analyze_body.
  rewrite (nonempty_truthy tr) by (by eapply lookup_nonempty).
  rewrite Hconn, Hinfo', Hfields. cbn [negb get obind default from_option id].
  by destruct v.
Qed.

End ClassifierRules.

Section ClassifierRulesExamples.
Import AnalyzeResult Scenarios Samples.

(** X20 on [csc_record]. *)
Lemma verdict_by_protocol_witness :
  analyze_test_results fstring (λ _ : pyexn, EmptyString) csc_record
  = conclude PARTIAL "CSC 프로토콜은 속도/캐던스 데이터만 제공합니다." csc_record.
Proof.
  apply (verdict_by_protocol fstring (λ _ : pyexn, EmptyString) csc_record
           (<["speed" := PFloat 100]> {[ "cadence" := PFloat 50 ]}) "CSC (표준)").
  - vm_compute. reflexivity.
  - right. right. by exists ∅.
  - vm_compute. reflexivity.
  - by eexists.
  - by eexists.
  - vm_compute. reflexivity.
  - reflexivity.
Defined.

(** X21 on [speed_only_record], an FTMS device with a working
    simulation mode that never showed its cadence. *)
Lemma no_sensor_signal_is_impossible_witness :
  analyze_test_results fstring (λ _ : pyexn, EmptyString) speed_only_record
  = conclude IMPOSSIBLE
      "필수 정보인 속도/캐던스 센서 또는 데이터가 발견되지 않았습니다."
      speed_only_record.
Proof.
  apply (no_sensor_signal_is_impossible fstring (λ _ : pyexn, EmptyString)
           speed_only_record
           {[ "services" := PList [PStr "00001826-0000-1000-8000-00805f9b34fb"] ]}
           [PStr "00001826-0000-1000-8000-00805f9b34fb"]
           {[ "cadence" := PBool true ]}
           {[ "speed" := PFloat 100 ]}).
  - vm_compute. reflexivity.
  - vm_compute. reflexivity.
  - vm_compute. reflexivity.
  - repeat constructor.
  - vm_compute. reflexivity.
  - vm_compute. reflexivity.
  - vm_compute. reflexivity.
  - vm_compute. reflexivity.
  - right. vm_compute. reflexivity.
Defined.

(** X22 on [reset_record], a sensor-only device that would otherwise
    be a partial compatibility. *)
Lemma malformed_fields_give_error_verdict_witness :
  analyze_test_results fstring (λ _ : pyexn, EmptyString) reset_record
  = conclude IMPOSSIBLE ("분석 중 오류가 발생했습니다: " +:+ EmptyString) reset_record.
Proof.
  apply (malformed_fields_give_error_verdict fstring (λ _ : pyexn, EmptyString)
           reset_record PNone).
  - vm_compute. reflexivity.
  - left. vm_compute. reflexivity.
  - vm_compute. reflexivity.
  - exact I.
Defined.

End ClassifierRulesExamples.

(** ** The commands sent *)

Section CommandEncoding.
Import Constants DeviceProbe DataHandler.

Lemma bytearray_byte n :
  0 ≤ n < 256 → ∃ b, Byte.of_N (Z.to_N n) = Some b ∧ byte_val b = n.
Proof.
  intros Hn. destruct (Byte.of_N (Z.to_N n)) as [b|] eqn:E.
  - exists b. split; [done|]. unfold byte_val.
    apply Byte.to_of_N in E. rewrite E. lia.
  - apply Byte.of_N_None_iff in E. lia.
Qed.

Lemma land_255 n : Z.land n 0xFF = n mod 256.
Proof. change 0xFF with (Z.ones 8). by rewrite Z.land_ones. Qed.

Lemma bytearray_cons n rest bs :
  0 ≤ n < 256 → bytearray rest = Some bs →
  ∃ b, bytearray (n :: rest) = Some (b :: bs) ∧ byte_val b = n.
Proof.
  intros Hn Hrest. destruct (bytearray_byte n Hn) as (b & Hb & Hv).
  exists b. split; [|done]. cbn [bytearray]. rewrite Hb, Hrest.
  destruct (0 <=? n) eqn:E1; [|lia]. destruct (n <? 256) eqn:E2; [done|lia].
Qed.

(** X23: [SET_TARGET_POWER] never raises, for any integer: the
    command is the opcode the acknowledgement table names
    SET_TARGET_POWER followed by two bytes that read, little-endian,
    as the power modulo 65536; a power beyond 16 bits, or a negative
    one, wraps around silently. *)
Theorem set_target_power_encoding watts :
  ∃ op lo hi,
    SET_TARGET_POWER watts = Some [op; lo; hi] ∧
    command_name_of op = "SET_TARGET_POWER" ∧
    from_bytes_little [lo; hi] = watts mod 65536.
Proof.
  unfold SET_TARGET_POWER. rewrite !land_255.
  destruct (bytearray_cons (Z.shiftr watts 8 mod 256) [] [])
    as (hi & Hhi & Vhi); [apply Z.mod_pos_bound; lia|done|].
  destruct (bytearray_cons (watts mod 256) _ _ (Z.mod_pos_bound watts 256 eq_refl) Hhi)
    as (lo & Hlo & Vlo).
  destruct (bytearray_cons 0x05 _ _ ltac:(lia) Hlo) as (op & Hop & Vop).
  exists op, lo, hi. split_and!; [done| |].
  - unfold command_name_of. by rewrite Vop.
  - cbn [from_bytes_little]. rewrite Vlo, Vhi, Z.shiftr_div_pow2 by lia.
    change (2 ^ 8) with 256. change 65536 with (256 * 256).
    rewrite Z.rem_mul_r by lia. lia.
Qed.

(** X24: the command of the resistance test never raises: it is the
    opcode named SET_RESISTANCE_LEVEL followed by one byte, the middle
    of the range modulo 256 when the range is known and 8 otherwise;
    a middle of 256 or more wraps around silently. *)
Theorem resistance_test_command_encoding range :
  ∃ op level,
    resistance_test_command range = Some [op; level] ∧
    command_name_of op = "SET_RESISTANCE_LEVEL" ∧
    byte_val level
    = match range with
      | Some (min_resistance, max_resistance) =>
          ((min_resistance + max_resistance) / 2) mod 256
      | None => 8
      end.
Proof.
  assert (∀ l, ∃ op level, SET_RESISTANCE_LEVEL l = Some [op; level] ∧
            command_name_of op = "SET_RESISTANCE_LEVEL" ∧
            byte_val level = l mod 256) as Hset.
  { intros l. unfold SET_RESISTANCE_LEVEL. rewrite land_255.
    destruct (bytearray_cons (l mod 256) [] []) as (b & Hb & Vb);
      [apply Z.mod_pos_bound; lia|done|].
    destruct (bytearray_cons 0x04 _ _ ltac:(lia) Hb) as (op & Hop & Vop).
    exists op, b. split_and!; [done| |done].
    unfold command_name_of. by rewrite Vop. }
  destruct range as [[lo hi]|]; unfold resistance_test_command; [apply Hset|].
  destruct (Hset 8) as (op & level & H1 & H2 & H3). by exists op, level.
Qed.

End CommandEncoding.

(** ** Features and protocol of the connected device *)

Section FeatureBits.
Import Constants DeviceProbe.

Lemma note_features_lookup bits table (m : pydict) name :
  fold_left (note_feature bits) table m !! name
  = if existsb (λ e : Z * string,
                  String.eqb e.2 name && negb (Z.land bits e.1 =? 0)) table
    then Some (PBool true) else m !! name.
Proof.
  revert m. induction table as [|e table IH]; intros m; [done|].
  cbn [fold_left existsb]. rewrite IH. unfold note_feature.
  destruct (existsb _ table); [by rewrite orb_true_r|]. rewrite orb_false_r.
  destruct (negb (Z.land bits e.1 =? 0)); [|by rewrite andb_false_r].
  rewrite andb_true_r. destruct (String.eqb_spec e.2 name) as [->|Hne].
  - by rewrite lookup_insert_eq.
  - by rewrite lookup_insert_ne.
Qed.

Lemma from_bytes_little_low bs :
  from_bytes_little bs mod 65536 = from_bytes_little (take 2 bs).
Proof.
  assert (∀ b, 0 ≤ byte_val b < 256) as Hb.
  { intros b. unfold byte_val. pose proof (Byte.to_N_bounded b). lia. }
  destruct bs as [|b0 [|b1 rest]]; cbn [take from_bytes_little];
    rewrite ?take_0; cbn [from_bytes_little].
  - done.
  - pose proof (Hb b0). apply Z.mod_small. lia.
  - pose proof (Hb b0). pose proof (Hb b1).
    replace (byte_val b0 + 256 * (byte_val b1 + 256 * from_bytes_little rest))
      with ((byte_val b0 + 256 * (byte_val b1 + 256 * 0))
            + from_bytes_little rest * 65536) by lia.
    rewrite Z.mod_add by lia. apply Z.mod_small. lia.
Qed.

Lemma feature_table_low :
  Forall (λ e : Z * string, Z.land 0xFFFF e.1 = e.1) feature_table.
Proof. repeat constructor. Qed.

Lemma note_feature_low bits (m : pydict) e :
  e ∈ feature_table →
  note_feature (bits mod 65536) m e = note_feature bits m e.
Proof.
  intros He. unfold note_feature.
  pose proof (proj1 (Forall_forall _ _) feature_table_low e He) as Hlow.
  simpl in Hlow.
  change 65536 with (2 ^ 16). rewrite <- Z.land_ones by lia.
  change (Z.ones 16) with 0xFFFF. by rewrite <- Z.land_assoc, Hlow.
Qed.

Lemma fold_note_feature_low bits table (m : pydict) :
  (∀ e, e ∈ table → e ∈ feature_table) →
  fold_left (note_feature (bits mod 65536)) table m
  = fold_left (note_feature bits) table m.
Proof.
  revert m. induction table as [|e table IH]; intros m Hin; [done|].
  cbn [fold_left]. rewrite note_feature_low by (apply Hin; left).
  apply IH. intros e' He'. apply Hin. by right.
Qed.

(** X25: a feature is listed exactly when its bit of the feature word
    is set, always with the value [True] (an unsupported feature is
    absent, never [False]); only the first two bytes of the feature
    characteristic matter. *)
Theorem feature_listed_iff_bit_set feature_data name :
  (features_of feature_data !! name = Some (PBool true) ↔
   ∃ bit, (bit, name) ∈ feature_table ∧
          Z.land (from_bytes_little feature_data) bit ≠ 0) ∧
  (features_of feature_data !! name = None ∨
   features_of feature_data !! name = Some (PBool true)) ∧
  features_of feature_data = features_of (take 2 feature_data).
Proof.
  unfold features_of. rewrite !note_features_lookup, lookup_empty.
  split_and!.
  - split.
    + destruct (existsb _ _) eqn:E; [|done]. intros _.
      apply existsb_exists in E as ([bit n] & Hin & Hb). simpl in Hb.
      apply andb_true_iff in Hb as [Hn Hb]. apply String.eqb_eq in Hn as ->.
      exists bit. split; [by apply list_elem_of_In|].
      apply negb_true_iff, Z.eqb_neq in Hb. done.
    + intros (bit & Hin & Hb).
      assert (existsb (λ e : Z * string,
                String.eqb e.2 name
                && negb (Z.land (from_bytes_little feature_data) e.1 =? 0))
                feature_table = true) as ->; [|done].
      apply existsb_exists. exists (bit, name). split; [by apply list_elem_of_In|].
      simpl. rewrite String.eqb_refl. simpl. by apply negb_true_iff, Z.eqb_neq.
  - destruct (existsb _ _); auto.
  - rewrite <- from_bytes_little_low. by rewrite fold_note_feature_low.
Qed.

End FeatureBits.

Section ProtocolDetection.
Import Constants Scanner DeviceProbe ProbeShape.

Lemma note_service_unrecognised acc s :
  recognised s = false → note_service acc s = acc.
Proof.
  unfold recognised, note_service. cbn [existsb supported_services].
  destruct acc as [p l]. rewrite !orb_false_iff.
  intros (-> & -> & -> & -> & -> & _). done.
Qed.

Lemma fold_note_service_unrecognised svs acc :
  Forall (λ s, recognised s = false) svs → fold_left note_service svs acc = acc.
Proof.
  intros H. revert acc. induction H as [|s svs Hs _ IH]; intros acc; [done|].
  cbn [fold_left]. by rewrite note_service_unrecognised.
Qed.

Lemma note_service_decided p l s :
  p ≠ "UNKNOWN" → (note_service (p, l) s).1 = p.
Proof.
  intros Hp. apply String.eqb_neq in Hp. unfold note_service. rewrite Hp.
  by repeat case_match.
Qed.

Lemma fold_note_service_decided svs p l :
  p ≠ "UNKNOWN" → (fold_left note_service svs (p, l)).1 = p.
Proof.
  revert p l. induction svs as [|s svs IH]; intros p l Hp; [done|].
  cbn [fold_left]. pose proof (note_service_decided p l s Hp) as H.
  destruct (note_service (p, l) s) as [p' l'] eqn:E. simpl in H. subst p'.
  by apply IH.
Qed.

Lemma note_service_ftms p l s :
  existsb (String.eqb "FTMS") (note_service (p, l) s).2
  = existsb (String.eqb "FTMS") l || String.eqb s (lower FTMS_SERVICE_UUID).
Proof.
  unfold note_service.
  destruct (String.eqb s (lower FTMS_SERVICE_UUID)) eqn:E.
  - cbn [snd]. rewrite existsb_app. by destruct (existsb _ l).
  - repeat case_match; cbn [snd]; rewrite ?existsb_app;
      by destruct (existsb _ l).
Qed.

Lemma fold_note_service_ftms svs p l :
  existsb (String.eqb "FTMS") (fold_left note_service svs (p, l)).2
  = existsb (String.eqb "FTMS") l
    || existsb (λ s, String.eqb s (lower FTMS_SERVICE_UUID)) svs.
Proof.
  revert p l. induction svs as [|s svs IH]; intros p l.
  - simpl. by rewrite orb_false_r.
  - cbn [fold_left existsb]. pose proof (note_service_ftms p l s) as H.
    destruct (note_service (p, l) s) as [p' l'] eqn:E. cbn [snd] in H.
    rewrite IH, H. by rewrite orb_assoc.
Qed.

(** X26: without information from the scan, the protocol of the
    connected device is FTMS whenever the FTMS service is among its
    services, wherever it stands; otherwise the first recognised
    service names it, and a device with no recognised service is
    UNKNOWN with an empty protocol list. *)
Theorem detect_protocol_from_services detected_services :
  (lower FTMS_SERVICE_UUID ∈ detected_services →
   (detect_protocol None detected_services).1 = "FTMS (표준)") ∧
  (∀ before uuid name after,
     (uuid, name) ∈ [ (CSC_SERVICE_UUID, "CSC (표준)");
                      (MOBI_SERVICE_UUID, "MOBI (커스텀)");
                      (REBORN_SERVICE_UUID, "REBORN (커스텀)");
                      (TACX_SERVICE_UUID, "TACX (커스텀)") ] →
     detected_services = before ++ lower uuid :: after →
     Forall (λ s, recognised s = false) before →
     lower FTMS_SERVICE_UUID ∉ after →
     (detect_protocol None detected_services).1 = name) ∧
  (Forall (λ s, recognised s = false) detected_services →
   detect_protocol None detected_services = ("UNKNOWN", [])).
Proof.
  unfold detect_protocol. split_and!.
  - intros Hin.
    pose proof (fold_note_service_ftms detected_services "UNKNOWN" []) as H.
    destruct (fold_left _ _ _) as [p l]. cbn [snd] in H. cbn [fst]. rewrite H.
    assert (existsb (λ s, String.eqb s (lower FTMS_SERVICE_UUID)) detected_services
            = true) as ->; [|done].
    apply existsb_exists. exists (lower FTMS_SERVICE_UUID).
    split; [by apply list_elem_of_In|apply String.eqb_refl].
  - intros before uuid name after Hun -> Hbefore Hafter.
    rewrite fold_left_app, (fold_note_service_unrecognised before) by done.
    cbn [fold_left].
    assert (existsb (λ s, String.eqb s (lower FTMS_SERVICE_UUID)) after = false)
      as Hno.
    { apply not_true_is_false. intros H.
      apply existsb_exists in H as (s & Hs & Heq). apply String.eqb_eq in Heq.
      subst s. by apply Hafter, list_elem_of_In. }
    apply list_elem_of_In in Hun. simpl in Hun.
    destruct Hun as [Hun|[Hun|[Hun|[Hun|[]]]]]; inversion Hun; subst uuid name;
      match goal with
      | |- context [note_service ?acc ?s] =>
          let r := eval vm_compute in (note_service acc s) in
          change (note_service acc s) with r
      end;
      match goal with
      | |- context [fold_left note_service after (?p, ?l)] =>
          pose proof (fold_note_service_ftms after p l) as Hf;
          pose proof (fold_note_service_decided after p l ltac:(done)) as Hd;
          destruct (fold_left note_service after (p, l)) as [p' l']
      end;
      cbn [fst snd] in Hf, Hd; cbn [fst]; rewrite Hf, Hno; by subst p'.
  - intros Hnone. by rewrite fold_note_service_unrecognised.
Qed.

End ProtocolDetection.

(** ** The scan *)

Section ScannerClaims.
Import Constants Scanner ScanShape.
Context {device : Type} `{EqDecision device}.
Variable address : device → string.

Lemma advertised_elem uuid device_services :
  advertised uuid device_services = true ↔ lower uuid ∈ device_services.
Proof.
  unfold advertised. rewrite existsb_exists. split.
  - intros (s & Hs & Heq). apply String.eqb_eq in Heq. subst s.
    by apply list_elem_of_In.
  - intros Hin. exists (lower uuid). split; [by apply list_elem_of_In|].
    apply String.eqb_refl.
Qed.

(** X27: a device seen for the first time with a supported service is
    appended to the list and its protocol information stored under
    its address, other addresses being left alone: the primary
    protocol is never the fallback name, FTMS is primary exactly when
    it is advertised, the sensor protocol is primary only when it is
    the only one, and the protocol list is not empty. *)
Theorem new_device_is_recorded d device_services s :
  d ∉ ftms_devices s →
  (∃ uuid, uuid ∈ supported_services ∧ lower uuid ∈ device_services) →
  ftms_devices (detection_callback address d device_services s)
  = ftms_devices s ++ [d] ∧
  ∃ info,
    device_protocols (detection_callback address d device_services s)
      !! address d = Some info ∧
    primary_protocol info ≠ "기타" ∧
    protocols info ≠ [] ∧
    (primary_protocol info = "FTMS (표준)" ↔
     lower FTMS_SERVICE_UUID ∈ device_services) ∧
    (primary_protocol info = "CSC (표준)" → protocols info = ["CSC"]) ∧
    (∀ k, k ≠ address d →
       device_protocols (detection_callback address d device_services s) !! k
       = device_protocols s !! k).
Proof.
  intros Hnew (uuid & Hsup & Hadv).
  assert (existsb (λ service_uuid, advertised service_uuid device_services)
            supported_services = true) as Hany.
  { apply existsb_exists. exists uuid. split; [by apply list_elem_of_In|].
    by apply advertised_elem. }
  unfold detection_callback. rewrite Hany, bool_decide_eq_false_2 by done.
  cbn [andb negb ftms_devices device_protocols]. split; [done|].
  eexists. split; [apply lookup_insert_eq|].
  cbn [primary_protocol protocols].
  rewrite <- advertised_elem.
  unfold protocol_type_of, supported_protocols_of.
  cbn [existsb supported_services] in Hany.
  destruct (advertised FTMS_SERVICE_UUID device_services),
    (advertised CSC_SERVICE_UUID device_services),
    (advertised MOBI_SERVICE_UUID device_services),
    (advertised REBORN_SERVICE_UUID device_services),
    (advertised TACX_SERVICE_UUID device_services);
    try discriminate Hany;
    (split_and!; [done|done|done|done|intros k Hk; by rewrite lookup_insert_ne]).
Qed.

(** X28: the callback keeps the list free of duplicates and every
    listed device with stored protocol information; a device already
    listed changes nothing, so an advertisement seen twice counts
    once. *)
Theorem scan_invariant d device_services s :
  scan_ok address s →
  scan_ok address (detection_callback address d device_services s) ∧
  (d ∈ ftms_devices s →
   detection_callback address d device_services s = s) ∧
  detection_callback address d device_services
    (detection_callback address d device_services s)
  = detection_callback address d device_services s.
Proof.
  intros [Hnodup Hinfo]. split_and!.
  - unfold detection_callback.
    destruct (existsb _ _); [|done]. cbn [andb].
    destruct (decide (d ∈ ftms_devices s)) as [Hin|Hnin].
    + by rewrite bool_decide_eq_true_2.
    + rewrite bool_decide_eq_false_2 by done. cbn [negb]. split.
      * cbn [ftms_devices]. apply NoDup_app. split_and!; [done| |apply NoDup_singleton].
        intros x Hx Hx'. apply list_elem_of_singleton in Hx'. by subst.
      * cbn [ftms_devices device_protocols]. intros d' Hd'.
        destruct (decide (address d' = address d)) as [->|Hne].
        { rewrite lookup_insert_eq. eauto. }
        rewrite lookup_insert_ne by done.
        apply elem_of_app in Hd' as [Hd'|Hd']; [by apply Hinfo|].
        apply list_elem_of_singleton in Hd'. by subst.
  - intros Hin. unfold detection_callback.
    rewrite bool_decide_eq_true_2 by done. by rewrite andb_false_r.
  - unfold detection_callback at 2 3.
    destruct (existsb _ _) eqn:E; cbn [andb].
    + destruct (decide (d ∈ ftms_devices s)) as [Hin|Hnin].
      * rewrite bool_decide_eq_true_2 by done. cbn [negb].
        unfold detection_callback.
        rewrite bool_decide_eq_true_2 by done. by rewrite andb_false_r.
      * rewrite bool_decide_eq_false_2 by done. cbn [negb].
        unfold detection_callback. cbn [ftms_devices].
        rewrite bool_decide_eq_true_2 by (apply elem_of_app; right; by left).
        by rewrite andb_false_r.
    + unfold detection_callback. by rewrite E.
Qed.

End ScannerClaims.

Section ScannerExamples.
Import Constants Scanner ScanShape Samples.

(** X27 on device 7 advertising the sensor service and the FTMS
    service, in this order. *)
Lemma new_device_is_recorded_witness :
  ftms_devices
    (detection_callback address_of 7%nat
       [lower CSC_SERVICE_UUID; lower FTMS_SERVICE_UUID] scan_empty)
  = ftms_devices scan_empty ++ [7%nat] ∧
  ∃ info,
    device_protocols
      (detection_callback address_of 7%nat
         [lower CSC_SERVICE_UUID; lower FTMS_SERVICE_UUID] scan_empty)
      !! address_of 7%nat = Some info ∧
    primary_protocol info ≠ "기타" ∧
    protocols info ≠ [] ∧
    (primary_protocol info = "FTMS (표준)" ↔
     lower FTMS_SERVICE_UUID ∈ [lower CSC_SERVICE_UUID; lower FTMS_SERVICE_UUID]) ∧
    (primary_protocol info = "CSC (표준)" → protocols info = ["CSC"]) ∧
    (∀ k, k ≠ address_of 7%nat →
       device_protocols
         (detection_callback address_of 7%nat
            [lower CSC_SERVICE_UUID; lower FTMS_SERVICE_UUID] scan_empty) !! k
       = device_protocols scan_empty !! k).
Proof.
  apply (new_device_is_recorded address_of 7%nat
           [lower CSC_SERVICE_UUID; lower FTMS_SERVICE_UUID] scan_empty).
  - simpl. apply not_elem_of_nil.
  - exists FTMS_SERVICE_UUID. split.
    + apply list_elem_of_here.
    + apply list_elem_of_further, list_elem_of_here.
Defined.

(** X28 on the empty scan. *)
Lemma scan_invariant_witness :
  scan_ok address_of
    (detection_callback address_of 7%nat [lower FTMS_SERVICE_UUID] scan_empty) ∧
  (7%nat ∈ ftms_devices scan_empty →
   detection_callback address_of 7%nat [lower FTMS_SERVICE_UUID] scan_empty
   = scan_empty) ∧
  detection_callback address_of 7%nat [lower FTMS_SERVICE_UUID]
    (detection_callback address_of 7%nat [lower FTMS_SERVICE_UUID] scan_empty)
  = detection_callback address_of 7%nat [lower FTMS_SERVICE_UUID] scan_empty.
Proof.
  apply (scan_invariant address_of 7%nat [lower FTMS_SERVICE_UUID] scan_empty).
  split.
  - apply NoDup_nil_2.
  - intros d Hd. simpl in Hd. by apply elem_of_nil in Hd.
Defined.

End ScannerExamples.

(** ** What a notification can change *)

Section FrameClaims.
Import DataHandler Session BufferShape.
Variable exn_text : pyexn → string.

(** X29: the parser writes nothing but the two capability flags: the
    packet buffer, the two handles and every other entry of the
    record are after a call what they were before it, whether the
    call returns or raises. *)
Theorem parser_writes_only_capabilities data flags w :
  packet_buffer (snd (process_indoor_bike_data data flags w)) = packet_buffer w ∧
  cp_handle (snd (process_indoor_bike_data data flags w)) = cp_handle w ∧
  data_handle (snd (process_indoor_bike_data data flags w)) = data_handle w ∧
  ∀ k, k ≠ "resistance_control" → k ≠ "sim_mode_support" →
       test_results (snd (process_indoor_bike_data data flags w)) !! k
       = test_results w !! k.
Proof.
  destruct (process_indoor_bike_data data flags w) as [o w'] eqn:Hrun.
  by apply process_frame in Hrun.
Qed.

Lemma append_issue_handles msg w :
  cp_handle (snd (append_issue msg w)) = cp_handle w ∧
  data_handle (snd (append_issue msg w)) = data_handle w.
Proof.
  unfold append_issue, set_test_results.
  by destruct (test_results w !! "issues_found") as [[| | | | |l|]|].
Qed.

(** X30: a notification changes at most five entries of the record:
    the ledger of tested commands, the two capability flags, the
    detected fields and the anomaly list. Every other entry (the
    verdict and its reasons, the protocol, the device identity, the
    connection status) is left as it was, and so are the two handles,
    whoever the sender is and whether or not the handling fails. *)
Theorem handler_writes_only sender data w :
  cp_handle (snd (notification_handler exn_text sender data w)) = cp_handle w ∧
  data_handle (snd (notification_handler exn_text sender data w)) = data_handle w ∧
  ∀ k, k ∉ ["control_commands_tested"; "resistance_control"; "sim_mode_support";
            "data_fields_detected"; "issues_found"] →
       test_results (snd (notification_handler exn_text sender data w)) !! k
       = test_results w !! k.
Proof.
  assert (∀ o w1, handler_body sender data w = (o, w1) →
            cp_handle w1 = cp_handle w ∧ data_handle w1 = data_handle w ∧
            ∀ k, k ∉ ["control_commands_tested"; "resistance_control";
                      "sim_mode_support"; "data_fields_detected"; "issues_found"] →
                 test_results w1 !! k = test_results w !! k) as Hbody.
  { intros o w1. unfold handler_body, bind, gets. simpl.
    destruct (bool_decide (sender = cp_handle w)).
    { intros H. apply handle_control_point_frame in H as (_ & Hcp & Hdh & Hk).
      split_and!; [done|done|]. intros k Hnk. apply Hk.
      rewrite !not_elem_of_cons in Hnk. by destruct Hnk as (? & _). }
    destruct (bool_decide (sender = data_handle w)).
    { intros H. apply handle_bike_data_frame in H as (Hcp & Hdh & Hk & _).
      split_and!; [done|done|]. intros k Hnk. apply Hk.
      rewrite !not_elem_of_cons in Hnk. destruct Hnk as (_ & ? & ? & ? & _).
      unfold data_keys. rewrite !not_elem_of_cons. split_and!; try done.
      apply not_elem_of_nil. }
    by intros [= <- <-]. }
  unfold notification_handler, try_catch. fold (handler_body sender data).
  destruct (handler_body sender data w) as [o w1] eqn:Hrun.
  specialize (Hbody o w1 eq_refl). destruct Hbody as (Hcp & Hdh & Hk).
  destruct o as [[]|e]; [done|].
  set (msg := "Notification processing error: " +:+ exn_text e).
  destruct (append_issue_handles msg w1) as [Hcp2 Hdh2].
  destruct (append_issue msg w1) as [o w2] eqn:Happ.
  apply append_issue_frame in Happ as (_ & _ & Hk2). simpl in *.
  split_and!; [congruence|congruence|].
  intros k Hnk. rewrite Hk2; [by apply Hk|].
  rewrite !not_elem_of_cons in Hnk. by destruct Hnk as (_ & _ & _ & _ & ? & _).
Qed.

End FrameClaims.
